(** * Scoring, badge-eligibility and leaderboard engine

    A shallow embedding of [src/api/scoring-algorithm.js]
    (classes [PromptScoringEngine], [BadgeEligibilityEngine] and
    [LeaderboardEngine]) together with the properties stated for it.

    Conventions of the embedding.
    - A JavaScript number holding a count is a [Z]; a number holding a
      decimal (ratings, day counts, multipliers) is an exact rational [Q].
      Decimal literals of the source ([0.4], [0.95], [1.5] ...) are the
      rationals they denote; IEEE-754 rounding, [NaN] and the infinities are
      outside the model.
    - [Math.round] is rounding half up, [Math_round].
    - [Math.log10] is a platform primitive; the scoring engine is
      parametrised by it ([Section Scoring], variable [log10]).
    - The wall clock ([Date.now()], [new Date()]) is an explicit argument
      [now], the time value in milliseconds since the epoch.
    - An object literal is a record, an array a list, [Object.entries] of an
      object literal the association list of its keys in insertion order.
      A [Set] of strings that is only queried with [has] is a [gset string];
      one that is turned back into an array is the list of its elements in
      insertion order. *)

From Stdlib Require Import ZArith QArith Qround Qminmax Lqa Lia.
From Stdlib Require Import String Ascii List.
From stdpp Require Import base option list sorting gmap sets strings.

Local Open Scope Z_scope.

(** ** JavaScript numeric primitives *)

Module Js.

(** [Math.round(x)]: the integer nearest to [x], ties towards +infinity. *)
Definition Math_round (x : Q) : Z := Qfloor (x + (1 # 2))%Q.

Definition Math_min (x y : Q) : Q := Qmin x y.
Definition Math_max (x y : Q) : Q := Qmax x y.

(** [x > y] and [x < y] on numbers. *)
Definition gtb (x y : Q) : bool := negb (Qle_bool x y).
Definition ltb (x y : Q) : bool := negb (Qle_bool y x).
(** [x >= y]. *)
Definition geb (x y : Q) : bool := Qle_bool y x.

(** [x === y] on numbers. *)
Definition eqb (x y : Q) : bool := Qeq_bool x y.

(** A rational lower bound of the base-10 logarithm on [x >= 1]
    ([log10 x = log2 x * log10 2], and [log10 2 > 0.301]).  It stands in
    for [Math.log10] where the model is run on concrete inputs. *)
Definition log10_lower (x : Q) : Q :=
  (inject_Z (Z.log2 (Qfloor x)) * 0.301)%Q.

(** Milliseconds in a day, [1000 * 60 * 60 * 24]. *)
Definition msPerDay : Z := 1000 * 60 * 60 * 24.

(** *** Arrays *)

(** [Array.prototype.sort(cmp)]: the sort is stable, and [x] stays before
    [y] unless [cmp(x, y) > 0].  For a consistent comparator every stable
    sort returns this list. *)
Fixpoint insertBy {A} (cmp : A -> A -> Q) (x : A) (l : list A) : list A :=
  match l with
  | [] => [x]
  | y :: l' => if gtb (cmp x y) 0%Q then y :: insertBy cmp x l' else x :: l
  end.

Definition Array_sort {A} (cmp : A -> A -> Q) (l : list A) : list A :=
  foldr (insertBy cmp) [] l.

(** The default comparator of [sort()]: strings by code units. *)
Definition defaultCompare (x y : string) : Q :=
  match String.compare x y with
  | Lt => (-1)%Q
  | Eq => 0%Q
  | Gt => 1%Q
  end.

(** [arr.slice(0, end)]: a negative [end] counts from the end of the
    array. *)
Definition Array_slice0 {A} (l : list A) (end_ : Z) : list A :=
  let len := Z.of_nat (length l) in
  let final := if end_ <? 0 then Z.max (len + end_) 0 else Z.min end_ len in
  firstn (Z.to_nat final) l.

(** [arr.reduce((sum, x) => sum + f(x), 0)] on integers and on decimals. *)
Definition sumZ {A} (f : A -> Z) (l : list A) : Z :=
  fold_left (fun sum x => sum + f x) l 0.
Definition sumQ {A} (f : A -> Q) (l : list A) : Q :=
  fold_left (fun sum x => (sum + f x)%Q) l 0%Q.

(** *** Dates *)

(** The value of a decimal digit, by its code unit. *)
Definition digitValue (c : ascii) : option Z :=
  let n := Z.of_N (N_of_ascii c) in
  if (48 <=? n) && (n <=? 57) then Some (n - 48) else None.

(** [InLeapYear], [DayFromYear] and the month table of the ECMAScript
    date algorithms. *)
Definition InLeapYear (y : Z) : bool :=
  (y mod 4 =? 0) && (negb (y mod 100 =? 0) || (y mod 400 =? 0)).

Definition DayFromYear (y : Z) : Z :=
  365 * (y - 1970) + (y - 1969) / 4 - (y - 1901) / 100 + (y - 1601) / 400.

Definition daysInMonth (y m : Z) : Z :=
  match m with
  | 1 | 3 | 5 | 7 | 8 | 10 | 12 => 31
  | 4 | 6 | 9 | 11 => 30
  | 2 => if InLeapYear y then 29 else 28
  | _ => 0
  end.

Definition daysBeforeMonth (y m : Z) : Z :=
  let leap := if InLeapYear y then 1 else 0 in
  match m with
  | 1 => 0
  | 2 => 31
  | 3 => 59 + leap
  | 4 => 90 + leap
  | 5 => 120 + leap
  | 6 => 151 + leap
  | 7 => 181 + leap
  | 8 => 212 + leap
  | 9 => 243 + leap
  | 10 => 273 + leap
  | 11 => 304 + leap
  | _ => 334 + leap
  end.

(** Day number (days since 1970-01-01) of a calendar day. *)
Definition MakeDay (y m d : Z) : Z :=
  DayFromYear y + daysBeforeMonth y m + (d - 1).

Definition validDay (y m d : Z) : bool :=
  (1 <=? m) && (m <=? 12) && (1 <=? d) && (d <=? daysInMonth y m).

(** The date-only form [YYYY-MM-DD] of the ECMAScript date-time string
    format, which [new Date(s)] reads as midnight UTC.  [Date_parse]
    yields the time value, [None] standing for [NaN] (Invalid Date).
    This is the form [calculateUserStats] produces with
    [createdAt.split('T')[0]]; other formats are not modelled. *)
Definition Date_parse (s : string) : option Z :=
  match s with
  | String y1 (String y2 (String y3 (String y4 (String sep1
      (String m1 (String m2 (String sep2
      (String d1 (String d2 EmptyString))))))))) =>
      if Ascii.eqb sep1 "-" && Ascii.eqb sep2 "-" then
        a ← digitValue y1; b ← digitValue y2;
        c ← digitValue y3; d ← digitValue y4;
        e ← digitValue m1; f ← digitValue m2;
        g ← digitValue d1; h ← digitValue d2;
        let year := 1000 * a + 100 * b + 10 * c + d in
        let month := 10 * e + f in
        let day := 10 * g + h in
        if validDay year month day
        then Some (MakeDay year month day * msPerDay)
        else None
      else None
  | _ => None
  end.

(** [str.split('T')[0]]: the part of [str] before the first ['T']. *)
Fixpoint split_T_0 (s : string) : string :=
  match s with
  | EmptyString => EmptyString
  | String c s' =>
      if Ascii.eqb c "T" then EmptyString else String c (split_T_0 s')
  end.

(** [set.add(x)] on a [Set] of strings kept in insertion order, as
    [Array.from(set)] returns it. *)
Definition Set_add (x : string) (set : list string) : list string :=
  if existsb (String.eqb x) set then set else set ++ [x].

(** The property names every object literal inherits from
    [Object.prototype]: [obj[k]] finds a function (for ["__proto__"] the
    prototype object) under them although the literal does not list
    them. *)
Definition inheritedKey (k : string) : bool :=
  existsb (String.eqb k)
    ["constructor"; "__defineGetter__"; "__defineSetter__";
     "hasOwnProperty"; "__lookupGetter__"; "__lookupSetter__";
     "isPrototypeOf"; "propertyIsEnumerable"; "toString"; "valueOf";
     "__proto__"; "toLocaleString"]%string.

End Js.

(** ** Prompt scoring engine *)

Module PromptScoringEngine.

(** The fields [calculateScore] reads from [promptData], after the
    destructuring defaults ([= 0], [= null]) have been applied. *)
Record PromptData := {
  averageRating : Q;
  ratingCount : Z;
  usageCount : Z;
  daysSinceCreated : Q;
  lastUsedDaysAgo : option Q;
  favoriteCount : Z;
  shareCount : Z;
  viewCount : Z;
  commentCount : Z
}.

(** [this.weights] and [this.maxScores], set once by the constructor. *)
Module weights.
Definition rating : Q := 0.4%Q.
Definition usage : Q := 0.3%Q.
Definition recency : Q := 0.2%Q.
Definition engagement : Q := 0.1%Q.
End weights.

Module maxScores.
Definition rating : Q := 100%Q.
Definition usage : Q := 50%Q.
Definition recency : Q := 20%Q.
Definition engagement : Q := 30%Q.
End maxScores.

Definition getConfidenceMultiplier (ratingCount : Z) : Q :=
  if 50 <=? ratingCount then 1.0%Q
  else if 25 <=? ratingCount then 0.95%Q
  else if 10 <=? ratingCount then 0.9%Q
  else if 5 <=? ratingCount then 0.8%Q
  else if 3 <=? ratingCount then 0.7%Q
  else 0.6%Q.

Definition calculateRatingScore (p : PromptData) : Z :=
  if ratingCount p =? 0 then 0
  else
    let score := (((averageRating p - 1) / 4) * maxScores.rating)%Q in
    let confidenceMultiplier := getConfidenceMultiplier (ratingCount p) in
    Js.Math_round (score * confidenceMultiplier).

Definition calculateRecencyScore (p : PromptData) : Z :=
  let recencyScore :=
    Js.Math_max 0 (maxScores.recency - daysSinceCreated p * 0.5)%Q in
  let recencyScore :=
    match lastUsedDaysAgo p with
    | Some last =>
        if Js.ltb last 7%Q
        then (recencyScore + Js.Math_max 0 (10 - last))%Q
        else recencyScore
    | None => recencyScore
    end in
  Js.Math_round (Js.Math_min recencyScore maxScores.recency).

Definition calculateEngagementScore (p : PromptData) : Z :=
  let engagementScore :=
    (inject_Z (favoriteCount p) * 3 +
     inject_Z (shareCount p) * 2 +
     inject_Z (commentCount p) * 1.5 +
     inject_Z (viewCount p) * 0.1)%Q in
  Js.Math_round (Js.Math_min engagementScore maxScores.engagement).

(** The object literal [categoryMultipliers] of
    [applyCategoryAdjustments]. *)
Definition categoryMultipliers : gmap string Q :=
  list_to_map
    [ ("writing-content", 1.0%Q);
      ("code-development", 1.1%Q);
      ("business-marketing", 1.0%Q);
      ("education-learning", 1.05%Q);
      ("creative-design", 1.0%Q);
      ("personal-lifestyle", 0.95%Q) ]%string.

(** [applyCategoryAdjustments(score, promptData, categoryId)].  A listed
    category gives its multiplier ([|| 1.0] replacing a zero), any other
    string gives [1.0], except the names inherited from [Object.prototype]:
    there the lookup yields a function, the product is [NaN] and so is the
    result, here [None]. *)
Definition applyCategoryAdjustments (score : Q) (promptData : PromptData)
    (categoryId : string) : option Z :=
  match categoryMultipliers !! categoryId with
  | Some m =>
      let multiplier := if Js.eqb m 0%Q then 1.0%Q else m in
      Some (Js.Math_round (score * multiplier))
  | None =>
      if Js.inheritedKey categoryId then None
      else Some (Js.Math_round (score * 1.0))
  end.

(** One entry of the object returned by [getScoreBreakdown]. *)
Record Component := {
  score : Z;
  weight : Q;
  contribution : Z
}.

Record ScoreBreakdown := {
  bd_rating : Component;
  bd_usage : Component;
  bd_recency : Component;
  bd_engagement : Component
}.

Section Scoring.

(** [Math.log10]. *)
Variable log10 : Q -> Q.

Definition calculateUsageScore (p : PromptData) : Z :=
  if usageCount p =? 0 then 0
  else
    let usageVelocity :=
      if Js.gtb (daysSinceCreated p) 0%Q
      then (inject_Z (usageCount p) / daysSinceCreated p)%Q
      else inject_Z (usageCount p) in
    let baseScore := (log10 (inject_Z (usageCount p + 1)) * 15)%Q in
    let velocityBonus := Js.Math_min (usageVelocity * 5)%Q 20%Q in
    Js.Math_round (Js.Math_min (baseScore + velocityBonus)%Q maxScores.usage).

(** The argument of the final clamp in [calculateScore]. *)
Definition weightedTotal (p : PromptData) : Z :=
  Js.Math_round
    (inject_Z (calculateRatingScore p) * weights.rating +
     inject_Z (calculateUsageScore p) * weights.usage +
     inject_Z (calculateRecencyScore p) * weights.recency +
     inject_Z (calculateEngagementScore p) * weights.engagement)%Q.

Definition calculateScore (p : PromptData) : Z :=
  let totalScore := weightedTotal p in
  Z.max 0 (Z.min 200 totalScore).

Definition mkComponent (s : Z) (w : Q) : Component :=
  {| score := s; weight := w;
     contribution := Js.Math_round (inject_Z s * w)%Q |}.

Definition getScoreBreakdown (p : PromptData) : ScoreBreakdown :=
  {| bd_rating := mkComponent (calculateRatingScore p) weights.rating;
     bd_usage := mkComponent (calculateUsageScore p) weights.usage;
     bd_recency := mkComponent (calculateRecencyScore p) weights.recency;
     bd_engagement :=
       mkComponent (calculateEngagementScore p) weights.engagement |}.

(** [{...prompt, calculatedScore, scoreBreakdown}]: [sp_prompt] holds the
    fields spread from [prompt]. *)
Record ScoredPrompt := {
  sp_prompt : PromptData;
  calculatedScore : Z;
  scoreBreakdown : ScoreBreakdown
}.

Definition batchCalculateScores (prompts : list PromptData)
    : list ScoredPrompt :=
  map (fun prompt =>
         {| sp_prompt := prompt;
            calculatedScore := calculateScore prompt;
            scoreBreakdown := getScoreBreakdown prompt |})
      prompts.

End Scoring.

End PromptScoringEngine.

(** ** Badge eligibility engine *)

Module BadgeEligibilityEngine.

(** The aggregate [userStats] object returned by [calculateUserStats] and
    read by the badge predicates. *)
Record UserStats := {
  totalPrompts : Z;
  activePrompts : Z;
  totalUsage : Z;
  totalRatings : Z;
  averageRating : Q;
  longestStreak : Z;
  featuredPrompts : Z;
  topRankedPrompts : Z;
  currentBadgeCount : Z
}.

(** A value of [this.badgeCriteria]. *)
Record Criteria := {
  type : string;
  check : UserStats -> bool
}.

(** [Object.entries(this.badgeCriteria)]: the keys are not integer-like, so
    the entries come in the order of the object literal. *)
Definition badgeCriteria : list (string * Criteria) :=
  [ ("first-steps",
     {| type := "submission";
        check := fun stats => totalPrompts stats >=? 1 |});
    ("getting-started",
     {| type := "submission";
        check := fun stats => totalPrompts stats >=? 5 |});
    ("prolific-creator",
     {| type := "submission";
        check := fun stats => totalPrompts stats >=? 25 |});
    ("content-machine",
     {| type := "submission";
        check := fun stats => totalPrompts stats >=? 100 |});
    ("popular-choice",
     {| type := "usage"; check := fun stats => totalUsage stats >=? 100 |});
    ("crowd-favorite",
     {| type := "usage"; check := fun stats => totalUsage stats >=? 500 |});
    ("viral-creator",
     {| type := "usage"; check := fun stats => totalUsage stats >=? 2000 |});
    ("well-received",
     {| type := "score";
        check := fun stats =>
          Js.geb (averageRating stats) 3.5%Q && (totalRatings stats >=? 5) |});
    ("highly-rated",
     {| type := "score";
        check := fun stats =>
          Js.geb (averageRating stats) 4.0%Q && (totalRatings stats >=? 10) |});
    ("excellence",
     {| type := "score";
        check := fun stats =>
          Js.geb (averageRating stats) 4.5%Q && (totalRatings stats >=? 25) |});
    ("perfection",
     {| type := "score";
        check := fun stats =>
          Js.geb (averageRating stats) 4.8%Q && (totalRatings stats >=? 50) |});
    ("consistent",
     {| type := "streak"; check := fun stats => longestStreak stats >=? 7 |});
    ("dedicated",
     {| type := "streak"; check := fun stats => longestStreak stats >=? 30 |});
    ("trendsetter",
     {| type := "special";
        check := fun stats => featuredPrompts stats >=? 1 |});
    ("community-favorite",
     {| type := "special";
        check := fun stats => topRankedPrompts stats >=? 3 |})
  ]%string.

(** An element of [currentBadges]; only [badgeId] is read. *)
Record UserBadge := { ub_badgeId : string }.

(** An element of the array [checkEligibility] returns: [grantType] is its
    [type] field, [earnedAt] the time value that
    [new Date().toISOString()] prints. *)
Record BadgeGrant := {
  badgeId : string;
  grantType : string;
  earnedAt : Z
}.

(** The body of the [for ... of] loop: one entry pushed or not. *)
Definition checkStep (now : Z) (userStats : UserStats)
    (currentBadgeIds : gset string)
    (eligibleBadges : list BadgeGrant) (entry : string * Criteria)
    : list BadgeGrant :=
  let '(badgeId, criteria) := entry in
  if negb (bool_decide (badgeId ∈ currentBadgeIds))
     && check criteria userStats
  then eligibleBadges ++
       [ {| badgeId := badgeId; grantType := type criteria; earnedAt := now |} ]
  else eligibleBadges.

(** [checkEligibility(userStats, currentBadges)] run while the clock reads
    [now]. *)
Definition checkEligibility (now : Z) (userStats : UserStats)
    (currentBadges : list UserBadge) : list BadgeGrant :=
  let currentBadgeIds : gset string :=
    list_to_set (map ub_badgeId currentBadges) in
  fold_left (checkStep now userStats currentBadgeIds) badgeCriteria [].

(** *** Longest streak *)

(** [dayDiff], [None] when one of the two dates is invalid ([NaN]). *)
Definition dayDiff (prev cur : string) : option Q :=
  prevDate ← Js.Date_parse prev;
  currentDate ← Js.Date_parse cur;
  Some (inject_Z (currentDate - prevDate) / inject_Z Js.msPerDay)%Q.

(** One iteration of the loop, on the pair
    [(longestStreak, currentStreak)]. *)
Definition streakStep (prev cur : string) (st : Z * Z) : Z * Z :=
  let '(longestStreak, currentStreak) := st in
  match dayDiff prev cur with
  | Some d =>
      if Js.eqb d 1%Q then
        let currentStreak := currentStreak + 1 in
        (Z.max longestStreak currentStreak, currentStreak)
      else if Js.gtb d 1%Q then (longestStreak, 1)
      else st
  | None => st
  end.

(** The loop from index [i] on, [prev] being [dates[i - 1]] and [rest] the
    elements from [dates[i]]. *)
Fixpoint streakLoop (prev : string) (rest : list string) (st : Z * Z) : Z :=
  match rest with
  | [] => fst st
  | cur :: rest' => streakLoop cur rest' (streakStep prev cur st)
  end.

(** [calculateLongestStreak(dates)].  The call also leaves [dates] sorted in
    place; [sortedDates] is the array after the call. *)
Definition sortedDates (dates : list string) : list string :=
  Js.Array_sort Js.defaultCompare dates.

Definition calculateLongestStreak (dates : list string) : Z :=
  match dates with
  | [] => 0
  | _ =>
      match sortedDates dates with
      | [] => 1
      | first :: rest => streakLoop first rest (1, 1)
      end
  end.

(** *** User statistics *)

(** A prompt as [calculateUserStats] reads it; [createdAt] is an ISO
    time stamp, and an absent [usageCount] reads as [0] ([|| 0]). *)
Record Prompt := {
  id : string;
  status : string;
  usageCount : Z;
  createdAt : string;
  isFeatured : bool;
  score : Z
}.

(** An element of [promptScores] ([ps_score] is its [score] field) and an
    element of [usageAnalytics] ([ue_createdAt] is its [createdAt]
    field). *)
Record PromptScore := {
  promptId : string;
  ps_score : Z
}.

Record UsageEvent := { ue_createdAt : string }.

Record UserData := {
  prompts : list Prompt;
  promptScores : list PromptScore;
  usageAnalytics : list UsageEvent;
  userBadges : list UserBadge
}.

Definition calculateUserStats (userData : UserData) : UserStats :=
  let totalPrompts := Z.of_nat (length (prompts userData)) in
  let activePrompts :=
    Z.of_nat (length (List.filter (fun p => String.eqb (status p) "active")
                                  (prompts userData))) in
  let totalUsage := Js.sumZ usageCount (prompts userData) in
  let ratingsReceived :=
    List.filter
      (fun s => existsb (fun p => String.eqb (id p) (promptId s))
                        (prompts userData))
      (promptScores userData) in
  let totalRatings := Z.of_nat (length ratingsReceived) in
  let averageRating :=
    if totalRatings >? 0
    then (inject_Z (Js.sumZ ps_score ratingsReceived) / inject_Z totalRatings)%Q
    else 0%Q in
  let activityDates :=
    fold_left (fun set p => Js.Set_add (Js.split_T_0 (createdAt p)) set)
              (prompts userData) [] in
  let activityDates :=
    fold_left (fun set a => Js.Set_add (Js.split_T_0 (ue_createdAt a)) set)
              (usageAnalytics userData) activityDates in
  let longestStreak := calculateLongestStreak activityDates in
  let featuredPrompts :=
    Z.of_nat (length (List.filter isFeatured (prompts userData))) in
  let topRankedPrompts :=
    Z.of_nat (length (List.filter (fun p => score p >=? 150)
                                  (prompts userData))) in
  {| totalPrompts := totalPrompts;
     activePrompts := activePrompts;
     totalUsage := totalUsage;
     totalRatings := totalRatings;
     averageRating :=
       (inject_Z (Js.Math_round (averageRating * 100)) / 100)%Q;
     longestStreak := longestStreak;
     featuredPrompts := featuredPrompts;
     topRankedPrompts := topRankedPrompts;
     currentBadgeCount := Z.of_nat (length (userBadges userData)) |}.

End BadgeEligibilityEngine.

(** ** Leaderboard engine *)

Module LeaderboardEngine.

(** A prompt as the leaderboards read it.  [createdAt] is the time value of
    [new Date(prompt.createdAt)]; absent numeric fields read as [0]
    ([|| 0]). *)
Record Prompt := {
  categoryId : string;
  status : string;
  isPublic : bool;
  createdAt : Z;
  score : Z;
  usageCount : Z;
  ratingCount : Z;
  averageRating : Q
}.

(** A user as the leaderboards read it: [userAverageRating] is the user's
    [averageRating] field, and an absent [prompts] is [None]. *)
Record User := {
  isActive : bool;
  totalScore : Z;
  totalPrompts : Z;
  userAverageRating : Q;
  prompts : option (list Prompt)
}.

(** [{...user, rank, leaderboardType: 'global'}]: [g_user] holds the
    fields spread from [user]. *)
Record GlobalEntry := {
  g_user : User;
  g_rank : Z;
  g_leaderboardType : string
}.

Definition compareGlobal (a b : User) : Q :=
  if negb (totalScore b =? totalScore a)
  then inject_Z (totalScore b - totalScore a)
  else if negb (totalPrompts b =? totalPrompts a)
  then inject_Z (totalPrompts b - totalPrompts a)
  else (userAverageRating b - userAverageRating a)%Q.

Definition generateGlobalLeaderboard (users : list User) (limit : Z)
    : list GlobalEntry :=
  let filtered :=
    List.filter (fun user => isActive user && (totalScore user >? 0)) users in
  let sorted := Js.Array_sort compareGlobal filtered in
  imap (fun index user =>
          {| g_user := user;
             g_rank := Z.of_nat index + 1;
             g_leaderboardType := "global" |})
       (Js.Array_slice0 sorted limit).

Definition calculateCategoryAverageRating (prompts : list Prompt) : Q :=
  if (length prompts =? 0)%nat then 0%Q
  else
    let totalRatings := Js.sumZ ratingCount prompts in
    if totalRatings =? 0 then 0%Q
    else
      let weightedSum :=
        Js.sumQ (fun p => (averageRating p * inject_Z (ratingCount p))%Q)
                prompts in
      (inject_Z (Js.Math_round ((weightedSum / inject_Z totalRatings) * 100))
       / 100)%Q.

(** [{...user, categoryPrompts, categoryScore, categoryUsage,
      categoryAverageRating}]. *)
Record CategoryUser := {
  c_user : User;
  categoryPrompts : Z;
  categoryScore : Z;
  categoryUsage : Z;
  categoryAverageRating : Q
}.

(** [{...user, rank, leaderboardType: 'category', categoryId}]. *)
Record CategoryEntry := {
  c_entry : CategoryUser;
  c_rank : Z;
  c_leaderboardType : string;
  c_categoryId : string
}.

Definition categoryStats (categoryId' : string) (user : User) : CategoryUser :=
  let categoryPrompts :=
    match prompts user with
    | Some ps =>
        List.filter (fun p => String.eqb (categoryId p) categoryId' &&
                              String.eqb (status p) "active") ps
    | None => []
    end in
  {| c_user := user;
     categoryPrompts := Z.of_nat (length categoryPrompts);
     categoryScore := Js.sumZ score categoryPrompts;
     categoryUsage := Js.sumZ usageCount categoryPrompts;
     categoryAverageRating := calculateCategoryAverageRating categoryPrompts |}.

Definition compareCategory (a b : CategoryUser) : Q :=
  if negb (categoryScore b =? categoryScore a)
  then inject_Z (categoryScore b - categoryScore a)
  else if negb (categoryUsage b =? categoryUsage a)
  then inject_Z (categoryUsage b - categoryUsage a)
  else (categoryAverageRating b - categoryAverageRating a)%Q.

Definition generateCategoryLeaderboard (users : list User)
    (categoryId' : string) (limit : Z) : list CategoryEntry :=
  let active := List.filter isActive users in
  let withStats := map (categoryStats categoryId') active in
  let present :=
    List.filter (fun user => categoryPrompts user >? 0) withStats in
  let sorted := Js.Array_sort compareCategory present in
  imap (fun index user =>
          {| c_entry := user;
             c_rank := Z.of_nat index + 1;
             c_leaderboardType := "category";
             c_categoryId := categoryId' |})
       (Js.Array_slice0 sorted limit).

(** The constants [age] and [ageMultiplier] of [calculateTrendingScore],
    [Date.now()] being [now].  With [days = 0] the code divides by zero
    and gets an infinity or [NaN]; the embedding is meant for the other
    windows, and the properties of the trending score take [0 < days]. *)
Definition ageMultiplier (now : Z) (prompt : Prompt) (days : Z) : Q :=
  let age := (inject_Z (now - createdAt prompt) / inject_Z Js.msPerDay)%Q in
  Js.Math_max 0.1%Q (1 - age / inject_Z days)%Q.

(** [calculateTrendingScore(prompt, days)] run while [Date.now()] is
    [now]. *)
Definition calculateTrendingScore (now : Z) (prompt : Prompt) (days : Z) : Z :=
  let ageMultiplier := ageMultiplier now prompt days in
  Js.Math_round
    (inject_Z (score prompt) * ageMultiplier +
     inject_Z (usageCount prompt) * 2 * ageMultiplier +
     averageRating prompt * 10 * ageMultiplier)%Q.

(** [{...prompt, rank, trendingScore, leaderboardType: 'trending'}]. *)
Record TrendingEntry := {
  t_prompt : Prompt;
  t_rank : Z;
  trendingScore : Z;
  t_leaderboardType : string
}.

(** [generateTrendingLeaderboard(prompts, days, limit)] run while the clock
    reads [now] (one reading for the whole call, in a time zone without
    daylight-saving shifts, so that [setDate(getDate() - days)] moves the
    cutoff back by [days] whole days). *)
Definition generateTrendingLeaderboard (now : Z) (prompts : list Prompt)
    (days limit : Z) : list TrendingEntry :=
  let cutoffDate := now - days * Js.msPerDay in
  let recent :=
    List.filter (fun prompt => String.eqb (status prompt) "active" &&
                               isPublic prompt &&
                               (createdAt prompt >=? cutoffDate)) prompts in
  let sorted :=
    Js.Array_sort
      (fun a b =>
         let aTrendingScore := calculateTrendingScore now a days in
         let bTrendingScore := calculateTrendingScore now b days in
         inject_Z (bTrendingScore - aTrendingScore))
      recent in
  imap (fun index prompt =>
          {| t_prompt := prompt;
             t_rank := Z.of_nat index + 1;
             trendingScore := calculateTrendingScore now prompt days;
             t_leaderboardType := "trending" |})
       (Js.Array_slice0 sorted limit).

(** The default arguments [limit = 100], [limit = 50],
    [days = 7, limit = 20]. *)
Definition generateGlobalLeaderboard_default (users : list User) :=
  generateGlobalLeaderboard users 100.
Definition generateCategoryLeaderboard_default (users : list User)
    (categoryId' : string) :=
  generateCategoryLeaderboard users categoryId' 50.
Definition generateTrendingLeaderboard_default (now : Z)
    (prompts : list Prompt) :=
  generateTrendingLeaderboard now prompts 7 20.

End LeaderboardEngine.

(** ** The public operations as one interface *)

Module Engine.

Import PromptScoringEngine BadgeEligibilityEngine.





Section Run.

Variable log10 : Q -> Q.



End Run.



End Engine.

(** ** The specification's reference definitions *)

Module Spec.

Import BadgeEligibilityEngine.

(** The confidence tiers: [<3 -> 0.6, <5 -> 0.7, <10 -> 0.8, <25 -> 0.9,
    <50 -> 0.95, >=50 -> 1.0]. *)
Definition confidenceTier (ratingCount : Z) : Q :=
  if ratingCount <? 3 then 0.6%Q
  else if ratingCount <? 5 then 0.7%Q
  else if ratingCount <? 10 then 0.8%Q
  else if ratingCount <? 25 then 0.9%Q
  else if ratingCount <? 50 then 0.95%Q
  else 1.0%Q.

(** The predicate column of the badge table. *)
Inductive Requirement :=
| TotalPrompts (atLeast : Z)
| TotalUsage (atLeast : Z)
| Rating (averageAtLeast : Q) (ratingsAtLeast : Z)
| LongestStreak (atLeast : Z)
| FeaturedPrompts (atLeast : Z)
| TopRankedPrompts (atLeast : Z).

Definition satisfies (stats : UserStats) (r : Requirement) : Prop :=
  match r with
  | TotalPrompts n => n <= totalPrompts stats
  | TotalUsage n => n <= totalUsage stats
  | Rating a n => (a <= averageRating stats)%Q /\ n <= totalRatings stats
  | LongestStreak n => n <= longestStreak stats
  | FeaturedPrompts n => n <= featuredPrompts stats
  | TopRankedPrompts n => n <= topRankedPrompts stats
  end.

Record BadgeDefinition := {
  defId : string;
  defType : string;
  requirement : Requirement
}.

(** The badge table, row by row. *)
Definition registry : list BadgeDefinition :=
  [ {| defId := "first-steps"; defType := "submission";
       requirement := TotalPrompts 1 |};
    {| defId := "getting-started"; defType := "submission";
       requirement := TotalPrompts 5 |};
    {| defId := "prolific-creator"; defType := "submission";
       requirement := TotalPrompts 25 |};
    {| defId := "content-machine"; defType := "submission";
       requirement := TotalPrompts 100 |};
    {| defId := "popular-choice"; defType := "usage";
       requirement := TotalUsage 100 |};
    {| defId := "crowd-favorite"; defType := "usage";
       requirement := TotalUsage 500 |};
    {| defId := "viral-creator"; defType := "usage";
       requirement := TotalUsage 2000 |};
    {| defId := "well-received"; defType := "score";
       requirement := Rating 3.5 5 |};
    {| defId := "highly-rated"; defType := "score";
       requirement := Rating 4.0 10 |};
    {| defId := "excellence"; defType := "score";
       requirement := Rating 4.5 25 |};
    {| defId := "perfection"; defType := "score";
       requirement := Rating 4.8 50 |};
    {| defId := "consistent"; defType := "streak";
       requirement := LongestStreak 7 |};
    {| defId := "dedicated"; defType := "streak";
       requirement := LongestStreak 30 |};
    {| defId := "trendsetter"; defType := "special";
       requirement := FeaturedPrompts 1 |};
    {| defId := "community-favorite"; defType := "special";
       requirement := TopRankedPrompts 3 |} ]%string.

(** A badge is granted iff it is not held and its requirement is met. *)
Definition granted (stats : UserStats) (held : list string)
    (d : BadgeDefinition) : Prop :=
  (defId d ∉ held) /\ satisfies stats (requirement d).

Definition grantOf (now : Z) (d : BadgeDefinition) : BadgeGrant :=
  {| badgeId := defId d; grantType := defType d; earnedAt := now |}.

(** The reference longest-streak algorithm over day numbers: sort
    ascending; a gap of one day extends the running streak, a larger gap
    restarts it at 1, a zero gap leaves it; the answer is the largest
    running streak seen, 0 for no dates. *)
Definition scanDay (st : Z * Z * Z) (day : Z) : Z * Z * Z :=
  let '(prev, running, best) := st in
  let gap := day - prev in
  let running' :=
    if gap =? 1 then running + 1
    else if 1 <? gap then 1
    else running in
  (day, running', Z.max best running').

Definition longestStreak (days : list Z) : Z :=
  match merge_sort Z.le days with
  | [] => 0
  | first :: rest => snd (fold_left scanDay rest (first, 1, 1))
  end.

End Spec.

(** The calendar-day strings and their day numbers. *)
Definition isCalendarDay (s : string) : Prop := is_Some (Js.Date_parse s).

Definition dayNumber (s : string) : Z :=
  match Js.Date_parse s with
  | Some t => t / Js.msPerDay
  | None => 0
  end.

(** A prompt signal all of whose numeric fields are non-negative. *)
Definition nonNegativeSignal (p : PromptScoringEngine.PromptData) : Prop :=
  let '(PromptScoringEngine.Build_PromptData averageRating ratingCount
          usageCount daysSinceCreated lastUsedDaysAgo favoriteCount shareCount
          viewCount commentCount) := p in
  (0 <= averageRating)%Q /\ 0 <= ratingCount /\ 0 <= usageCount /\
  (0 <= daysSinceCreated)%Q /\
  match lastUsedDaysAgo with Some d => (0 <= d)%Q | None => True end /\
  0 <= favoriteCount /\ 0 <= shareCount /\ 0 <= viewCount /\
  0 <= commentCount.

(** ** Auxiliary definitions *)

Section BadgeAux.
Import BadgeEligibilityEngine.

(** The test and the pushed object of one loop iteration of
    [checkEligibility]. *)
Definition eligibleEntry (userStats : UserStats)
    (currentBadgeIds : gset string) (entry : string * Criteria) : bool :=
  negb (bool_decide (entry.1 ∈ currentBadgeIds)) && check entry.2 userStats.

Definition grantOfEntry (now : Z) (entry : string * Criteria) : BadgeGrant :=
  {| badgeId := entry.1; grantType := type entry.2; earnedAt := now |}.

(** What identifies a grant apart from its time stamp. *)
Definition grantKey (g : BadgeGrant) : string * string :=
  (badgeId g, grantType g).


(** A grant stored by the caller as a held badge. *)
Definition persist (g : BadgeGrant) : UserBadge :=
  {| ub_badgeId := badgeId g |}.

(** An entry of [badgeCriteria] implements a row of the badge table. *)
Definition implements (entry : string * Criteria)
    (d : Spec.BadgeDefinition) : Prop :=
  entry.1 = Spec.defId d /\ type entry.2 = Spec.defType d /\
  forall stats,
    check entry.2 stats = true <-> Spec.satisfies stats (Spec.requirement d).

End BadgeAux.

#[global] Instance Qle_decision : RelDecision Qle.
Proof.
  intros x y. destruct (Qlt_le_dec y x) as [H|H].
  - right. apply Qlt_not_le, H.
  - left. exact H.
Defined.

#[global] Instance satisfies_decision stats r :
  Decision (Spec.satisfies stats r).
Proof. destruct r; simpl; apply _. Defined.

#[global] Instance granted_decision stats held d :
  Decision (Spec.granted stats held d).
Proof. unfold Spec.granted. apply _. Defined.

(** Chronological order on date strings. *)
Definition notLater (s s' : string) : Prop := dayNumber s <= dayNumber s'.

(** *** Sample inputs *)

Module Sample.

(** The worked example of the specification. *)
Definition prompt : PromptScoringEngine.PromptData :=
  {| PromptScoringEngine.averageRating := 5;
     PromptScoringEngine.ratingCount := 50;
     PromptScoringEngine.usageCount := 200;
     PromptScoringEngine.daysSinceCreated := 10;
     PromptScoringEngine.lastUsedDaysAgo := None;
     PromptScoringEngine.favoriteCount := 10;
     PromptScoringEngine.shareCount := 0;
     PromptScoringEngine.viewCount := 0;
     PromptScoringEngine.commentCount := 0 |}.


(** A user with one prompt and nothing else. *)
Definition newcomer : BadgeEligibilityEngine.UserStats :=
  {| BadgeEligibilityEngine.totalPrompts := 1;
     BadgeEligibilityEngine.activePrompts := 1;
     BadgeEligibilityEngine.totalUsage := 0;
     BadgeEligibilityEngine.totalRatings := 0;
     BadgeEligibilityEngine.averageRating := 0;
     BadgeEligibilityEngine.longestStreak := 1;
     BadgeEligibilityEngine.featuredPrompts := 0;
     BadgeEligibilityEngine.topRankedPrompts := 0;
     BadgeEligibilityEngine.currentBadgeCount := 0 |}.


(** A prompt created at the epoch with score 100. *)
Definition agedPrompt : LeaderboardEngine.Prompt :=
  {| LeaderboardEngine.categoryId := "code-development";
     LeaderboardEngine.status := "active";
     LeaderboardEngine.isPublic := true;
     LeaderboardEngine.createdAt := 0;
     LeaderboardEngine.score := 100;
     LeaderboardEngine.usageCount := 0;
     LeaderboardEngine.ratingCount := 0;
     LeaderboardEngine.averageRating := 0 |}.

Definition user (totalScore : Z) : LeaderboardEngine.User :=
  {| LeaderboardEngine.isActive := true;
     LeaderboardEngine.totalScore := totalScore;
     LeaderboardEngine.totalPrompts := 1;
     LeaderboardEngine.userAverageRating := 4;
     LeaderboardEngine.prompts := Some [agedPrompt] |}.

End Sample.

(** *** Definitions for the further properties *)

(** What the properties of the usage score need of [Math.log10]: it is not
    negative from 1 on, and it is monotone. *)
Definition log10_nonneg (log10 : Q -> Q) : Prop :=
  forall x, (1 <= x)%Q -> (0 <= log10 x)%Q.

Definition log10_monotone (log10 : Q -> Q) : Prop :=
  forall x y, (x <= y)%Q -> (log10 x <= log10 y)%Q.

Section ScoringAux.
Import PromptScoringEngine.

(** [p'] is [p] with as many or more ratings stars, uses and engagement
    events, everything else being equal. *)
Definition improves (p p' : PromptData) : Prop :=
  ratingCount p = ratingCount p' /\
  (averageRating p <= averageRating p')%Q /\
  daysSinceCreated p = daysSinceCreated p' /\
  lastUsedDaysAgo p = lastUsedDaysAgo p' /\
  0 <= usageCount p <= usageCount p' /\
  favoriteCount p <= favoriteCount p' /\
  shareCount p <= shareCount p' /\
  commentCount p <= commentCount p' /\
  viewCount p <= viewCount p'.

(** The four entries of a breakdown, in the order of the object. *)
Definition components (bd : ScoreBreakdown) : list Component :=
  [bd_rating bd; bd_usage bd; bd_recency bd; bd_engagement bd].

(** The constant [multiplier] of [applyCategoryAdjustments] when it is a
    number. *)
Definition multiplierOf (categoryId : string) : Q :=
  match categoryMultipliers !! categoryId with
  | Some m => if Js.eqb m 0%Q then 1.0%Q else m
  | None => 1.0%Q
  end.

End ScoringAux.

Section BadgeAux2.
Import BadgeEligibilityEngine.

(** [currentBadges.map(b => b.badgeId)]. *)
Definition heldIds (currentBadges : list UserBadge) : list string :=
  map ub_badgeId currentBadges.

(** [s'] is at least [s] in every statistic a badge looks at. *)
Definition statsLe (s s' : UserStats) : Prop :=
  totalPrompts s <= totalPrompts s' /\ totalUsage s <= totalUsage s' /\
  totalRatings s <= totalRatings s' /\
  (averageRating s <= averageRating s')%Q /\
  longestStreak s <= longestStreak s' /\
  featuredPrompts s <= featuredPrompts s' /\
  topRankedPrompts s <= topRankedPrompts s'.

(** The badges of one family, each paired with the next lower one. *)
Definition tierBelow : list (string * string) :=
  [ ("getting-started", "first-steps");
    ("prolific-creator", "getting-started");
    ("content-machine", "prolific-creator");
    ("crowd-favorite", "popular-choice");
    ("viral-creator", "crowd-favorite");
    ("highly-rated", "well-received");
    ("excellence", "highly-rated");
    ("perfection", "excellence");
    ("dedicated", "consistent") ]%string.

(** The statistics are below the lowest threshold of every family. *)
Definition belowEveryThreshold (stats : UserStats) : Prop :=
  totalPrompts stats < 1 /\ totalUsage stats < 100 /\
  ~ ((3.5 <= averageRating stats)%Q /\ 5 <= totalRatings stats) /\
  longestStreak stats < 7 /\ featuredPrompts stats < 1 /\
  topRankedPrompts stats < 3.

(** The array [Array.from(activityDates)] of [calculateUserStats]. *)
Definition activityDates (userData : UserData) : list string :=
  fold_left (fun set a => Js.Set_add (Js.split_T_0 (ue_createdAt a)) set)
    (usageAnalytics userData)
    (fold_left (fun set p => Js.Set_add (Js.split_T_0 (createdAt p)) set)
       (prompts userData) []).

(** [userData] with another [promptScores], another [usageAnalytics]. *)
Definition withPromptScores (ud : UserData) (scores : list PromptScore)
    : UserData :=
  {| prompts := prompts ud; promptScores := scores;
     usageAnalytics := usageAnalytics ud; userBadges := userBadges ud |}.

Definition withUsageAnalytics (ud : UserData) (events : list UsageEvent)
    : UserData :=
  {| prompts := prompts ud; promptScores := promptScores ud;
     usageAnalytics := events; userBadges := userBadges ud |}.

(** The test [prompts.some(p => p.id === s.promptId)]. *)
Definition ownRating (ud : UserData) (s : PromptScore) : bool :=
  existsb (fun p => String.eqb (id p) (promptId s)) (prompts ud).

End BadgeAux2.

Section LeaderboardAux.
Import LeaderboardEngine.

(** The filter tests of the three leaderboards. *)
Definition qualifies (user : User) : bool :=
  isActive user && (totalScore user >? 0).

Definition inCategory (categoryId' : string) (p : Prompt) : bool :=
  String.eqb (categoryId p) categoryId' && String.eqb (status p) "active".

Definition isRecent (now days : Z) (prompt : Prompt) : bool :=
  String.eqb (status prompt) "active" && isPublic prompt &&
  (createdAt prompt >=? now - days * Js.msPerDay).

(** The users [generateCategoryLeaderboard] sorts. *)
Definition categoryCandidates (users : list User) (categoryId' : string)
    : list CategoryUser :=
  List.filter (fun user => categoryPrompts user >? 0)
    (map (categoryStats categoryId') (List.filter isActive users)).

(** The comparator of [generateTrendingLeaderboard]. *)
Definition compareTrending (now days : Z) (a b : Prompt) : Q :=
  inject_Z (calculateTrendingScore now b days
            - calculateTrendingScore now a days).

(** The orders the comparators decide: [a] is listed before [b]. *)
Definition globalOrder (a b : User) : Prop :=
  totalScore b < totalScore a \/
  (totalScore a = totalScore b /\
   (totalPrompts b < totalPrompts a \/
    (totalPrompts a = totalPrompts b /\
     (userAverageRating b <= userAverageRating a)%Q))).

Definition categoryOrder (a b : CategoryUser) : Prop :=
  categoryScore b < categoryScore a \/
  (categoryScore a = categoryScore b /\
   (categoryUsage b < categoryUsage a \/
    (categoryUsage a = categoryUsage b /\
     (categoryAverageRating b <= categoryAverageRating a)%Q))).

Definition trendingOrder (now days : Z) (a b : Prompt) : Prop :=
  calculateTrendingScore now b days <= calculateTrendingScore now a days.

(** [user] with another [prompts]. *)
Definition withPrompts (user : User) (ps : option (list Prompt)) : User :=
  {| isActive := isActive user; totalScore := totalScore user;
     totalPrompts := totalPrompts user;
     userAverageRating := userAverageRating user; prompts := ps |}.

(** The sum [calculateTrendingScore] scales by the age multiplier. *)
Definition trendingBase (prompt : Prompt) : Q :=
  (inject_Z (score prompt) + inject_Z (usageCount prompt) * 2 +
   averageRating prompt * 10)%Q.

End LeaderboardAux.

(** *** Further sample inputs *)

Module Sample2.

(** A prompt like [Sample.prompt] with fewer stars, uses and favourites. *)
Definition modest : PromptScoringEngine.PromptData :=
  {| PromptScoringEngine.averageRating := 3;
     PromptScoringEngine.ratingCount := 50;
     PromptScoringEngine.usageCount := 100;
     PromptScoringEngine.daysSinceCreated := 10;
     PromptScoringEngine.lastUsedDaysAgo := None;
     PromptScoringEngine.favoriteCount := 2;
     PromptScoringEngine.shareCount := 0;
     PromptScoringEngine.viewCount := 0;
     PromptScoringEngine.commentCount := 0 |}.

(** The same prompt twenty days later. *)
Definition older : PromptScoringEngine.PromptData :=
  {| PromptScoringEngine.averageRating := 3;
     PromptScoringEngine.ratingCount := 50;
     PromptScoringEngine.usageCount := 100;
     PromptScoringEngine.daysSinceCreated := 30;
     PromptScoringEngine.lastUsedDaysAgo := None;
     PromptScoringEngine.favoriteCount := 2;
     PromptScoringEngine.shareCount := 0;
     PromptScoringEngine.viewCount := 0;
     PromptScoringEngine.commentCount := 0 |}.

(** A prompt 60 days old, used two days ago. *)
Definition recentlyUsed : PromptScoringEngine.PromptData :=
  {| PromptScoringEngine.averageRating := 3;
     PromptScoringEngine.ratingCount := 4;
     PromptScoringEngine.usageCount := 100;
     PromptScoringEngine.daysSinceCreated := 60;
     PromptScoringEngine.lastUsedDaysAgo := Some 2%Q;
     PromptScoringEngine.favoriteCount := 2;
     PromptScoringEngine.shareCount := 0;
     PromptScoringEngine.viewCount := 0;
     PromptScoringEngine.commentCount := 0 |}.

(** The same prompt once it has 30 ratings. *)
Definition wellRated : PromptScoringEngine.PromptData :=
  {| PromptScoringEngine.averageRating := 3;
     PromptScoringEngine.ratingCount := 30;
     PromptScoringEngine.usageCount := 100;
     PromptScoringEngine.daysSinceCreated := 60;
     PromptScoringEngine.lastUsedDaysAgo := Some 2%Q;
     PromptScoringEngine.favoriteCount := 2;
     PromptScoringEngine.shareCount := 0;
     PromptScoringEngine.viewCount := 0;
     PromptScoringEngine.commentCount := 0 |}.

(** A user with five prompts, 600 uses and twelve ratings. *)
Definition regular : BadgeEligibilityEngine.UserStats :=
  {| BadgeEligibilityEngine.totalPrompts := 5;
     BadgeEligibilityEngine.activePrompts := 5;
     BadgeEligibilityEngine.totalUsage := 600;
     BadgeEligibilityEngine.totalRatings := 12;
     BadgeEligibilityEngine.averageRating := 4.2;
     BadgeEligibilityEngine.longestStreak := 8;
     BadgeEligibilityEngine.featuredPrompts := 0;
     BadgeEligibilityEngine.topRankedPrompts := 0;
     BadgeEligibilityEngine.currentBadgeCount := 0 |}.

(** A user without any activity. *)
Definition blank : BadgeEligibilityEngine.UserStats :=
  {| BadgeEligibilityEngine.totalPrompts := 0;
     BadgeEligibilityEngine.activePrompts := 0;
     BadgeEligibilityEngine.totalUsage := 0;
     BadgeEligibilityEngine.totalRatings := 0;
     BadgeEligibilityEngine.averageRating := 0;
     BadgeEligibilityEngine.longestStreak := 0;
     BadgeEligibilityEngine.featuredPrompts := 0;
     BadgeEligibilityEngine.topRankedPrompts := 0;
     BadgeEligibilityEngine.currentBadgeCount := 0 |}.



Definition firstSteps : BadgeEligibilityEngine.UserBadge :=
  {| BadgeEligibilityEngine.ub_badgeId := "first-steps" |}.

(** Three days around a leap day, out of order, and three days far
    apart. *)
Definition leapDays : list string :=
  ["2024-03-01"; "2024-02-28"; "2024-02-29"]%string.

Definition farDays : list string :=
  ["2024-03-01"; "2024-01-15"; "2024-02-10"]%string.

(** The raw data of a user with one prompt, one rating of it and one use
    on the day after its creation. *)
Definition ownPrompt : BadgeEligibilityEngine.Prompt :=
  {| BadgeEligibilityEngine.id := "p1";
     BadgeEligibilityEngine.status := "active";
     BadgeEligibilityEngine.usageCount := 12;
     BadgeEligibilityEngine.createdAt := "2024-01-01T10:00:00Z";
     BadgeEligibilityEngine.isFeatured := false;
     BadgeEligibilityEngine.score :=
       PromptScoringEngine.calculateScore Js.log10_lower Sample.prompt |}.

Definition ownScore : BadgeEligibilityEngine.PromptScore :=
  {| BadgeEligibilityEngine.promptId := "p1";
     BadgeEligibilityEngine.ps_score := 4 |}.

Definition foreignScore : BadgeEligibilityEngine.PromptScore :=
  {| BadgeEligibilityEngine.promptId := "p9";
     BadgeEligibilityEngine.ps_score := 1 |}.

Definition nextDayUse : BadgeEligibilityEngine.UsageEvent :=
  {| BadgeEligibilityEngine.ue_createdAt := "2024-01-02T08:30:00Z" |}.

Definition sameDayUse : BadgeEligibilityEngine.UsageEvent :=
  {| BadgeEligibilityEngine.ue_createdAt := "2024-01-02T21:00:00Z" |}.

Definition userData : BadgeEligibilityEngine.UserData :=
  {| BadgeEligibilityEngine.prompts := [ownPrompt];
     BadgeEligibilityEngine.promptScores := [ownScore];
     BadgeEligibilityEngine.usageAnalytics := [nextDayUse];
     BadgeEligibilityEngine.userBadges := [] |}.

(** Prompts and users for the leaderboards. *)
Definition designPrompt : LeaderboardEngine.Prompt :=
  {| LeaderboardEngine.categoryId := "creative-design";
     LeaderboardEngine.status := "active";
     LeaderboardEngine.isPublic := true;
     LeaderboardEngine.createdAt := 3 * Js.msPerDay;
     LeaderboardEngine.score := 40;
     LeaderboardEngine.usageCount := 5;
     LeaderboardEngine.ratingCount := 2;
     LeaderboardEngine.averageRating := 4.5 |}.

Definition users : list LeaderboardEngine.User :=
  [Sample.user 10; Sample.user 30; Sample.user 20].

End Sample2.

(** * Properties *)

(** ** Rounding *)

Section RoundFacts.
Import Js.

Lemma Math_round_le (x : Q) (n : Z) :
  (x <= inject_Z n)%Q -> Math_round x <= n.
Proof.
  intros Hx. unfold Math_round.
  pose proof (Qfloor_le (x + (1 # 2))) as Hf.
  assert (Hlt : (inject_Z (Qfloor (x + (1 # 2))) < inject_Z (n + 1))%Q).
  { rewrite inject_Z_plus. change (inject_Z 1) with 1%Q. lra. }
  rewrite <- Zlt_Qlt in Hlt. lia.
Qed.

Lemma Math_round_mono (x y : Q) :
  (x <= y)%Q -> Math_round x <= Math_round y.
Proof.
  intros Hxy. unfold Math_round. apply Qfloor_resp_le. lra.
Qed.

Lemma Math_round_Z (n : Z) : Math_round (inject_Z n) = n.
Proof.
  apply Z.le_antisymm.
  - apply Math_round_le. lra.
  - unfold Math_round.
    rewrite <- (Qfloor_Z n) at 1. apply Qfloor_resp_le. lra.
Qed.

End RoundFacts.

(** ** Scoring *)

Section ScoringFacts.
Import PromptScoringEngine.

Variable log10 : Q -> Q.

Lemma getConfidenceMultiplier_range n :
  (0.6 <= getConfidenceMultiplier n <= 1)%Q.
Proof.
  unfold getConfidenceMultiplier.
  repeat case_match; split; lra.
Qed.

Lemma calculateRatingScore_le p :
  (averageRating p <= 5)%Q -> calculateRatingScore p <= 100.
Proof.
  intros Havg. unfold calculateRatingScore.
  destruct (ratingCount p =? 0); [lia|].
  apply Math_round_le. unfold maxScores.rating.
  change (inject_Z 100) with 100%Q.
  pose proof (getConfidenceMultiplier_range (ratingCount p)) as [Hlo Hhi].
  set (c := getConfidenceMultiplier (ratingCount p)) in *.
  set (a := averageRating p) in *.
  assert (Heq : ((a - 1) / 4 * 100 * c == 25 * ((a - 1) * c))%Q) by field.
  rewrite Heq. clear Heq.
  destruct (Qlt_le_dec a 1).
  - assert (0 <= (1 - a) * c)%Q by (apply Qmult_le_0_compat; lra). lra.
  - assert (0 <= (a - 1) * (1 - c))%Q by (apply Qmult_le_0_compat; lra).
    lra.
Qed.

Lemma calculateUsageScore_le p : calculateUsageScore log10 p <= 50.
Proof.
  unfold calculateUsageScore.
  destruct (usageCount p =? 0); [lia|].
  apply Math_round_le. apply Q.le_min_r.
Qed.

Lemma calculateRecencyScore_le p : calculateRecencyScore p <= 20.
Proof.
  unfold calculateRecencyScore. apply Math_round_le. apply Q.le_min_r.
Qed.

Lemma calculateEngagementScore_le p : calculateEngagementScore p <= 30.
Proof.
  unfold calculateEngagementScore. apply Math_round_le. apply Q.le_min_r.
Qed.

Lemma weightedTotal_le p :
  (averageRating p <= 5)%Q -> weightedTotal log10 p <= 62.
Proof.
  intros Havg. unfold weightedTotal.
  apply Math_round_le.
  pose proof (calculateRatingScore_le p Havg) as Hr.
  pose proof (calculateUsageScore_le p) as Hu.
  pose proof (calculateRecencyScore_le p) as Hc.
  pose proof (calculateEngagementScore_le p) as He.
  rewrite Zle_Qle in Hr, Hu, Hc, He.
  unfold weights.rating, weights.usage, weights.recency, weights.engagement.
  change (inject_Z 62) with 62%Q.
  change (inject_Z 100) with 100%Q in Hr.
  change (inject_Z 50) with 50%Q in Hu.
  change (inject_Z 20) with 20%Q in Hc.
  change (inject_Z 30) with 30%Q in He.
  lra.
Qed.

(** C2: from one rating on, the confidence multiplier is the tier
    function of the specification (0.6 below 3, 0.7 below 5, 0.8 below 10,
    0.9 below 25, 0.95 below 50, 1.0 from 50 on), it is the factor applied
    to the rating sub-score, and it never decreases when the rating count
    grows. *)
Theorem confidence_multiplier_tiers :
  (forall n, 1 <= n -> getConfidenceMultiplier n = Spec.confidenceTier n) /\
  (forall p, 1 <= ratingCount p ->
     calculateRatingScore p =
     Js.Math_round ((averageRating p - 1) / 4 * 100
                    * Spec.confidenceTier (ratingCount p))%Q) /\
  (forall n m, 1 <= n -> n <= m ->
     (getConfidenceMultiplier n <= getConfidenceMultiplier m)%Q).
Proof.
  assert (Htier : forall n, getConfidenceMultiplier n = Spec.confidenceTier n).
  { intros n. unfold getConfidenceMultiplier, Spec.confidenceTier.
    repeat case_match; try reflexivity; lia. }
  split; [|split].
  - intros n _. apply Htier.
  - intros p Hn. unfold calculateRatingScore.
    destruct (Z.eqb_spec (ratingCount p) 0) as [H0|_]; [lia|].
    rewrite Htier. reflexivity.
  - intros n m _ Hnm. unfold getConfidenceMultiplier.
    repeat case_match; try lra; lia.
Qed.

(** C8: for a signal with non-negative fields and an average rating in
    [0, 5] (below 1 included) the total score lies in [0, 200]. *)
Theorem calculateScore_in_range p :
  nonNegativeSignal p -> (averageRating p <= 5)%Q ->
  0 <= calculateScore log10 p <= 200.
Proof.
  intros _ _. unfold calculateScore. lia.
Qed.

(** C10: for a signal with non-negative fields and an average rating of at
    most 5 the rounded weighted sum is at most 62
    (= 100*0.4 + 50*0.3 + 20*0.2 + 30*0.1); the clamp at 200 therefore
    leaves it unchanged, and the total score stays below 150. *)
Theorem calculateScore_at_most_62 p :
  nonNegativeSignal p -> (averageRating p <= 5)%Q ->
  (maxScores.rating * weights.rating + maxScores.usage * weights.usage +
   maxScores.recency * weights.recency +
   maxScores.engagement * weights.engagement == 62)%Q /\
  weightedTotal log10 p <= 62 /\
  Z.min 200 (weightedTotal log10 p) = weightedTotal log10 p /\
  calculateScore log10 p <= 62 /\
  ~ 150 <= calculateScore log10 p.
Proof.
  intros _ Havg. pose proof (weightedTotal_le p Havg) as Hle.
  split; [reflexivity|]. unfold calculateScore. lia.
Qed.

End ScoringFacts.

(** The worked example of the specification scores 61. *)
Example calculateScore_sample :
  PromptScoringEngine.calculateScore Js.log10_lower Sample.prompt = 61.
Proof. by vm_compute. Qed.

Lemma nonNegativeSignal_sample : nonNegativeSignal Sample.prompt.
Proof. simpl. repeat split; try lia; lra. Qed.

(** C2 at 7 ratings, and between 4 and 30 ratings. *)
Lemma confidence_multiplier_tiers_witness :
  (1 <= 7 /\
   PromptScoringEngine.getConfidenceMultiplier 7 = Spec.confidenceTier 7) /\
  (1 <= 4 /\ 4 <= 30 /\
   (PromptScoringEngine.getConfidenceMultiplier 4 <=
    PromptScoringEngine.getConfidenceMultiplier 30)%Q).
Proof.
  destruct confidence_multiplier_tiers as (Htier & _ & Hmono).
  split.
  - split; [lia|]. apply Htier. lia.
  - split; [lia|]. split; [lia|]. apply Hmono; lia.
Defined.

(** C8 at the worked example. *)
Lemma calculateScore_in_range_witness :
  nonNegativeSignal Sample.prompt /\
  (PromptScoringEngine.averageRating Sample.prompt <= 5)%Q /\
  0 <= PromptScoringEngine.calculateScore Js.log10_lower Sample.prompt <= 200.
Proof.
  assert (Havg : (PromptScoringEngine.averageRating Sample.prompt <= 5)%Q)
    by (simpl; lra).
  split; [exact nonNegativeSignal_sample|]. split; [exact Havg|].
  exact (calculateScore_in_range Js.log10_lower Sample.prompt
           nonNegativeSignal_sample Havg).
Defined.

(** C10 at the worked example. *)
Lemma calculateScore_at_most_62_witness :
  nonNegativeSignal Sample.prompt /\
  (PromptScoringEngine.averageRating Sample.prompt <= 5)%Q /\
  PromptScoringEngine.calculateScore Js.log10_lower Sample.prompt <= 62.
Proof.
  assert (Havg : (PromptScoringEngine.averageRating Sample.prompt <= 5)%Q)
    by (simpl; lra).
  split; [exact nonNegativeSignal_sample|]. split; [exact Havg|].
  exact (proj1 (proj2 (proj2 (proj2
           (calculateScore_at_most_62 Js.log10_lower Sample.prompt
              nonNegativeSignal_sample Havg))))).
Defined.

(** ** Badges *)

Section BadgeFacts.
Import BadgeEligibilityEngine.

Lemma checkLoop_filter now stats ids entries acc :
  fold_left (checkStep now stats ids) entries acc =
  acc ++ map (grantOfEntry now)
             (List.filter (eligibleEntry stats ids) entries).
Proof.
  revert acc.
  induction entries as [|[badgeId criteria] entries IH]; intros acc.
  - simpl. by rewrite app_nil_r.
  - simpl. rewrite IH. unfold eligibleEntry at 2. simpl.
    destruct (negb _ && _); simpl; [by rewrite <- app_assoc | done].
Qed.

Lemma checkEligibility_filter now stats held :
  checkEligibility now stats held =
  map (grantOfEntry now)
      (List.filter (eligibleEntry stats (list_to_set (map ub_badgeId held)))
                   badgeCriteria).
Proof. unfold checkEligibility. by rewrite checkLoop_filter. Qed.

Lemma geb_true (n m : Z) : (n >=? m) = true <-> m <= n.
Proof. rewrite Z.geb_le. reflexivity. Qed.

Lemma rating_check (a b : Q) (n m : Z) :
  Js.geb a b && (n >=? m) = true <-> (b <= a)%Q /\ m <= n.
Proof.
  unfold Js.geb. rewrite andb_true_iff, Qle_bool_iff, geb_true. reflexivity.
Qed.

Lemma badgeCriteria_registry : Forall2 implements badgeCriteria Spec.registry.
Proof.
  unfold badgeCriteria, Spec.registry.
  repeat (constructor; [split; [reflexivity|split; [reflexivity|]]|]);
    try solve [constructor]; intros stats; simpl;
    first [apply geb_true | apply rating_check].
Qed.

Lemma filter_registry now stats (held : list string) entries defs :
  Forall2 implements entries defs ->
  map (grantOfEntry now)
      (List.filter (eligibleEntry stats (list_to_set held)) entries) =
  map (Spec.grantOf now) (filter (Spec.granted stats held) defs).
Proof.
  induction 1 as [|entry d entries defs (Hid & Hty & Hchk) _ IH]; [done|].
  simpl. rewrite filter_cons.
  unfold eligibleEntry at 1.
  destruct (decide (Spec.granted stats held d)) as [[Hheld Hsat]|Hno].
  - rewrite bool_decide_eq_false_2 by (rewrite Hid; set_solver).
    apply Hchk in Hsat. rewrite Hsat. simpl. rewrite IH. f_equal.
    unfold grantOfEntry, Spec.grantOf. by rewrite Hid, Hty.
  - destruct (negb _ && _) eqn:E; [|exact IH].
    exfalso. apply Hno. apply andb_true_iff in E as [E1 E2].
    apply negb_true_iff, bool_decide_eq_false in E1.
    split; [rewrite <- Hid; set_solver | by apply Hchk].
Qed.

(** C4: [checkEligibility] returns exactly the rows of the 15-entry badge
    table whose id is not held and whose threshold predicate holds on the
    snapshot, in the order of the table. *)
Theorem checkEligibility_registry now stats held :
  length Spec.registry = 15%nat /\
  checkEligibility now stats held =
  map (Spec.grantOf now)
      (filter (Spec.granted stats (map ub_badgeId held)) Spec.registry).
Proof.
  split; [reflexivity|].
  rewrite checkEligibility_filter.
  apply filter_registry, badgeCriteria_registry.
Qed.

Lemma filter_none {A} (f : A -> bool) (l : list A) :
  (forall x, x ∈ l -> f x = false) -> List.filter f l = [].
Proof.
  induction l as [|x l IH]; intros Hl; [done|].
  simpl. rewrite (Hl x) by set_solver.
  apply IH. intros y Hy. apply Hl. set_solver.
Qed.

Lemma granted_ids now stats held entry :
  entry ∈ badgeCriteria ->
  eligibleEntry stats (list_to_set (map ub_badgeId held)) entry = true ->
  entry.1 ∈ map badgeId (checkEligibility now stats held).
Proof.
  intros Hin Hel. rewrite checkEligibility_filter.
  apply list_elem_of_fmap. exists (grantOfEntry now entry). split; [done|].
  apply list_elem_of_fmap. exists entry. split; [done|].
  apply list_elem_of_In, filter_In. split; [by apply list_elem_of_In|done].
Qed.

(** The badges granted do not depend on the clock, only [earnedAt]
    does. *)
Lemma grantKey_clock now1 now2 stats held :
  map grantKey (checkEligibility now1 stats held) =
  map grantKey (checkEligibility now2 stats held).
Proof. rewrite !checkEligibility_filter, <- !list_fmap_compose. done. Qed.

(** C5, amended: with unchanged statistics and held badges a second run
    grants the same badges, with the same id and type in the same order,
    and the same grants when the clock reads the same; once the held set
    is the old one united with the ids of the first result, a run grants
    nothing. *)
Theorem checkEligibility_idempotent now1 now2 stats held held' :
  (forall id, id ∈ map ub_badgeId held' <->
              id ∈ map ub_badgeId held \/
              id ∈ map badgeId (checkEligibility now1 stats held)) ->
  map grantKey (checkEligibility now2 stats held) =
    map grantKey (checkEligibility now1 stats held) /\
  (now2 = now1 ->
   checkEligibility now2 stats held = checkEligibility now1 stats held) /\
  checkEligibility now2 stats held' = [].
Proof.
  intros Hheld. split; [apply grantKey_clock|]. split; [by intros ->|].
  rewrite checkEligibility_filter, filter_none; [done|].
  intros entry Hin. apply not_true_is_false. intros Hel.
  unfold eligibleEntry in Hel.
  apply andb_true_iff in Hel as [Hnot Hchk].
  apply negb_true_iff, bool_decide_eq_false in Hnot.
  rewrite elem_of_list_to_set in Hnot.
  apply Hnot, Hheld.
  destruct (decide (entry.1 ∈ map ub_badgeId held)) as [|Hfree];
    [by left|right].
  apply granted_ids; [done|].
  unfold eligibleEntry. rewrite Hchk, bool_decide_eq_false_2; [done|].
  by rewrite elem_of_list_to_set.
Qed.



End BadgeFacts.

(** C5 as stated fails: run at clock readings 1000 and 2000 with the same
    statistics and no held badge, [checkEligibility] returns grants that
    differ in [earnedAt]. *)
Lemma checkEligibility_rerun_differs :
  BadgeEligibilityEngine.checkEligibility 1000 Sample.newcomer [] =
    [ {| BadgeEligibilityEngine.badgeId := "first-steps";
         BadgeEligibilityEngine.grantType := "submission";
         BadgeEligibilityEngine.earnedAt := 1000 |} ] /\
  BadgeEligibilityEngine.checkEligibility 2000 Sample.newcomer [] =
    [ {| BadgeEligibilityEngine.badgeId := "first-steps";
         BadgeEligibilityEngine.grantType := "submission";
         BadgeEligibilityEngine.earnedAt := 2000 |} ] /\
  BadgeEligibilityEngine.checkEligibility 1000 Sample.newcomer [] <>
  BadgeEligibilityEngine.checkEligibility 2000 Sample.newcomer [].
Proof. by vm_compute. Qed.

(** C5, amended, for a newcomer holding nothing, whose first grant is then
    stored. *)
Lemma checkEligibility_idempotent_witness :
  let first := BadgeEligibilityEngine.checkEligibility 0 Sample.newcomer [] in
  (forall id,
     id ∈ map BadgeEligibilityEngine.ub_badgeId (map persist first) <->
     id ∈ map BadgeEligibilityEngine.ub_badgeId [] \/
     id ∈ map BadgeEligibilityEngine.badgeId first) /\
  BadgeEligibilityEngine.checkEligibility 5 Sample.newcomer (map persist first)
  = [].
Proof.
  intros first.
  assert (Hheld : forall id,
    id ∈ map BadgeEligibilityEngine.ub_badgeId (map persist first) <->
    id ∈ map BadgeEligibilityEngine.ub_badgeId [] \/
    id ∈ map BadgeEligibilityEngine.badgeId first).
  { intros id. rewrite <- list_fmap_compose.
    split; [by right|]. intros [Hnil|Hid]; [|exact Hid].
    by apply elem_of_nil in Hnil. }
  split; [exact Hheld|].
  exact (proj2 (proj2 (checkEligibility_idempotent 0 5 Sample.newcomer []
                         (map persist first) Hheld))).
Defined.

(** ** Sorting *)

Section SortFacts.
Import Js.
Context {A : Type} (cmp : A -> A -> Q).

Lemma insertBy_Permutation x l : insertBy cmp x l ≡ₚ x :: l.
Proof.
  induction l as [|y l IH]; simpl; [done|].
  destruct (gtb (cmp x y) 0); [|done].
  rewrite IH. apply Permutation_swap.
Qed.

Lemma Array_sort_Permutation l : Array_sort cmp l ≡ₚ l.
Proof.
  induction l as [|x l IH]; simpl; [done|].
  rewrite insertBy_Permutation. by f_equiv.
Qed.

Lemma length_Array_sort l : length (Array_sort cmp l) = length l.
Proof. by rewrite Array_sort_Permutation. Qed.

(** A comparator that agrees, on the elements satisfying [P], with a
    transitive relation [R] sorts them by [R]. *)
Context (R : relation A) (P : A -> Prop).
Context `{!Transitive R}.
Hypothesis cmp_le :
  forall x y, P x -> P y -> gtb (cmp x y) 0 = false -> R x y.
Hypothesis cmp_gt :
  forall x y, P x -> P y -> gtb (cmp x y) 0 = true -> R y x.

Lemma insertBy_sorted x l :
  P x -> Forall P l -> StronglySorted R l ->
  StronglySorted R (insertBy cmp x l).
Proof.
  intros Hx. induction l as [|y l IH]; intros HP Hs; simpl.
  - repeat constructor.
  - apply Forall_cons in HP as [Hy HP].
    apply StronglySorted_cons in Hs as [Hyl Hs].
    destruct (gtb (cmp x y) 0) eqn:E.
    + apply StronglySorted_cons. split; [|by apply IH].
      rewrite insertBy_Permutation. constructor; [by apply cmp_gt|done].
    + apply cmp_le in E; [|done..].
      apply StronglySorted_cons. split; [|by apply StronglySorted_cons].
      constructor; [done|]. eapply Forall_impl; [exact Hyl|].
      intros z Hz. by transitivity y.
Qed.

Lemma Array_sort_sorted l :
  Forall P l -> StronglySorted R (Array_sort cmp l).
Proof.
  induction l as [|x l IH]; intros HP; simpl; [constructor|].
  apply Forall_cons in HP as [Hx HP].
  apply insertBy_sorted; [done| |by apply IH].
  by rewrite Array_sort_Permutation.
Qed.

End SortFacts.

(** ** Calendar days *)

Section CalendarFacts.
Import Js.

Lemma DayFromYear_succ y :
  DayFromYear (y + 1) =
  DayFromYear y + 365 + (if InLeapYear y then 1 else 0).
Proof.
  unfold DayFromYear, InLeapYear.
  destruct (Z.eqb_spec (y mod 4) 0), (Z.eqb_spec (y mod 100) 0),
    (Z.eqb_spec (y mod 400) 0); simpl;
    Z.div_mod_to_equations; lia.
Qed.

Lemma DayFromYear_mono y y' : y <= y' -> DayFromYear y <= DayFromYear y'.
Proof. unfold DayFromYear. intros. Z.div_mod_to_equations. lia. Qed.

Lemma validDay_bounds y m d :
  validDay y m d = true -> 1 <= m <= 12 /\ 1 <= d <= daysInMonth y m.
Proof. unfold validDay. rewrite !andb_true_iff, !Z.leb_le. lia. Qed.

Lemma month_cases m :
  1 <= m <= 12 ->
  m = 1 \/ m = 2 \/ m = 3 \/ m = 4 \/ m = 5 \/ m = 6 \/
  m = 7 \/ m = 8 \/ m = 9 \/ m = 10 \/ m = 11 \/ m = 12.
Proof. lia. Qed.

Lemma dayOfYear_bound y m d :
  validDay y m d = true ->
  0 <= daysBeforeMonth y m + (d - 1)
    < 365 + (if InLeapYear y then 1 else 0).
Proof.
  intros [Hm Hd]%validDay_bounds.
  apply month_cases in Hm.
  unfold daysBeforeMonth, daysInMonth in *.
  destruct (InLeapYear y);
    repeat (destruct Hm as [->|Hm]; [lia|]); subst; lia.
Qed.

Lemma daysBeforeMonth_lt y m m' d :
  validDay y m d = true -> 1 <= m' <= 12 -> m < m' ->
  daysBeforeMonth y m + (d - 1) < daysBeforeMonth y m'.
Proof.
  intros [Hm Hd]%validDay_bounds Hm' Hlt.
  apply month_cases in Hm, Hm'.
  unfold daysBeforeMonth, daysInMonth in *.
  destruct (InLeapYear y);
    repeat (destruct Hm as [->|Hm]); subst;
    repeat (destruct Hm' as [->|Hm']); subst; lia.
Qed.

(** The day number grows with the date. *)
Lemma MakeDay_lt y m d y' m' d' :
  validDay y m d = true -> validDay y' m' d' = true ->
  y < y' \/ (y = y' /\ (m < m' \/ (m = m' /\ d < d'))) ->
  MakeDay y m d < MakeDay y' m' d'.
Proof.
  intros Hv Hv' Hlex. unfold MakeDay.
  pose proof (dayOfYear_bound _ _ _ Hv) as Hb.
  pose proof (dayOfYear_bound _ _ _ Hv') as Hb'.
  destruct Hlex as [Hy|[-> [Hm|[-> Hd]]]].
  - pose proof (DayFromYear_succ y) as Hs.
    pose proof (DayFromYear_mono (y + 1) y' ltac:(lia)). lia.
  - pose proof (daysBeforeMonth_lt y' m m' d Hv) as Hlt.
    apply validDay_bounds in Hv' as [Hm' Hd']. lia.
  - lia.
Qed.

Lemma digitValue_range c v : digitValue c = Some v -> 0 <= v <= 9.
Proof.
  unfold digitValue. case_match eqn:E; [|done].
  intros [= <-]. apply andb_true_iff in E as [?%Z.leb_le ?%Z.leb_le]. lia.
Qed.

Lemma digitValue_compare c c' v v' :
  digitValue c = Some v -> digitValue c' = Some v' ->
  Ascii.compare c c' = (v ?= v').
Proof.
  unfold digitValue, Ascii.compare. repeat case_match; try done.
  intros [= <-] [= <-]. rewrite <- N2Z.inj_compare.
  destruct (Z.compare_spec (Z.of_N (N_of_ascii c)) (Z.of_N (N_of_ascii c')));
    symmetry; [apply Z.compare_eq_iff | apply Z.compare_lt_iff
              | apply Z.compare_gt_iff]; lia.
Qed.

(** Peel the digits off a successful [Date_parse]. *)
Ltac parse_digits H v :=
  repeat match type of H with
  | context [Ascii.eqb ?x ?y] =>
      destruct (Ascii.eqb_spec x y); [subst|discriminate H]
  end;
  simpl in H;
  repeat match type of H with
  | context [digitValue ?x] =>
      let E := fresh "E" in
      let w := fresh v in
      destruct (digitValue x) as [w|] eqn:E; [simpl in H|discriminate H]
  end.

(** On calendar-day strings the order of the code units is the order of
    the time values. *)
Lemma Date_parse_compare s s' t t' :
  Date_parse s = Some t -> Date_parse s' = Some t' ->
  String.compare s s' = (t ?= t').
Proof.
  intros H H'.
  do 10 (destruct s as [|? s]; [discriminate H|]).
  destruct s; [|discriminate H].
  do 10 (destruct s' as [|? s']; [discriminate H'|]).
  destruct s'; [|discriminate H'].
  unfold Date_parse in H, H'.
  parse_digits H v. parse_digits H' w.
  destruct (validDay _ _ _) eqn:Hv in H; [|discriminate H].
  destruct (validDay _ _ _) eqn:Hv' in H'; [|discriminate H'].
  injection H as <-. injection H' as <-.
  repeat match goal with
  | E : digitValue _ = Some _ |- _ =>
      pose proof (digitValue_range _ _ E); revert E
  end.
  intros.
  cbn [String.compare].
  repeat match goal with
  | |- context [Ascii.compare ?x ?y] =>
      first [ rewrite (digitValue_compare x y _ _
                         ltac:(eassumption) ltac:(eassumption))
            | change (Ascii.compare x y) with Eq ]
  end.
  cbv iota.
  assert (Hms : 0 < msPerDay) by reflexivity.
  repeat match goal with
  | |- match ?a ?= ?b with _ => _ end = _ =>
      destruct (Z.compare_spec a b); [subst| |]
  end;
  symmetry;
  first [ apply Z.compare_eq_iff; reflexivity
        | apply Z.compare_lt_iff, Z.mul_lt_mono_pos_r; [exact Hms|];
          apply MakeDay_lt; [assumption..|lia]
        | apply Z.compare_gt_iff, Z.mul_lt_mono_pos_r; [exact Hms|];
          apply MakeDay_lt; [assumption..|lia] ].
Qed.

Lemma Date_parse_dayNumber s :
  isCalendarDay s -> Date_parse s = Some (dayNumber s * msPerDay).
Proof.
  intros [t Ht]. unfold dayNumber. rewrite Ht. f_equal.
  assert (exists k, t = k * msPerDay) as [k ->]; [|by rewrite Z.div_mul].
  unfold Date_parse in Ht.
  repeat (case_match; try discriminate Ht).
  parse_digits Ht v.
  case_match; [|discriminate Ht]. injection Ht as <-. eauto.
Qed.

Lemma compare_dayNumber s s' :
  isCalendarDay s -> isCalendarDay s' ->
  String.compare s s' = (dayNumber s ?= dayNumber s').
Proof.
  intros Hs Hs'.
  rewrite (Date_parse_compare s s' _ _ (Date_parse_dayNumber s Hs)
             (Date_parse_dayNumber s' Hs')).
  destruct (Z.compare_spec (dayNumber s) (dayNumber s')),
    (Z.compare_spec (dayNumber s * msPerDay) (dayNumber s' * msPerDay));
    try done; unfold msPerDay in *; lia.
Qed.

Lemma gtb_defaultCompare s s' :
  gtb (defaultCompare s s') 0 =
  match String.compare s s' with Gt => true | _ => false end.
Proof. unfold defaultCompare. by destruct (String.compare s s'). Qed.

Lemma days_quotient (k : Z) :
  (inject_Z (k * msPerDay) / inject_Z msPerDay == inject_Z k)%Q.
Proof. rewrite inject_Z_mult. field. discriminate. Qed.

End CalendarFacts.

(** ** Longest streak *)

Section StreakFacts.
Import Js BadgeEligibilityEngine.

#[local] Instance notLater_trans : Transitive notLater.
Proof. unfold notLater. intros x y z. lia. Qed.

(** Sorting the strings sorts the days. *)
Lemma sortedDates_dayNumber dates :
  Forall isCalendarDay dates ->
  map dayNumber (sortedDates dates) = merge_sort Z.le (map dayNumber dates).
Proof.
  intros Hvalid.
  apply (StronglySorted_unique Z.le).
  - apply (StronglySorted_fmap dayNumber notLater); [done|].
    apply (Array_sort_sorted defaultCompare notLater isCalendarDay);
      [| |done]; unfold notLater.
    + intros x y Hx Hy.
      rewrite gtb_defaultCompare, (compare_dayNumber x y Hx Hy).
      destruct (Z.compare_spec (dayNumber x) (dayNumber y)); [lia..|done].
    + intros x y Hx Hy.
      rewrite gtb_defaultCompare, (compare_dayNumber x y Hx Hy).
      destruct (Z.compare_spec (dayNumber x) (dayNumber y)); [done..|lia].
  - apply StronglySorted_merge_sort; apply _.
  - rewrite merge_sort_Permutation. unfold sortedDates.
    apply Permutation_map, Array_sort_Permutation.
Qed.

Lemma dayDiff_dayNumber prev cur :
  isCalendarDay prev -> isCalendarDay cur ->
  exists d, dayDiff prev cur = Some d /\
            (d == inject_Z (dayNumber cur - dayNumber prev))%Q.
Proof.
  intros Hp Hc. unfold dayDiff.
  rewrite (Date_parse_dayNumber _ Hp), (Date_parse_dayNumber _ Hc). simpl.
  eexists. split; [reflexivity|].
  rewrite <- Z.mul_sub_distr_r. apply days_quotient.
Qed.

(** One iteration of the loop is one step of the reference scan; the
    running streak stays between 1 and the longest one. *)
Lemma streakStep_scanDay prev cur longest current :
  isCalendarDay prev -> isCalendarDay cur -> 1 <= current <= longest ->
  let '(longest', current') := streakStep prev cur (longest, current) in
  Spec.scanDay (dayNumber prev, current, longest) (dayNumber cur) =
    (dayNumber cur, current', longest') /\ 1 <= current' <= longest'.
Proof.
  intros Hp Hc Hinv. unfold streakStep, Spec.scanDay.
  destruct (dayDiff_dayNumber prev cur Hp Hc) as (d & -> & Hd).
  set (gap := dayNumber cur - dayNumber prev) in *.
  unfold Js.eqb, Js.gtb.
  destruct (Qeq_bool d 1) eqn:E1.
  - apply Qeq_bool_iff in E1. rewrite Hd in E1.
    assert (gap = 1) as -> by (by apply (inject_Z_injective gap 1)).
    simpl. split; [done|lia].
  - apply Qeq_bool_neq in E1. rewrite Hd in E1.
    destruct (Z.eqb_spec gap 1) as [->|Hne]; [by destruct E1|].
    destruct (Qle_bool d 1) eqn:E2; simpl.
    + apply Qle_bool_iff in E2. rewrite Hd in E2.
      change 1%Q with (inject_Z 1) in E2. rewrite <- Zle_Qle in E2.
      destruct (Z.ltb_spec 1 gap); [lia|]. split; [f_equal; lia|lia].
    + destruct (Z.ltb_spec 1 gap) as [Hlt|Hge].
      * split; [f_equal; lia|lia].
      * exfalso. rewrite <- not_true_iff_false, Qle_bool_iff, Hd in E2.
        apply E2. change 1%Q with (inject_Z 1). rewrite <- Zle_Qle. lia.
Qed.

Lemma streakLoop_scan rest : forall prev longest current,
  isCalendarDay prev -> Forall isCalendarDay rest ->
  1 <= current <= longest ->
  streakLoop prev rest (longest, current) =
  snd (fold_left Spec.scanDay (map dayNumber rest)
                 (dayNumber prev, current, longest)).
Proof.
  induction rest as [|cur rest IH]; intros prev longest current Hp Hr Hinv;
    [done|].
  apply Forall_cons in Hr as [Hc Hr]. cbn [streakLoop fold_left List.map].
  pose proof (streakStep_scanDay prev cur longest current Hp Hc Hinv)
    as Hstep.
  destruct (streakStep prev cur (longest, current)) as [longest' current'].
  destruct Hstep as [-> Hinv']. by apply IH.
Qed.

(** C6: on calendar-day dates [calculateLongestStreak] computes what the
    reference algorithm computes on their day numbers (sort ascending; a
    gap of one day extends the running streak, a larger gap restarts it at
    1, a zero gap leaves it; the maximum is returned, 0 for no dates); it
    returns 0 on no dates, 3 on three consecutive days and 1 on two days
    four days apart. *)
Theorem calculateLongestStreak_reference :
  (forall dates, Forall isCalendarDay dates ->
     calculateLongestStreak dates =
     Spec.longestStreak (map dayNumber dates)) /\
  calculateLongestStreak [] = 0 /\
  calculateLongestStreak
    ["2024-01-01"; "2024-01-02"; "2024-01-03"]%string = 3 /\
  calculateLongestStreak ["2024-01-01"; "2024-01-05"]%string = 1.
Proof.
  split; [|by vm_compute].
  intros dates Hvalid. unfold calculateLongestStreak, Spec.longestStreak.
  rewrite <- (sortedDates_dayNumber dates Hvalid).
  assert (Hs : Forall isCalendarDay (sortedDates dates)).
  { unfold sortedDates. by rewrite Array_sort_Permutation. }
  assert (Hlen : length (sortedDates dates) = length dates).
  { apply length_Array_sort. }
  destruct dates as [|d0 dates]; [done|].
  destruct (sortedDates (d0 :: dates)) as [|first rest]; [done|].
  apply Forall_cons in Hs as [Hf Hr]. simpl.
  apply streakLoop_scan; [done..|lia].
Qed.

End StreakFacts.

(** C6 on three unordered days with a repetition. *)
Lemma calculateLongestStreak_reference_witness :
  let dates :=
    ["2024-03-01"; "2024-02-28"; "2024-02-29"; "2024-02-29"]%string in
  Forall isCalendarDay dates /\
  BadgeEligibilityEngine.calculateLongestStreak dates =
  Spec.longestStreak (map dayNumber dates).
Proof.
  intros dates.
  assert (Hvalid : Forall isCalendarDay dates).
  { repeat constructor; by eexists. }
  split; [exact Hvalid|].
  exact (proj1 calculateLongestStreak_reference dates Hvalid).
Defined.

(** ** Leaderboards *)

Section LeaderboardFacts.
Import LeaderboardEngine.

Lemma length_Array_slice0 {A} (l : list A) (limit : Z) :
  0 <= limit -> Z.of_nat (length (Js.Array_slice0 l limit)) <= limit.
Proof.
  intros Hlimit. unfold Js.Array_slice0.
  destruct (Z.ltb_spec limit 0); [lia|].
  rewrite length_firstn. lia.
Qed.

Lemma ranks_imap {A B} (rank : B -> Z) (f : nat -> A -> B) (l : list A) :
  (forall i x, rank (f i x) = Z.of_nat i + 1) ->
  map rank (imap f l) = map Z.of_nat (seq 1 (length (imap f l))).
Proof.
  intros Hrank. rewrite length_imap.
  change (map rank (imap f l)) with (rank <$> imap f l).
  rewrite fmap_imap.
  rewrite (imap_ext _ (fun i _ => Z.of_nat (1 + i)))
    by (intros; simpl; rewrite Hrank; lia).
  apply (imap_seq l Z.of_nat 1%nat).
Qed.

(** C9, amended: on each of the three leaderboards the ranks of a result
    of length N are exactly 1, ..., N in order, and N is at most the limit
    whenever the limit is not negative. *)
Theorem leaderboard_ranks_dense :
  (forall users limit,
     let board := generateGlobalLeaderboard users limit in
     map g_rank board = map Z.of_nat (seq 1 (length board)) /\
     (0 <= limit -> Z.of_nat (length board) <= limit)) /\
  (forall users categoryId limit,
     let board := generateCategoryLeaderboard users categoryId limit in
     map c_rank board = map Z.of_nat (seq 1 (length board)) /\
     (0 <= limit -> Z.of_nat (length board) <= limit)) /\
  (forall now prompts days limit,
     let board := generateTrendingLeaderboard now prompts days limit in
     map t_rank board = map Z.of_nat (seq 1 (length board)) /\
     (0 <= limit -> Z.of_nat (length board) <= limit)).
Proof.
  split; [|split]; intros; subst board;
    (split; [by apply ranks_imap|]);
    intros Hlimit;
    unfold generateGlobalLeaderboard, generateCategoryLeaderboard,
      generateTrendingLeaderboard;
    rewrite length_imap; by apply length_Array_slice0.
Qed.

Lemma ageMultiplier_antitone now1 now2 prompt days :
  0 < days -> now1 <= now2 ->
  (ageMultiplier now2 prompt days <= ageMultiplier now1 prompt days)%Q.
Proof.
  intros Hdays Hnow. unfold ageMultiplier, Js.Math_max.
  apply Q.max_le_compat_l.
  assert (Hms : (0 < / inject_Z Js.msPerDay)%Q) by reflexivity.
  assert (Hd : (0 < / inject_Z days)%Q).
  { apply Qinv_lt_0_compat. change 0%Q with (inject_Z 0).
    by rewrite <- Zlt_Qlt. }
  assert (Hage : (inject_Z (now1 - createdAt prompt) <=
                  inject_Z (now2 - createdAt prompt))%Q).
  { rewrite <- Zle_Qle. lia. }
  unfold Qdiv.
  apply (Qmult_le_compat_r _ _ (/ inject_Z Js.msPerDay)) in Hage; [|lra].
  apply (Qmult_le_compat_r _ _ (/ inject_Z days)) in Hage; [|lra].
  lra.
Qed.

(** C7, amended: for a prompt with non-negative score, usage count and
    average rating and a window of at least one day, the trending score
    never increases as the prompt ages. *)
Theorem trending_score_decays now1 now2 prompt days :
  0 <= score prompt -> 0 <= usageCount prompt ->
  (0 <= averageRating prompt)%Q -> 0 < days -> now1 <= now2 ->
  calculateTrendingScore now2 prompt days
  <= calculateTrendingScore now1 prompt days.
Proof.
  intros Hs Hu Hr Hdays Hnow. unfold calculateTrendingScore.
  pose proof (ageMultiplier_antitone now1 now2 prompt days Hdays Hnow) as Hm.
  set (m1 := ageMultiplier now1 prompt days) in *.
  set (m2 := ageMultiplier now2 prompt days) in *.
  apply Math_round_mono.
  rewrite Zle_Qle in Hs, Hu. change (inject_Z 0) with 0%Q in Hs, Hu.
  set (s := inject_Z (score prompt)) in *.
  set (u := inject_Z (usageCount prompt)) in *.
  set (r := averageRating prompt) in *.
  assert (0 <= (s + u * 2 + r * 10) * (m1 - m2))%Q
    by (apply Qmult_le_0_compat; lra).
  lra.
Qed.

End LeaderboardFacts.

(** C9 as stated fails for a negative limit: [slice(0, -1)] drops only the
    last of three users, and the two entries returned exceed the limit. *)
Lemma leaderboard_negative_limit :
  let board :=
    LeaderboardEngine.generateGlobalLeaderboard
      [Sample.user 30; Sample.user 20; Sample.user 10] (-1) in
  map LeaderboardEngine.g_rank board = [1; 2] /\
  ~ Z.of_nat (length board) <= -1.
Proof. by vm_compute. Qed.

(** C9, amended, on three users and a limit of 2. *)
Lemma leaderboard_ranks_dense_witness :
  let board :=
    LeaderboardEngine.generateGlobalLeaderboard
      [Sample.user 10; Sample.user 30; Sample.user 20] 2 in
  0 <= 2 /\
  map LeaderboardEngine.g_rank board = map Z.of_nat (seq 1 (length board)) /\
  Z.of_nat (length board) <= 2.
Proof.
  intros board.
  assert (Hlimit : 0 <= 2) by lia.
  split; [exact Hlimit|].
  destruct (proj1 leaderboard_ranks_dense
              [Sample.user 10; Sample.user 30; Sample.user 20] 2)
    as [Hranks Hlen].
  split; [exact Hranks|exact (Hlen Hlimit)].
Defined.

(** C7 as stated fails: with a window of 10 days a prompt of score 100 has
    trending score 10 at an age of 9.2 days and still 10 at 9.5 days, the
    multiplier staying at its floor 0.1. *)
Lemma trending_score_not_strict :
  0 <= 794880000 - LeaderboardEngine.createdAt Sample.agedPrompt /\
  794880000 - LeaderboardEngine.createdAt Sample.agedPrompt
    < 820800000 - LeaderboardEngine.createdAt Sample.agedPrompt /\
  820800000 - LeaderboardEngine.createdAt Sample.agedPrompt
    < 10 * Js.msPerDay /\
  LeaderboardEngine.calculateTrendingScore 794880000 Sample.agedPrompt 10
    = 10 /\
  LeaderboardEngine.calculateTrendingScore 820800000 Sample.agedPrompt 10
    = 10 /\
  ~ LeaderboardEngine.calculateTrendingScore 820800000 Sample.agedPrompt 10
    < LeaderboardEngine.calculateTrendingScore 794880000 Sample.agedPrompt 10.
Proof. by vm_compute. Qed.

(** C7, amended, between the creation of a prompt and one day later. *)
Lemma trending_score_decays_witness :
  0 <= LeaderboardEngine.score Sample.agedPrompt /\
  0 <= LeaderboardEngine.usageCount Sample.agedPrompt /\
  (0 <= LeaderboardEngine.averageRating Sample.agedPrompt)%Q /\
  0 < 10 /\ 0 <= 86400000 /\
  LeaderboardEngine.calculateTrendingScore 86400000 Sample.agedPrompt 10
  <= LeaderboardEngine.calculateTrendingScore 0 Sample.agedPrompt 10.
Proof.
  assert (Hs : 0 <= LeaderboardEngine.score Sample.agedPrompt)
    by (simpl; lia).
  assert (Hu : 0 <= LeaderboardEngine.usageCount Sample.agedPrompt)
    by (simpl; lia).
  assert (Hr : (0 <= LeaderboardEngine.averageRating Sample.agedPrompt)%Q)
    by (simpl; lra).
  assert (Hdays : 0 < 10) by lia.
  assert (Hnow : 0 <= 86400000) by lia.
  repeat (split; [assumption|]).
  exact (trending_score_decays 0 86400000 Sample.agedPrompt 10
           Hs Hu Hr Hdays Hnow).
Defined.

(** ** The clock and negative counts *)

Section EngineFacts.
Import PromptScoringEngine BadgeEligibilityEngine.






End EngineFacts.


(** [generateTrendingLeaderboard] reads the clock as well: the same prompt
    is listed with trending score 100 when the clock reads its creation
    time, and 50 five days later. *)
Lemma generateTrendingLeaderboard_reads_clock :
  map LeaderboardEngine.trendingScore
      (LeaderboardEngine.generateTrendingLeaderboard
         0 [Sample.agedPrompt] 10 20) = [100] /\
  map LeaderboardEngine.trendingScore
      (LeaderboardEngine.generateTrendingLeaderboard
         (5 * Js.msPerDay) [Sample.agedPrompt] 10 20) = [50].
Proof. by vm_compute. Qed.




(** * Further properties *)

(** ** Rounding, again *)

Section RoundMore.
Import Js.

Lemma Math_round_ge (x : Q) (n : Z) : (inject_Z n <= x)%Q -> n <= Math_round x.
Proof.
  intros Hx. rewrite <- (Math_round_Z n). by apply Math_round_mono.
Qed.

Lemma Math_round_gt (x : Q) (n : Z) : (inject_Z n < x)%Q -> n <= Math_round x.
Proof. intros Hx. apply Math_round_ge. lra. Qed.

(** [Math.round] moves a number by at most one half. *)
Lemma Math_round_near (x : Q) :
  (x - (1 # 2) < inject_Z (Math_round x) <= x + (1 # 2))%Q.
Proof.
  unfold Math_round.
  pose proof (Qfloor_le (x + (1 # 2))) as Hlo.
  pose proof (Qlt_floor (x + (1 # 2))) as Hhi.
  rewrite inject_Z_plus in Hhi. change (inject_Z 1) with 1%Q in Hhi.
  split; lra.
Qed.
End RoundMore.

(** ** The four sub-scores *)

Section ScoringMore.
Import PromptScoringEngine.
Variable log10 : Q -> Q.

Lemma getConfidenceMultiplier_mono n m :
  n <= m -> (getConfidenceMultiplier n <= getConfidenceMultiplier m)%Q.
Proof.
  intros Hnm. unfold getConfidenceMultiplier.
  repeat case_match; try lra; lia.
Qed.

(** X1. For an average rating between 0 and 5 the rating score lies between
    -25 and 100; it is not negative from an average of 1 on and not positive
    up to an average of 1. *)
Theorem calculateRatingScore_bounds p :
  ((0 <= averageRating p <= 5)%Q -> -25 <= calculateRatingScore p <= 100) /\
  ((1 <= averageRating p)%Q -> 0 <= calculateRatingScore p) /\
  ((averageRating p <= 1)%Q -> calculateRatingScore p <= 0).
Proof.
  pose proof (getConfidenceMultiplier_range (ratingCount p)) as [Hlo Hhi].
  unfold calculateRatingScore, maxScores.rating.
  set (c := getConfidenceMultiplier (ratingCount p)) in *.
  set (a := averageRating p) in *.
  assert (Heq : ((a - 1) / 4 * 100 * c == 25 * ((a - 1) * c))%Q) by field.
  split; [|split].
  - intros [Ha0 Ha5]. destruct (ratingCount p =? 0); [lia|].
    split.
    + apply Math_round_ge. rewrite Heq. change (inject_Z (-25)) with (-25)%Q.
      destruct (Qlt_le_dec a 1).
      * assert (0 <= (1 - a) * (1 - c))%Q by (apply Qmult_le_0_compat; lra). lra.
      * assert (0 <= (a - 1) * c)%Q by (apply Qmult_le_0_compat; lra). lra.
    + apply Math_round_le. rewrite Heq. change (inject_Z 100) with 100%Q.
      destruct (Qlt_le_dec a 1).
      * assert (0 <= (1 - a) * c)%Q by (apply Qmult_le_0_compat; lra). lra.
      * assert (0 <= (a - 1) * (1 - c))%Q by (apply Qmult_le_0_compat; lra). lra.
  - intros Ha. destruct (ratingCount p =? 0); [lia|].
    apply Math_round_ge. rewrite Heq. change (inject_Z 0) with 0%Q.
    assert (0 <= (a - 1) * c)%Q by (apply Qmult_le_0_compat; lra). lra.
  - intros Ha. destruct (ratingCount p =? 0); [lia|].
    apply Math_round_le. rewrite Heq. change (inject_Z 0) with 0%Q.
    assert (0 <= (1 - a) * c)%Q by (apply Qmult_le_0_compat; lra). lra.
Qed.

Lemma calculateRatingScore_mono_rating p p' :
  ratingCount p = ratingCount p' ->
  (averageRating p <= averageRating p')%Q ->
  calculateRatingScore p <= calculateRatingScore p'.
Proof.
  intros Hn Ha. unfold calculateRatingScore, maxScores.rating. rewrite <- Hn.
  destruct (ratingCount p =? 0); [lia|].
  apply Math_round_mono.
  pose proof (getConfidenceMultiplier_range (ratingCount p)) as [Hlo Hhi].
  set (c := getConfidenceMultiplier (ratingCount p)) in *.
  assert (0 <= (averageRating p' - averageRating p) * c)%Q
    by (apply Qmult_le_0_compat; lra).
  assert (Heq : forall a, ((a - 1) / 4 * 100 * c == 25 * (a * c) - 25 * c)%Q)
    by (intros; field).
  rewrite !Heq. lra.
Qed.

Lemma calculateRatingScore_mono_count p p' :
  (averageRating p == averageRating p')%Q -> (1 <= averageRating p)%Q ->
  1 <= ratingCount p <= ratingCount p' ->
  calculateRatingScore p <= calculateRatingScore p'.
Proof.
  intros Ha H1 Hn. unfold calculateRatingScore, maxScores.rating.
  destruct (Z.eqb_spec (ratingCount p) 0); [lia|].
  destruct (Z.eqb_spec (ratingCount p') 0); [lia|].
  apply Math_round_mono.
  pose proof (getConfidenceMultiplier_mono _ _ (proj2 Hn)) as Hc.
  pose proof (getConfidenceMultiplier_range (ratingCount p)) as [Hlo Hhi].
  set (c := getConfidenceMultiplier (ratingCount p)) in *.
  set (c' := getConfidenceMultiplier (ratingCount p')) in *.
  rewrite <- Ha.
  assert (0 <= (averageRating p - 1) * (c' - c))%Q
    by (apply Qmult_le_0_compat; lra).
  assert (Heq : forall c, ((averageRating p - 1) / 4 * 100 * c == 25 * ((averageRating p - 1) * c))%Q)
    by (intros; field).
  rewrite !Heq. lra.
Qed.

(** X2. The rating score does not decrease when the average rating grows at
    the same number of ratings, nor when the number of ratings grows at the
    same average of at least 1. *)
Theorem calculateRatingScore_monotone p p' :
  (ratingCount p = ratingCount p' ->
   (averageRating p <= averageRating p')%Q ->
   calculateRatingScore p <= calculateRatingScore p') /\
  ((averageRating p == averageRating p')%Q -> (1 <= averageRating p)%Q ->
   1 <= ratingCount p <= ratingCount p' ->
   calculateRatingScore p <= calculateRatingScore p').
Proof.
  split; [apply calculateRatingScore_mono_rating|apply calculateRatingScore_mono_count].
Qed.

Lemma recency_raw_nonneg p :
  (0 <= Js.Math_max 0 (maxScores.recency - daysSinceCreated p * 0.5))%Q.
Proof. apply Q.le_max_l. Qed.

(** X3. The recency score lies between 0 and 20 whatever the input, and an
    older prompt with the same last use never scores more. *)
Theorem calculateRecencyScore_bounds p p' :
  0 <= calculateRecencyScore p <= 20 /\
  (lastUsedDaysAgo p = lastUsedDaysAgo p' ->
   (daysSinceCreated p <= daysSinceCreated p')%Q ->
   calculateRecencyScore p' <= calculateRecencyScore p).
Proof.
  split.
  - split; [|apply calculateRecencyScore_le].
    unfold calculateRecencyScore. apply Math_round_ge.
    change (inject_Z 0) with 0%Q. unfold Js.Math_min.
    apply Q.min_glb; [|unfold maxScores.recency; lra].
    pose proof (recency_raw_nonneg p) as Hraw.
    destruct (lastUsedDaysAgo p) as [last|]; [|exact Hraw].
    destruct (Js.ltb last 7); [|exact Hraw].
    pose proof (Q.le_max_l 0 (10 - last)) as Hbonus. unfold Js.Math_max in *. lra.
  - intros Hlast Hdays. unfold calculateRecencyScore. rewrite <- Hlast.
    apply Math_round_mono. unfold Js.Math_min. apply Q.min_le_compat_r.
    assert (Hraw : (Js.Math_max 0 (maxScores.recency - daysSinceCreated p' * 0.5) <=
                    Js.Math_max 0 (maxScores.recency - daysSinceCreated p * 0.5))%Q).
    { unfold Js.Math_max. apply Q.max_le_compat_l. lra. }
    destruct (lastUsedDaysAgo p) as [last|]; [|exact Hraw].
    destruct (Js.ltb last 7); [|exact Hraw]. lra.
Qed.

Lemma ltb_lt x y : Js.ltb x y = true <-> (x < y)%Q.
Proof.
  unfold Js.ltb. rewrite negb_true_iff, <- not_true_iff_false, Qle_bool_iff.
  split; [apply Qnot_le_lt|apply Qlt_not_le].
Qed.

Lemma gtb_gt x y : Js.gtb x y = true <-> (y < x)%Q.
Proof.
  unfold Js.gtb. rewrite negb_true_iff, <- not_true_iff_false, Qle_bool_iff.
  split; [apply Qnot_le_lt|apply Qlt_not_le].
Qed.

(** X4. A use within the last seven days gives a recency score of at least
    3; a prompt of 40 days or more that was not used within the last seven
    days has recency score 0. *)
Theorem calculateRecencyScore_recent_use p :
  (forall last, lastUsedDaysAgo p = Some last -> (last < 7)%Q ->
     3 <= calculateRecencyScore p) /\
  ((40 <= daysSinceCreated p)%Q ->
   (forall last, lastUsedDaysAgo p = Some last -> (7 <= last)%Q) ->
   calculateRecencyScore p = 0).
Proof.
  split.
  - intros last Hlast Hlt. unfold calculateRecencyScore. rewrite Hlast.
    rewrite (proj2 (ltb_lt last 7) Hlt).
    apply Math_round_gt. change (inject_Z 3) with 3%Q. unfold Js.Math_min.
    apply Q.min_glb_lt; [|unfold maxScores.recency; lra].
    pose proof (recency_raw_nonneg p) as Hraw.
    pose proof (Q.le_max_r 0 (10 - last)) as Hbonus. unfold Js.Math_max in *. lra.
  - intros Hold Hunused.
    assert (Hraw : (Js.Math_max 0 (maxScores.recency - daysSinceCreated p * 0.5) == 0)%Q).
    { unfold Js.Math_max, maxScores.recency. apply Q.max_l. lra. }
    unfold calculateRecencyScore.
    assert (Hsame : (match lastUsedDaysAgo p with
       | Some last => if Js.ltb last 7
            then (Js.Math_max 0 (maxScores.recency - daysSinceCreated p * 0.5) + Js.Math_max 0 (10 - last))%Q
            else Js.Math_max 0 (maxScores.recency - daysSinceCreated p * 0.5)
       | None => Js.Math_max 0 (maxScores.recency - daysSinceCreated p * 0.5) end
       = Js.Math_max 0 (maxScores.recency - daysSinceCreated p * 0.5))).
    { destruct (lastUsedDaysAgo p) as [last|] eqn:E; [|done].
      destruct (Js.ltb last 7) eqn:El; [|done].
      apply ltb_lt in El. specialize (Hunused last eq_refl). lra. }
    rewrite Hsame.
    apply Z.le_antisymm.
    + apply Math_round_le. change (inject_Z 0) with 0%Q.
      unfold Js.Math_min.
      pose proof (Q.le_min_l
        (Js.Math_max 0 (maxScores.recency - daysSinceCreated p * 0.5))
        maxScores.recency). lra.
    + apply Math_round_ge. change (inject_Z 0) with 0%Q.
      unfold Js.Math_min. apply Q.min_glb; [lra|unfold maxScores.recency; lra].
Qed.

Lemma calculateEngagementScore_mono p p' :
  favoriteCount p <= favoriteCount p' -> shareCount p <= shareCount p' ->
  commentCount p <= commentCount p' -> viewCount p <= viewCount p' ->
  calculateEngagementScore p <= calculateEngagementScore p'.
Proof.
  intros Hf Hs Hc Hv. unfold calculateEngagementScore.
  apply Math_round_mono. unfold Js.Math_min. apply Q.min_le_compat_r.
  rewrite Zle_Qle in Hf, Hs, Hc, Hv. lra.
Qed.

(** X5. With counts that are not negative the engagement score lies between
    0 and 30; it does not decrease when the counts grow; ten favourites alone
    reach the cap 30. *)
Theorem calculateEngagementScore_bounds p p' :
  (0 <= favoriteCount p -> 0 <= shareCount p -> 0 <= commentCount p ->
   0 <= viewCount p -> 0 <= calculateEngagementScore p <= 30) /\
  (favoriteCount p <= favoriteCount p' -> shareCount p <= shareCount p' ->
   commentCount p <= commentCount p' -> viewCount p <= viewCount p' ->
   calculateEngagementScore p <= calculateEngagementScore p') /\
  (10 <= favoriteCount p -> 0 <= shareCount p -> 0 <= commentCount p ->
   0 <= viewCount p -> calculateEngagementScore p = 30).
Proof.
  split; [|split].
  - intros Hf Hs Hc Hv. split; [|apply calculateEngagementScore_le].
    unfold calculateEngagementScore. apply Math_round_ge.
    change (inject_Z 0) with 0%Q. unfold Js.Math_min, maxScores.engagement.
    rewrite Zle_Qle in Hf, Hs, Hc, Hv. change (inject_Z 0) with 0%Q in *.
    apply Q.min_glb; lra.
  - apply calculateEngagementScore_mono.
  - intros Hf Hs Hc Hv. apply Z.le_antisymm; [apply calculateEngagementScore_le|].
    unfold calculateEngagementScore. apply Math_round_ge.
    change (inject_Z 30) with 30%Q. unfold Js.Math_min, maxScores.engagement.
    rewrite Zle_Qle in Hf, Hs, Hc, Hv.
    change (inject_Z 0) with 0%Q in *. change (inject_Z 10) with 10%Q in *.
    apply Q.min_glb; lra.
Qed.

Lemma usageVelocity_mono (u u' : Z) (d : Q) :
  u <= u' ->
  ((if Js.gtb d 0 then inject_Z u / d else inject_Z u) <=
   (if Js.gtb d 0 then inject_Z u' / d else inject_Z u'))%Q.
Proof.
  intros Hu. rewrite Zle_Qle in Hu.
  destruct (Js.gtb d 0) eqn:E; [|exact Hu].
  apply gtb_gt in E. unfold Qdiv. apply Qmult_le_compat_r; [exact Hu|].
  apply Qlt_le_weak, Qinv_lt_0_compat, E.
Qed.

Lemma usageVelocity_nonneg (u : Z) (d : Q) :
  0 <= u -> (0 <= (if Js.gtb d 0 then inject_Z u / d else inject_Z u))%Q.
Proof.
  intros Hu. pose proof (usageVelocity_mono 0 u d Hu) as H.
  destruct (Js.gtb d 0); [|exact H].
  unfold Qdiv in H at 1. rewrite Qmult_0_l in H. exact H.
Qed.

Lemma calculateUsageScore_nonneg p :
  log10_nonneg log10 -> 0 <= usageCount p -> 0 <= calculateUsageScore log10 p.
Proof.
  intros Hlog Hu. unfold calculateUsageScore.
  destruct (usageCount p =? 0); [lia|].
  apply Math_round_ge. change (inject_Z 0) with 0%Q.
  unfold Js.Math_min, maxScores.usage.
  pose proof (usageVelocity_nonneg (usageCount p) (daysSinceCreated p) Hu) as Hv.
  assert (Hbase : (0 <= log10 (inject_Z (usageCount p + 1)))%Q).
  { apply Hlog. change 1%Q with (inject_Z 1). rewrite <- Zle_Qle. lia. }
  apply Q.min_glb; [|lra].
  assert (0 <= Qmin ((if Js.gtb (daysSinceCreated p) 0
                      then inject_Z (usageCount p) / daysSinceCreated p
                      else inject_Z (usageCount p)) * 5) 20)%Q
    by (apply Q.min_glb; lra).
  lra.
Qed.

Lemma calculateUsageScore_mono p p' :
  log10_nonneg log10 -> log10_monotone log10 ->
  daysSinceCreated p = daysSinceCreated p' ->
  0 <= usageCount p <= usageCount p' ->
  calculateUsageScore log10 p <= calculateUsageScore log10 p'.
Proof.
  intros Hlog Hmono Hd [Hu Hu'].
  destruct (Z.eqb_spec (usageCount p) 0) as [H0|Hpos].
  - unfold calculateUsageScore at 1. rewrite H0. simpl.
    apply calculateUsageScore_nonneg; [done|lia].
  - unfold calculateUsageScore. rewrite <- Hd.
    destruct (Z.eqb_spec (usageCount p) 0); [done|].
    destruct (Z.eqb_spec (usageCount p') 0); [lia|].
    apply Math_round_mono. unfold Js.Math_min. apply Q.min_le_compat_r.
    pose proof (usageVelocity_mono _ _ (daysSinceCreated p) Hu') as Hv.
    assert (Hbase : (log10 (inject_Z (usageCount p + 1)) <=
                     log10 (inject_Z (usageCount p' + 1)))%Q).
    { apply Hmono. rewrite <- Zle_Qle. lia. }
    assert (Hbonus :
      (Qmin ((if Js.gtb (daysSinceCreated p) 0
              then inject_Z (usageCount p) / daysSinceCreated p
              else inject_Z (usageCount p)) * 5) 20 <=
       Qmin ((if Js.gtb (daysSinceCreated p) 0
              then inject_Z (usageCount p') / daysSinceCreated p
              else inject_Z (usageCount p')) * 5) 20)%Q).
    { apply Q.min_le_compat_r. lra. }
    lra.
Qed.

(** X6. For a logarithm that is monotone and not negative from 1 on, the
    usage score of a usage count that is not negative lies between 0 and 50
    and does not decrease when the usage count grows at the same age. *)
Theorem calculateUsageScore_bounds p p' :
  log10_nonneg log10 -> log10_monotone log10 ->
  (0 <= usageCount p -> 0 <= calculateUsageScore log10 p <= 50) /\
  (daysSinceCreated p = daysSinceCreated p' ->
   0 <= usageCount p <= usageCount p' ->
   calculateUsageScore log10 p <= calculateUsageScore log10 p').
Proof.
  intros Hlog Hmono. split.
  - intros Hu. split; [by apply calculateUsageScore_nonneg|].
    apply calculateUsageScore_le.
  - by apply calculateUsageScore_mono.
Qed.

(** X7. The final score is monotone: more stars, uses, favourites, shares,
    comments or views, everything else equal, never lower the score. *)
Theorem calculateScore_monotone p p' :
  log10_nonneg log10 -> log10_monotone log10 -> improves p p' ->
  calculateScore log10 p <= calculateScore log10 p'.
Proof.
  intros Hlog Hmono (Hn & Ha & Hd & Hl & Hu & Hf & Hs & Hc & Hv).
  pose proof (calculateRatingScore_mono_rating p p' Hn Ha) as Hr.
  pose proof (calculateUsageScore_mono p p' Hlog Hmono Hd Hu) as Hus.
  pose proof (calculateEngagementScore_mono p p' Hf Hs Hc Hv) as He.
  assert (Hrec : calculateRecencyScore p = calculateRecencyScore p').
  { unfold calculateRecencyScore. by rewrite Hd, Hl. }
  assert (Htotal : weightedTotal log10 p <= weightedTotal log10 p').
  { unfold weightedTotal. apply Math_round_mono. rewrite Hrec.
    rewrite Zle_Qle in Hr, Hus, He.
    unfold weights.rating, weights.usage, weights.recency, weights.engagement.
    lra. }
  unfold calculateScore. lia.
Qed.

Lemma Math_round_comp (x y : Q) : (x == y)%Q -> Js.Math_round x = Js.Math_round y.
Proof. intros H. unfold Js.Math_round. apply Qfloor_comp. by rewrite H. Qed.

(** X8. The breakdown carries the four sub-scores; the final score is
    recomputed from its [score] and [weight] fields alone, and the four
    rounded contributions add up to the rounded weighted sum within 2. *)
Theorem getScoreBreakdown_total p :
  let bd := getScoreBreakdown log10 p in
  let parts := components bd in
  map score parts =
    [calculateRatingScore p; calculateUsageScore log10 p;
     calculateRecencyScore p; calculateEngagementScore p] /\
  calculateScore log10 p =
    Z.max 0 (Z.min 200
      (Js.Math_round
         (Js.sumQ (fun c => (inject_Z (score c) * weight c)%Q) parts))) /\
  -2 <= weightedTotal log10 p - Js.sumZ contribution parts <= 2.
Proof.
  intros bd parts. split; [reflexivity|]. split.
  - unfold calculateScore, weightedTotal. do 2 f_equal.
    apply Math_round_comp. subst parts bd. unfold Js.sumQ. simpl. ring.
  - subst parts bd. unfold Js.sumZ, weightedTotal. simpl.
    set (r := (inject_Z (calculateRatingScore p) * weights.rating)%Q).
    set (u := (inject_Z (calculateUsageScore log10 p) * weights.usage)%Q).
    set (c := (inject_Z (calculateRecencyScore p) * weights.recency)%Q).
    set (e := (inject_Z (calculateEngagementScore p) * weights.engagement)%Q).
    pose proof (Math_round_near r) as Hr.
    pose proof (Math_round_near u) as Hu.
    pose proof (Math_round_near c) as Hc.
    pose proof (Math_round_near e) as He.
    pose proof (Math_round_near (r + u + c + e)) as Ht.
    set (R := Js.Math_round r) in *. set (U := Js.Math_round u) in *.
    set (C := Js.Math_round c) in *. set (E := Js.Math_round e) in *.
    set (T := Js.Math_round (r + u + c + e)) in *.
    assert (Hlo : (inject_Z (R + U + C + E + -3) < inject_Z T)%Q).
    { rewrite !inject_Z_plus. change (inject_Z (-3)) with (-3)%Q. lra. }
    assert (Hhi : (inject_Z T < inject_Z (R + U + C + E + 3))%Q).
    { rewrite !inject_Z_plus. change (inject_Z 3) with 3%Q. lra. }
    rewrite <- Zlt_Qlt in Hlo, Hhi. lia.
Qed.

End ScoringMore.

(** ** Category adjustment *)

Section CategoryFacts.
Import PromptScoringEngine.

Lemma categoryMultipliers_lookup c m :
  categoryMultipliers !! c = Some m ->
  Js.inheritedKey c = false /\ Js.eqb m 0 = false /\
  (0.95 <= m <= 1.1)%Q /\
  (c <> "code-development"%string -> c <> "education-learning"%string ->
   m = 1.0%Q \/ m = 0.95%Q) /\
  (c <> "personal-lifestyle"%string -> (1 <= m)%Q).
Proof.
  intros H. apply elem_of_list_to_map_2 in H.
  repeat (apply elem_of_cons in H as [[= -> ->]|H];
          [split; [reflexivity|]; split; [reflexivity|]; split; [split; lra|];
           split; [intros; auto; congruence | intros; try congruence; lra]|]).
  by apply elem_of_nil in H.
Qed.

Lemma applyCategoryAdjustments_Some score p c a :
  applyCategoryAdjustments score p c = Some a ->
  a = Js.Math_round (score * multiplierOf c).
Proof.
  unfold applyCategoryAdjustments, multiplierOf.
  destruct (categoryMultipliers !! c) as [m|]; [by intros [= <-]|].
  destruct (Js.inheritedKey c); [done|by intros [= <-]].
Qed.

Lemma multiplierOf_range c :
  (0.95 <= multiplierOf c <= 1.1)%Q /\
  (c <> "code-development"%string -> c <> "education-learning"%string ->
   (multiplierOf c <= 1)%Q) /\
  (c <> "personal-lifestyle"%string -> (1 <= multiplierOf c)%Q).
Proof.
  unfold multiplierOf.
  destruct (categoryMultipliers !! c) as [m|] eqn:E.
  - destruct (categoryMultipliers_lookup c m E) as (_ & -> & Hm & Hlow & Hhigh).
    split; [exact Hm|]. split; [|exact Hhigh].
    intros H1 H2. destruct (Hlow H1 H2) as [-> | ->]; lra.
  - repeat split; intros; lra.
Qed.

(** X9. The category adjustment is a number exactly when the category id is
    not the name of a property every object inherits; on a category without
    boost or penalty, unknown ones included, an integer score is returned
    unchanged. *)
Theorem applyCategoryAdjustments_defined score p c :
  (is_Some (applyCategoryAdjustments score p c) <->
   Js.inheritedKey c = false) /\
  (forall n : Z,
     Js.inheritedKey c = false ->
     c ∉ ["code-development"; "education-learning";
          "personal-lifestyle"]%string ->
     applyCategoryAdjustments (inject_Z n) p c = Some n).
Proof.
  split.
  - unfold applyCategoryAdjustments.
    destruct (categoryMultipliers !! c) as [m|] eqn:E.
    + destruct (categoryMultipliers_lookup c m E) as (Hkey & _).
      split; [done|by eexists].
    + destruct (Js.inheritedKey c); split; intros H; try done;
        try (by eexists); by destruct H as [? [=]].
  - intros n Hkey Hc.
    assert (Hm : (multiplierOf c == 1)%Q).
    { destruct (multiplierOf_range c) as (_ & Hle & Hge).
      apply Qle_antisym; [apply Hle|apply Hge]; set_solver. }
    unfold applyCategoryAdjustments, multiplierOf in *.
    destruct (categoryMultipliers !! c) as [m|]; [|rewrite Hkey];
      f_equal; rewrite <- (Math_round_Z n) at 2; apply Math_round_comp;
      [rewrite Hm|]; ring.
Qed.

(** X10. Within one category the adjustment keeps the order of the scores. *)
Theorem applyCategoryAdjustments_monotone score score' p p' c a a' :
  (score <= score')%Q ->
  applyCategoryAdjustments score p c = Some a ->
  applyCategoryAdjustments score' p' c = Some a' ->
  a <= a'.
Proof.
  intros Hs ->%applyCategoryAdjustments_Some ->%applyCategoryAdjustments_Some.
  apply Math_round_mono.
  destruct (multiplierOf_range c) as ([Hlo _] & _).
  apply Qmult_le_compat_r; [exact Hs|lra].
Qed.

(** X11. An adjusted score of a score in [0, 200] lies in [0, 220]; it is
    not below the score except for personal-lifestyle and not above it
    except for code-development and education-learning. *)
Theorem applyCategoryAdjustments_bounds (n : Z) p c a :
  0 <= n <= 200 ->
  applyCategoryAdjustments (inject_Z n) p c = Some a ->
  0 <= a <= 220 /\
  (c <> "personal-lifestyle"%string -> n <= a) /\
  (c <> "code-development"%string -> c <> "education-learning"%string ->
   a <= n).
Proof.
  intros [Hn0 Hn200] ->%applyCategoryAdjustments_Some.
  destruct (multiplierOf_range c) as ([Hlo Hhi] & Hle & Hge).
  rewrite Zle_Qle in Hn0, Hn200.
  change (inject_Z 0) with 0%Q in Hn0. change (inject_Z 200) with 200%Q in Hn200.
  set (m := multiplierOf c) in *. set (q := inject_Z n) in *.
  assert (H1 : (0 <= q * (m - 0.95))%Q) by (apply Qmult_le_0_compat; lra).
  assert (H2 : (0 <= q * (1.1 - m))%Q) by (apply Qmult_le_0_compat; lra).
  assert (H3 : (0 <= (200 - q) * m)%Q) by (apply Qmult_le_0_compat; lra).
  split; [split|split].
  - apply Math_round_ge. change (inject_Z 0) with 0%Q. lra.
  - apply Math_round_le. change (inject_Z 220) with 220%Q. lra.
  - intros Hc. apply Math_round_ge. fold q.
    assert (0 <= q * (m - 1))%Q by (apply Qmult_le_0_compat; [lra|]; specialize (Hge Hc); lra).
    lra.
  - intros Hc1 Hc2. apply Math_round_le. fold q.
    assert (0 <= q * (1 - m))%Q by (apply Qmult_le_0_compat; [lra|]; specialize (Hle Hc1 Hc2); lra).
    lra.
Qed.
End CategoryFacts.

(** ** Badges, again *)

Section BadgeMore.
Import BadgeEligibilityEngine.

Lemma eligibleEntry_true stats (ids : list string) entry :
  eligibleEntry stats (list_to_set ids) entry = true <->
  (entry.1 ∉ ids) /\ check entry.2 stats = true.
Proof.
  unfold eligibleEntry.
  rewrite andb_true_iff, negb_true_iff, bool_decide_eq_false, elem_of_list_to_set.
  done.
Qed.

Lemma elem_of_granted now stats held id :
  id ∈ map badgeId (checkEligibility now stats held) <->
  exists c, (id, c) ∈ badgeCriteria /\ (id ∉ heldIds held) /\ check c stats = true.
Proof.
  rewrite checkEligibility_filter, <- list_fmap_compose. split.
  - intros [[id' c] [-> Hin]]%list_elem_of_fmap. simpl.
    apply list_elem_of_In, filter_In in Hin as [Hin Hel].
    apply eligibleEntry_true in Hel as [Hheld Hchk].
    exists c. split; [by apply list_elem_of_In|done].
  - intros (c & Hin & Hheld & Hchk).
    apply list_elem_of_fmap. exists (id, c). split; [done|].
    apply list_elem_of_In, filter_In. split; [by apply list_elem_of_In|].
    by apply eligibleEntry_true.
Qed.

Lemma NoDup_fst_filter {A B} (f : A * B -> bool) (l : list (A * B)) :
  NoDup (map fst l) -> NoDup (map fst (List.filter f l)).
Proof.
  induction l as [|x l IH]; simpl; [done|].
  intros [Hx Hl]%NoDup_cons. destruct (f x); simpl; [|by apply IH].
  apply NoDup_cons. split; [|by apply IH].
  intros [y [Hy Hin]]%list_elem_of_fmap. apply Hx.
  apply list_elem_of_fmap. exists y. split; [done|].
  apply list_elem_of_In. apply list_elem_of_In, filter_In in Hin. tauto.
Qed.

Lemma badgeCriteria_NoDup : NoDup (map fst badgeCriteria).
Proof. apply (bool_decide_unpack _). by vm_compute. Qed.

(** X12. The granted badges have distinct ids, at most 15 of them, none of
    them held already, each stamped with the clock reading. *)
Theorem checkEligibility_distinct now stats held :
  NoDup (map badgeId (checkEligibility now stats held)) /\
  (length (checkEligibility now stats held) <= 15)%nat /\
  Forall (fun g => (badgeId g ∉ heldIds held) /\ earnedAt g = now)
         (checkEligibility now stats held).
Proof.
  split; [|split].
  - rewrite checkEligibility_filter, <- list_fmap_compose.
    apply (NoDup_fst_filter _ _ badgeCriteria_NoDup).
  - rewrite checkEligibility_filter, length_map.
    etransitivity; [apply filter_length_le|]. done.
  - apply Forall_forall. intros g Hg. split.
    + assert (Hid : badgeId g ∈ map badgeId (checkEligibility now stats held)).
      { apply list_elem_of_fmap. by exists g. }
      apply elem_of_granted in Hid as (c & _ & Hheld & _). exact Hheld.
    + rewrite checkEligibility_filter in Hg.
      by apply list_elem_of_fmap in Hg as [entry [-> _]].
Qed.

Lemma geb_mono (n n' m : Z) : n <= n' -> (n >=? m) = true -> (n' >=? m) = true.
Proof. rewrite !geb_true. lia. Qed.

Lemma rating_check_mono (a a' b : Q) (n n' m : Z) :
  (a <= a')%Q -> n <= n' ->
  Js.geb a b && (n >=? m) = true -> Js.geb a' b && (n' >=? m) = true.
Proof. rewrite !rating_check. intros Ha Hn [Hb Hm]. split; [lra|lia]. Qed.

Lemma check_mono s s' :
  statsLe s s' ->
  Forall (fun entry => check entry.2 s = true -> check entry.2 s' = true)
         badgeCriteria.
Proof.
  intros (Hp & Hu & Hr & Ha & Hl & Hf & Ht). unfold badgeCriteria.
  repeat (constructor;
          [simpl; first [by apply geb_mono | by apply rating_check_mono]|]).
  constructor.
Qed.

(** X13. Better statistics lose no badge: a badge granted for [s] is granted
    for every [s'] at least as good, with the same held badges. *)
Theorem checkEligibility_stats_monotone now now' s s' held id :
  statsLe s s' ->
  id ∈ map badgeId (checkEligibility now s held) ->
  id ∈ map badgeId (checkEligibility now' s' held).
Proof.
  intros Hle. rewrite !elem_of_granted.
  intros (c & Hin & Hheld & Hchk). exists c. split; [done|]. split; [done|].
  pose proof (check_mono s s' Hle) as Hall.
  rewrite Forall_forall in Hall. by apply (Hall (id, c) Hin).
Qed.

Lemma held_filter now stats ids ids' entries :
  ids ⊆ ids' ->
  map (grantOfEntry now) (List.filter (eligibleEntry stats (list_to_set ids')) entries) =
  filter (fun g => badgeId g ∉ ids')
    (map (grantOfEntry now) (List.filter (eligibleEntry stats (list_to_set ids)) entries)).
Proof.
  intros Hsub. induction entries as [|[id c] entries IH]; [done|].
  simpl.
  destruct (eligibleEntry stats (list_to_set ids') (id, c)) eqn:E';
    destruct (eligibleEntry stats (list_to_set ids) (id, c)) eqn:E; simpl.
  - apply eligibleEntry_true in E' as [Hout' _].
    rewrite filter_cons_True by done. by rewrite IH.
  - apply eligibleEntry_true in E' as [Hout' Hchk].
    apply not_true_iff_false in E. destruct E.
    apply eligibleEntry_true. split; [set_solver|done].
  - apply eligibleEntry_true in E as [Hout Hchk].
    rewrite filter_cons_False; [done|]. simpl. intros Hout'.
    apply not_true_iff_false in E'. destruct E'.
    by apply eligibleEntry_true.
  - done.
Qed.

(** X14. Holding more badges only removes grants: the result for the larger
    set of held badges is the result for the smaller one without the badges
    held, in the same order. *)
Theorem checkEligibility_more_held now stats held held' :
  heldIds held ⊆ heldIds held' ->
  checkEligibility now stats held' =
  filter (fun g => badgeId g ∉ heldIds held') (checkEligibility now stats held).
Proof.
  intros Hsub. rewrite !checkEligibility_filter. by apply held_filter.
Qed.

Lemma tier_checks stats :
  Forall (fun tier =>
            forall c, (tier.1, c) ∈ badgeCriteria -> check c stats = true ->
            exists c', (tier.2, c') ∈ badgeCriteria /\ check c' stats = true)
         tierBelow.
Proof.
  unfold tierBelow.
  repeat (apply Forall_cons; split;
    [ intros c Hin Hchk; simpl in Hin;
      unfold badgeCriteria in Hin;
      repeat (apply elem_of_cons in Hin as [Heq|Hin]; [simplify_eq|]);
      try (by apply elem_of_nil in Hin);
      simpl in Hchk;
      (eexists; split; [unfold badgeCriteria; simpl;
         repeat first [apply list_elem_of_here | apply list_elem_of_further]|]);
      simpl;
      first [ apply geb_true; apply geb_true in Hchk; lia
            | apply rating_check; apply rating_check in Hchk;
              destruct Hchk; split; [lra|lia] ]
    |]).
  apply Forall_nil_2.
Qed.

(** X15. The tiers of a family are nested: when a badge of a higher tier is
    granted, the next lower tier is granted as well or held already. *)
Theorem checkEligibility_tiers now stats held hi lo :
  (hi, lo) ∈ tierBelow ->
  hi ∈ map badgeId (checkEligibility now stats held) ->
  lo ∈ map badgeId (checkEligibility now stats held) \/ lo ∈ heldIds held.
Proof.
  intros Htier. rewrite !elem_of_granted. intros (c & Hin & _ & Hchk).
  pose proof (tier_checks stats) as Hall. rewrite Forall_forall in Hall.
  destruct (Hall _ Htier c Hin Hchk) as (c' & Hin' & Hchk').
  destruct (decide (lo ∈ heldIds held)) as [|Hfree]; [by right|left].
  by exists c'.
Qed.

Lemma geb_false (n m : Z) : (n >=? m) = false <-> n < m.
Proof. rewrite <- not_true_iff_false, geb_true. lia. Qed.

Lemma rating_check_false (a b : Q) (n m : Z) :
  Js.geb a b && (n >=? m) = false <-> ~ ((b <= a)%Q /\ m <= n).
Proof. by rewrite <- not_true_iff_false, rating_check. Qed.

Lemma below_checks stats :
  belowEveryThreshold stats ->
  Forall (fun entry => check entry.2 stats = false) badgeCriteria.
Proof.
  intros (Hp & Hu & Hr & Hl & Hf & Ht). unfold badgeCriteria.
  repeat (apply Forall_cons; split;
    [ simpl; first [ apply geb_false; lia
                   | apply rating_check_false; intros [Ha Hn]; apply Hr;
                     split; [lra|lia] ] |]).
  apply Forall_nil_2.
Qed.

(** X16. A user without badges is granted nothing exactly when the
    statistics are below the lowest threshold of every family. *)
Theorem checkEligibility_nothing now stats :
  checkEligibility now stats [] = [] <-> belowEveryThreshold stats.
Proof.
  split.
  - intros Hnil.
    assert (Hnone : forall id c, (id, c) ∈ badgeCriteria ->
                                 check c stats = false).
    { intros id c Hin. apply not_true_iff_false. intros Hchk.
      assert (Hid : id ∈ map badgeId (checkEligibility now stats [])).
      { apply elem_of_granted. exists c. split; [done|]. split; [|done].
        apply not_elem_of_nil. }
      rewrite Hnil in Hid. by apply elem_of_nil in Hid. }
    assert (Hlow : forall id ty chk,
              (id, {| type := ty; check := chk |}) ∈ badgeCriteria ->
              chk stats = false).
    { intros id ty chk Hin. exact (Hnone _ _ Hin). }
    unfold belowEveryThreshold.
    repeat match goal with
    | |- _ /\ _ => split
    end;
    first [ apply geb_false | apply rating_check_false ];
    match goal with
    | |- ?lhs = false =>
        match eval pattern stats in lhs with
        | ?chk _ => eapply (fun id ty => Hlow id ty chk)
        end
    end.
    all: unfold badgeCriteria.
    all: repeat first [apply list_elem_of_here | apply list_elem_of_further].
  - intros Hbelow. rewrite checkEligibility_filter, filter_none; [done|].
    intros entry Hin. unfold eligibleEntry.
    pose proof (below_checks stats Hbelow) as Hall.
    rewrite Forall_forall in Hall. rewrite (Hall entry Hin).
    apply andb_false_r.
Qed.
End BadgeMore.

(** ** Longest streak, again *)

Section StreakMore.
Import Js BadgeEligibilityEngine.

Lemma streakStep_inv prev cur longest current :
  1 <= current <= longest ->
  let '(longest', current') := streakStep prev cur (longest, current) in
  1 <= current' <= longest' /\ longest <= longest' /\
  current' <= current + 1 /\ longest' <= Z.max longest (current + 1).
Proof.
  intros Hinv. unfold streakStep.
  destruct (dayDiff prev cur) as [d|]; [|lia].
  destruct (Js.eqb d 1); [lia|].
  destruct (Js.gtb d 1); lia.
Qed.

Lemma streakLoop_bounds rest : forall prev longest current,
  1 <= current <= longest ->
  longest <= streakLoop prev rest (longest, current)
          <= Z.max longest (current + Z.of_nat (length rest)).
Proof.
  induction rest as [|cur rest IH]; intros prev longest current Hinv.
  - simpl. lia.
  - cbn [streakLoop length].
    pose proof (streakStep_inv prev cur longest current Hinv) as Hstep.
    destruct (streakStep prev cur (longest, current)) as [longest' current'].
    destruct Hstep as (Hinv' & Hl & Hc & Hm).
    specialize (IH cur longest' current' Hinv'). lia.
Qed.

Lemma calculateLongestStreak_range dates :
  dates <> [] ->
  1 <= calculateLongestStreak dates <= Z.of_nat (length dates).
Proof.
  intros Hdates. unfold calculateLongestStreak.
  pose proof (length_Array_sort defaultCompare dates) as Hlen.
  fold (sortedDates dates) in Hlen.
  destruct dates as [|d0 dates]; [done|].
  destruct (sortedDates (d0 :: dates)) as [|first rest]; [done|].
  pose proof (streakLoop_bounds rest first 1 1 ltac:(lia)) as Hb.
  rewrite <- Hlen. cbn [length] in *. lia.
Qed.

(** X17. The longest streak is 0 exactly for the empty list; otherwise it is
    at least 1 and at most the number of dates. *)
Theorem calculateLongestStreak_bounds dates :
  (calculateLongestStreak dates = 0 <-> dates = []) /\
  (dates <> [] ->
   1 <= calculateLongestStreak dates <= Z.of_nat (length dates)).
Proof.
  split; [|apply calculateLongestStreak_range]. split.
  - intros H0. destruct dates as [|d dates]; [done|].
    pose proof (calculateLongestStreak_range (d :: dates) ltac:(done)). lia.
  - by intros ->.
Qed.

(** The code computes the reference scan of the day numbers. *)
Lemma calculateLongestStreak_scan dates :
  Forall isCalendarDay dates ->
  calculateLongestStreak dates = Spec.longestStreak (map dayNumber dates).
Proof.
  intros Hvalid. unfold calculateLongestStreak, Spec.longestStreak.
  rewrite <- (sortedDates_dayNumber dates Hvalid).
  assert (Hs : Forall isCalendarDay (sortedDates dates)).
  { unfold sortedDates. by rewrite Array_sort_Permutation. }
  assert (Hlen : length (sortedDates dates) = length dates).
  { apply length_Array_sort. }
  destruct dates as [|d0 dates]; [done|].
  destruct (sortedDates (d0 :: dates)) as [|first rest]; [done|].
  apply Forall_cons in Hs as [Hf Hr]. simpl.
  apply streakLoop_scan; [done..|lia].
Qed.

Lemma merge_sort_Permutation_eq (l l' : list Z) :
  l ≡ₚ l' -> merge_sort Z.le l = merge_sort Z.le l'.
Proof.
  intros Hperm. apply (StronglySorted_unique Z.le).
  - apply StronglySorted_merge_sort; apply _.
  - apply StronglySorted_merge_sort; apply _.
  - by rewrite !merge_sort_Permutation.
Qed.

(** X18. For calendar days the longest streak does not depend on the order
    of the dates, and sorting them first changes nothing. *)
Theorem calculateLongestStreak_order_independent dates dates' :
  Forall isCalendarDay dates -> dates ≡ₚ dates' ->
  calculateLongestStreak dates' = calculateLongestStreak dates /\
  calculateLongestStreak (sortedDates dates) = calculateLongestStreak dates.
Proof.
  intros Hvalid Hperm.
  assert (Hsame : forall l, dates ≡ₚ l ->
            calculateLongestStreak l = calculateLongestStreak dates).
  { intros l Hl.
    rewrite (calculateLongestStreak_scan l) by (by rewrite <- Hl).
    rewrite (calculateLongestStreak_scan dates) by done.
    unfold Spec.longestStreak.
    by rewrite (merge_sort_Permutation_eq (map dayNumber l) (map dayNumber dates))
      by (by apply Permutation_map). }
  split; [by apply Hsame|].
  apply Hsame. unfold sortedDates. by rewrite Array_sort_Permutation.
Qed.

Lemma seqZ_sorted (n : nat) : forall a, StronglySorted Z.le (seqZ a (Z.of_nat n)).
Proof.
  induction n as [|n IH]; intros a.
  - rewrite seqZ_nil by lia. constructor.
  - rewrite seqZ_cons by lia. replace (Z.pred (Z.of_nat (S n))) with (Z.of_nat n) by lia.
    constructor; [apply IH|].
    apply Forall_forall. intros x Hx. apply elem_of_seqZ in Hx. lia.
Qed.

Lemma triple_eq (a a' b b' c c' : Z) :
  a = a' -> b = b' -> c = c' -> (a, b, c) = (a', b', c').
Proof. by intros -> -> ->. Qed.

Lemma scan_run (n : nat) : forall a running best,
  running <= best ->
  fold_left Spec.scanDay (seqZ (a + 1) (Z.of_nat n)) (a, running, best) =
  (a + Z.of_nat n, running + Z.of_nat n,
   if (n =? 0)%nat then best else Z.max best (running + Z.of_nat n)).
Proof.
  induction n as [|n IH]; intros a running best Hrb.
  - rewrite seqZ_nil by lia. simpl. apply triple_eq; lia.
  - rewrite seqZ_cons by lia. replace (Z.pred (Z.of_nat (S n))) with (Z.of_nat n) by lia.
    cbn [fold_left]. unfold Spec.scanDay at 2.
    replace (a + 1 - a =? 1) with true by (symmetry; apply Z.eqb_eq; lia).
    replace (Z.succ (a + 1)) with (a + 1 + 1) by lia.
    rewrite IH by lia.
    apply triple_eq; [lia..|]. destruct n; simpl; lia.
Qed.

Lemma calculateLongestStreak_run dates (first k : Z) :
  Forall isCalendarDay dates -> 0 < k ->
  map dayNumber dates ≡ₚ seqZ first k ->
  calculateLongestStreak dates = k.
Proof.
  intros Hvalid Hk Hperm.
  assert (exists n : nat, k = Z.of_nat (S n)) as [n ->]
    by (exists (Z.to_nat (k - 1)); lia).
  rewrite calculateLongestStreak_scan by done.
  unfold Spec.longestStreak.
  assert (Hsorted : merge_sort Z.le (map dayNumber dates) = seqZ first (Z.of_nat (S n))).
  { apply (StronglySorted_unique Z.le).
    - apply StronglySorted_merge_sort; apply _.
    - apply seqZ_sorted.
    - by rewrite merge_sort_Permutation. }
  rewrite Hsorted, seqZ_cons by lia.
  replace (Z.pred (Z.of_nat (S n))) with (Z.of_nat n) by lia.
  replace (Z.succ first) with (first + 1) by lia.
  rewrite scan_run by lia. simpl. destruct n; simpl; lia.
Qed.

Lemma scan_isolated (l : list Z) : forall prev,
  StronglySorted Z.le (prev :: l) ->
  (forall x y, x ∈ prev :: l -> y ∈ prev :: l -> y - x <> 1) ->
  snd (fold_left Spec.scanDay l (prev, 1, 1)) = 1.
Proof.
  induction l as [|d l IH]; intros prev Hs Hiso; [done|].
  cbn [fold_left]. unfold Spec.scanDay at 2.
  assert (Hgap : d - prev <> 1).
  { apply Hiso; [apply list_elem_of_here|].
    apply list_elem_of_further, list_elem_of_here. }
  destruct (Z.eqb_spec (d - prev) 1); [done|].
  replace (Z.max 1 (if 1 <? d - prev then 1 else 1)) with 1
    by (destruct (1 <? d - prev); lia).
  replace (if 1 <? d - prev then 1 else 1) with 1 by (by destruct (1 <? d - prev)).
  apply IH.
  - by apply StronglySorted_cons in Hs as [_ Hs].
  - intros x y Hx Hy. apply Hiso; by apply list_elem_of_further.
Qed.

Lemma calculateLongestStreak_isolated dates :
  Forall isCalendarDay dates -> dates <> [] ->
  (forall d d', d ∈ dates -> d' ∈ dates -> dayNumber d' - dayNumber d <> 1) ->
  calculateLongestStreak dates = 1.
Proof.
  intros Hvalid Hne Hiso. rewrite calculateLongestStreak_scan by done.
  unfold Spec.longestStreak.
  pose proof (merge_sort_Permutation Z.le (map dayNumber dates)) as Hperm.
  pose proof (StronglySorted_merge_sort Z.le (map dayNumber dates)) as Hs.
  destruct (merge_sort Z.le (map dayNumber dates)) as [|first rest].
  - apply Permutation_nil_l in Hperm. by destruct dates.
  - apply scan_isolated; [done|].
    intros x y Hx Hy. rewrite Hperm in Hx, Hy.
    apply list_elem_of_fmap in Hx as [d [-> Hd]].
    apply list_elem_of_fmap in Hy as [d' [-> Hd']].
    by apply Hiso.
Qed.

(** X19. Dates that are [k] consecutive calendar days, in any order, have
    longest streak [k]; dates no two of which are consecutive days have
    longest streak 1. *)
Theorem calculateLongestStreak_values dates :
  Forall isCalendarDay dates ->
  (forall first k : Z, 0 < k -> map dayNumber dates ≡ₚ seqZ first k ->
     calculateLongestStreak dates = k) /\
  (dates <> [] ->
   (forall d d', d ∈ dates -> d' ∈ dates ->
      dayNumber d' - dayNumber d <> 1) ->
   calculateLongestStreak dates = 1).
Proof.
  intros Hvalid. split.
  - intros first k. by apply calculateLongestStreak_run.
  - by apply calculateLongestStreak_isolated.
Qed.
End StreakMore.

(** ** User statistics *)

Section StatsMore.
Import Js BadgeEligibilityEngine.

Lemma longestStreak_activityDates ud :
  longestStreak (calculateUserStats ud) =
  calculateLongestStreak (activityDates ud).
Proof. reflexivity. Qed.

Lemma length_Set_add x set :
  (length set <= length (Set_add x set) <= S (length set))%nat.
Proof.
  unfold Set_add. destruct (existsb _ _); [lia|].
  rewrite length_app. simpl. lia.
Qed.

Lemma length_Set_add_fold {A} (f : A -> string) (l : list A) : forall init,
  (length (fold_left (fun set x => Set_add (f x) set) l init)
   <= length init + length l)%nat.
Proof.
  induction l as [|x l IH]; intros init; simpl; [lia|].
  etransitivity; [apply IH|].
  pose proof (length_Set_add (f x) init). lia.
Qed.

Lemma length_activityDates ud :
  (length (activityDates ud)
   <= length (prompts ud) + length (usageAnalytics ud))%nat.
Proof.
  unfold activityDates.
  etransitivity; [apply length_Set_add_fold|].
  pose proof (length_Set_add_fold (fun p => split_T_0 (createdAt p))
                (prompts ud) []) as H.
  simpl in H. lia.
Qed.

(** X20. The counters of [calculateUserStats]: [totalPrompts] is the number
    of prompts, the filtered counters lie between 0 and the size of what
    they filter, and the longest streak is at most the number of prompts
    and usage events together. *)
Theorem calculateUserStats_counts ud :
  let s := calculateUserStats ud in
  let n := Z.of_nat (length (prompts ud)) in
  totalPrompts s = n /\
  0 <= activePrompts s <= n /\
  0 <= featuredPrompts s <= n /\
  0 <= topRankedPrompts s <= n /\
  0 <= totalRatings s <= Z.of_nat (length (promptScores ud)) /\
  0 <= longestStreak s <= n + Z.of_nat (length (usageAnalytics ud)) /\
  currentBadgeCount s = Z.of_nat (length (userBadges ud)).
Proof.
  intros s n. subst s n.
  split; [reflexivity|].
  repeat match goal with
  | |- _ <= Z.of_nat (length (List.filter ?f ?l)) <= _ /\ _ =>
      split; [pose proof (filter_length_le f l); simpl; lia|]
  end.
  simpl.
  repeat match goal with
  | |- _ <= Z.of_nat (length (List.filter ?f ?l)) <= _ /\ _ =>
      split; [pose proof (filter_length_le f l); lia|]
  end.
  split; [|reflexivity].
  fold (activityDates ud).
  pose proof (length_activityDates ud) as Hlen.
  destruct (activityDates ud) as [|d dates] eqn:E.
  - simpl. lia.
  - pose proof (calculateLongestStreak_range (d :: dates) ltac:(done)).
    lia.
Qed.

(** X21. A rating of a prompt the user does not own changes none of the
    statistics. *)
Theorem calculateUserStats_foreign_rating ud before after s :
  promptScores ud = before ++ after ->
  (forall p, p ∈ prompts ud -> id p <> promptId s) ->
  calculateUserStats (withPromptScores ud (before ++ s :: after)) =
  calculateUserStats ud.
Proof.
  intros Hscores Hforeign.
  assert (Hs : ownRating ud s = false).
  { apply not_true_iff_false. intros [p [Hp Heq]]%existsb_exists.
    apply String.eqb_eq in Heq. apply (Hforeign p); [|done].
    by apply list_elem_of_In. }
  unfold calculateUserStats. simpl. rewrite Hscores.
  rewrite !List.filter_app. simpl.
  fold (ownRating ud s). rewrite Hs. reflexivity.
Qed.

Lemma sumZ_acc {A} (f : A -> Z) (l : list A) : forall acc,
  fold_left (fun sum x => sum + f x) l acc = acc + sumZ f l.
Proof.
  unfold sumZ. induction l as [|x l IH]; intros acc; simpl; [lia|].
  rewrite (IH (acc + f x)), (IH (0 + f x)). lia.
Qed.

Lemma sumZ_cons {A} (f : A -> Z) x l : sumZ f (x :: l) = f x + sumZ f l.
Proof. unfold sumZ at 1. simpl. apply sumZ_acc. Qed.

Lemma sumZ_bounds {A} (f : A -> Z) (lo hi : Z) (l : list A) :
  Forall (fun x => lo <= f x <= hi) l ->
  lo * Z.of_nat (length l) <= sumZ f l <= hi * Z.of_nat (length l).
Proof.
  induction 1 as [|x l Hx _ IH]; [unfold sumZ; simpl; lia|].
  rewrite sumZ_cons. cbn [length]. lia.
Qed.

(** X22. With ratings between 1 and 5 the average rating of the statistics
    is 0 without ratings received and between 1 and 5 otherwise. *)
Theorem calculateUserStats_averageRating ud :
  Forall (fun s => 1 <= ps_score s <= 5) (promptScores ud) ->
  let st := calculateUserStats ud in
  (totalRatings st = 0 -> (averageRating st == 0)%Q) /\
  (0 < totalRatings st -> (1 <= averageRating st <= 5)%Q).
Proof.
  intros Hscores st. subst st. unfold calculateUserStats. simpl.
  set (received := List.filter _ (promptScores ud)).
  assert (Hrec : Forall (fun s => 1 <= ps_score s <= 5) received).
  { apply Forall_forall. intros s Hs. rewrite Forall_forall in Hscores.
    apply Hscores. apply list_elem_of_In. apply list_elem_of_In, filter_In in Hs.
    tauto. }
  pose proof (sumZ_bounds ps_score 1 5 received Hrec) as Hsum.
  set (n := Z.of_nat (length received)) in *.
  set (S := sumZ ps_score received) in *.
  split.
  - intros Hn. rewrite Hn. reflexivity.
  - intros Hn. destruct (Z.gtb_spec n 0) as [_|]; [|lia].
    assert (Hnq : (0 < inject_Z n)%Q).
    { change 0%Q with (inject_Z 0). by rewrite <- Zlt_Qlt. }
    assert (Havg : (1 <= inject_Z S / inject_Z n <= 5)%Q).
    { split.
      - apply Qle_shift_div_l; [done|]. rewrite Qmult_1_l, <- Zle_Qle. lia.
      - apply Qle_shift_div_r; [done|].
        change 5%Q with (inject_Z 5). rewrite <- inject_Z_mult, <- Zle_Qle. lia. }
    assert (Hr : 100 <= Math_round (inject_Z S / inject_Z n * 100) <= 500).
    { split; [apply Math_round_ge|apply Math_round_le].
      - change (inject_Z 100) with 100%Q. lra.
      - change (inject_Z 500) with 500%Q. lra. }
    rewrite !Zle_Qle in Hr.
    change (inject_Z 100) with 100%Q in Hr. change (inject_Z 500) with 500%Q in Hr.
    split.
    + apply Qle_shift_div_l; [reflexivity|]. lra.
    + apply Qle_shift_div_r; [reflexivity|]. lra.
Qed.

Lemma Set_add_member x set : x ∈ set -> Set_add x set = set.
Proof.
  intros Hin. unfold Set_add.
  assert (H : existsb (String.eqb x) set = true).
  { apply existsb_exists. exists x. split; [by apply list_elem_of_In|].
    apply String.eqb_refl. }
  by rewrite H.
Qed.

(** X23. A further usage event on a day that is an activity day already
    changes none of the statistics. *)
Theorem calculateUserStats_same_day_event ud a :
  split_T_0 (ue_createdAt a) ∈ activityDates ud ->
  calculateUserStats (withUsageAnalytics ud (usageAnalytics ud ++ [a])) =
  calculateUserStats ud.
Proof.
  intros Hin. unfold calculateUserStats. simpl.
  rewrite fold_left_app. simpl.
  fold (activityDates ud). by rewrite (Set_add_member _ _ Hin).
Qed.
End StatsMore.

(** ** From the raw data of a user to the badges *)

Section Composition.
Import Js BadgeEligibilityEngine.
Variable log10 : Q -> Q.

Lemma NoDup_fst_unique {A B} (l : list (A * B)) x y1 y2 :
  NoDup (map fst l) -> (x, y1) ∈ l -> (x, y2) ∈ l -> y1 = y2.
Proof.
  induction l as [|[a b] l IH]; simpl; intros Hnd H1 H2.
  - by apply elem_of_nil in H1.
  - apply NoDup_cons in Hnd as [Ha Hnd].
    apply elem_of_cons in H1 as [H1|H1];
      apply elem_of_cons in H2 as [H2|H2]; simplify_eq; try done.
    + destruct Ha. apply list_elem_of_fmap. by exists (a, y2).
    + destruct Ha. apply list_elem_of_fmap. by exists (a, y1).
    + by apply IH.
Qed.

Lemma granted_iff now stats held id c :
  (id, c) ∈ badgeCriteria ->
  id ∈ map badgeId (checkEligibility now stats held) <->
  (id ∉ heldIds held) /\ check c stats = true.
Proof.
  intros Hin. rewrite elem_of_granted. split.
  - intros (c' & Hin' & Hheld & Hchk).
    by rewrite (NoDup_fst_unique _ _ _ _ badgeCriteria_NoDup Hin Hin').
  - intros [Hheld Hchk]. by exists c.
Qed.

Lemma topRanked_none ud :
  Forall (fun p => score p < 150) (prompts ud) ->
  topRankedPrompts (calculateUserStats ud) = 0.
Proof.
  intros Hlow. unfold calculateUserStats. simpl.
  rewrite filter_none; [done|].
  intros p Hp. rewrite Forall_forall in Hlow. specialize (Hlow p Hp).
  apply geb_false. lia.
Qed.

Lemma first_steps_iff_prompts now ud :
  "first-steps"%string ∈
    map badgeId (checkEligibility now (calculateUserStats ud) []) <->
  prompts ud <> [].
Proof.
  rewrite (granted_iff now _ [] "first-steps"
             {| type := "submission";
                check := fun stats => totalPrompts stats >=? 1 |})
    by (unfold badgeCriteria; apply list_elem_of_here).
  simpl. rewrite geb_true. split.
  - intros [_ Hn] Hnil. rewrite Hnil in Hn. simpl in Hn. lia.
  - intros Hne. split; [apply not_elem_of_nil|].
    destruct (prompts ud); [done|]. cbn [length]. lia.
Qed.

Lemma community_favorite_unreachable now ud held :
  Forall (fun p => exists signal,
            (PromptScoringEngine.averageRating signal <= 5)%Q /\
            score p = PromptScoringEngine.calculateScore log10 signal)
         (prompts ud) ->
  "community-favorite"%string ∉
    map badgeId (checkEligibility now (calculateUserStats ud) held).
Proof.
  intros Hscored.
  rewrite (granted_iff now _ held "community-favorite"
             {| type := "special";
                check := fun stats => topRankedPrompts stats >=? 3 |})
    by (unfold badgeCriteria;
        repeat first [apply list_elem_of_here | apply list_elem_of_further]).
  intros [_ Hchk].
  change ((topRankedPrompts (calculateUserStats ud) >=? 3) = true) in Hchk.
  apply geb_true in Hchk.
  rewrite topRanked_none in Hchk; [lia|].
  eapply Forall_impl; [exact Hscored|].
  intros p (signal & Havg & ->).
  pose proof (weightedTotal_le log10 signal Havg).
  unfold PromptScoringEngine.calculateScore. lia.
Qed.
(** X24. From the raw data to the badges: a user without badges is granted
    first-steps exactly when there is a prompt; and when every prompt score
    was computed by [calculateScore] from an average rating of at most 5,
    community-favorite is never granted. *)
Theorem badges_from_user_data now ud held :
  ("first-steps"%string ∈
     map badgeId (checkEligibility now (calculateUserStats ud) []) <->
   prompts ud <> []) /\
  (Forall (fun p => exists signal,
             (PromptScoringEngine.averageRating signal <= 5)%Q /\
             score p = PromptScoringEngine.calculateScore log10 signal)
          (prompts ud) ->
   "community-favorite"%string ∉
     map badgeId (checkEligibility now (calculateUserStats ud) held)).
Proof.
  split; [apply first_steps_iff_prompts|apply community_favorite_unreachable].
Qed.

End Composition.

(** ** Leaderboards, again *)

Section BoardFacts.
Import LeaderboardEngine.

#[local] Instance globalOrder_trans : Transitive globalOrder.
Proof.
  unfold globalOrder. intros a b c Hab Hbc.
  destruct Hab as [?|[? [?|[? Hr1]]]], Hbc as [?|[? [?|[? Hr2]]]];
    try (left; lia); try (right; split; [lia|left; lia]).
  right. split; [lia|]. right. split; [lia|]. lra.
Qed.

#[local] Instance categoryOrder_trans : Transitive categoryOrder.
Proof.
  unfold categoryOrder. intros a b c Hab Hbc.
  destruct Hab as [?|[? [?|[? Hr1]]]], Hbc as [?|[? [?|[? Hr2]]]];
    try (left; lia); try (right; split; [lia|left; lia]).
  right. split; [lia|]. right. split; [lia|]. lra.
Qed.

#[local] Instance trendingOrder_trans now days : Transitive (trendingOrder now days).
Proof. unfold trendingOrder. intros a b c. lia. Qed.

Lemma gtb_inject_Z (n : Z) : Js.gtb (inject_Z n) 0 = (0 <? n).
Proof.
  destruct (Z.ltb_spec 0 n) as [H|H].
  - apply gtb_gt. change 0%Q with (inject_Z 0). by rewrite <- Zlt_Qlt.
  - apply not_true_iff_false. rewrite gtb_gt.
    change 0%Q with (inject_Z 0). rewrite <- Zlt_Qlt. lia.
Qed.

Lemma gtb_false_le x y : Js.gtb x y = false <-> (x <= y)%Q.
Proof.
  rewrite <- not_true_iff_false, gtb_gt. split; [apply Qnot_lt_le|apply Qle_not_lt].
Qed.

Lemma compareGlobal_le a b :
  Js.gtb (compareGlobal a b) 0 = false -> globalOrder a b.
Proof.
  unfold compareGlobal, globalOrder.
  destruct (Z.eqb_spec (totalScore b) (totalScore a)) as [Hs|Hs]; simpl.
  - destruct (Z.eqb_spec (totalPrompts b) (totalPrompts a)) as [Hp|Hp]; simpl.
    + rewrite gtb_false_le. intros Hr. right. split; [done|]. right.
      split; [done|]. lra.
    + rewrite gtb_inject_Z. intros H%Z.ltb_ge. right. split; [done|]. left. lia.
  - rewrite gtb_inject_Z. intros H%Z.ltb_ge. left. lia.
Qed.

Lemma compareGlobal_gt a b :
  Js.gtb (compareGlobal a b) 0 = true -> globalOrder b a.
Proof.
  unfold compareGlobal, globalOrder.
  destruct (Z.eqb_spec (totalScore b) (totalScore a)) as [Hs|Hs]; simpl.
  - destruct (Z.eqb_spec (totalPrompts b) (totalPrompts a)) as [Hp|Hp]; simpl.
    + rewrite gtb_gt. intros Hr. right. split; [done|]. right.
      split; [done|]. lra.
    + rewrite gtb_inject_Z. intros H%Z.ltb_lt. right. split; [done|]. left. lia.
  - rewrite gtb_inject_Z. intros H%Z.ltb_lt. left. lia.
Qed.

Lemma compareCategory_le a b :
  Js.gtb (compareCategory a b) 0 = false -> categoryOrder a b.
Proof.
  unfold compareCategory, categoryOrder.
  destruct (Z.eqb_spec (categoryScore b) (categoryScore a)) as [Hs|Hs]; simpl.
  - destruct (Z.eqb_spec (categoryUsage b) (categoryUsage a)) as [Hp|Hp]; simpl.
    + rewrite gtb_false_le. intros Hr. right. split; [done|]. right.
      split; [done|]. lra.
    + rewrite gtb_inject_Z. intros H%Z.ltb_ge. right. split; [done|]. left. lia.
  - rewrite gtb_inject_Z. intros H%Z.ltb_ge. left. lia.
Qed.

Lemma compareCategory_gt a b :
  Js.gtb (compareCategory a b) 0 = true -> categoryOrder b a.
Proof.
  unfold compareCategory, categoryOrder.
  destruct (Z.eqb_spec (categoryScore b) (categoryScore a)) as [Hs|Hs]; simpl.
  - destruct (Z.eqb_spec (categoryUsage b) (categoryUsage a)) as [Hp|Hp]; simpl.
    + rewrite gtb_gt. intros Hr. right. split; [done|]. right.
      split; [done|]. lra.
    + rewrite gtb_inject_Z. intros H%Z.ltb_lt. right. split; [done|]. left. lia.
  - rewrite gtb_inject_Z. intros H%Z.ltb_lt. left. lia.
Qed.

(** A sort by a comparator that decides a transitive order. *)
Lemma Array_sort_total {A} (cmp : A -> A -> Q) (R : relation A)
    `{!Transitive R} (l : list A) :
  (forall x y, Js.gtb (cmp x y) 0 = false -> R x y) ->
  (forall x y, Js.gtb (cmp x y) 0 = true -> R y x) ->
  StronglySorted R (Js.Array_sort cmp l).
Proof.
  intros Hle Hgt.
  apply (Array_sort_sorted cmp R (fun _ => True)); [by auto|by auto|].
  by apply Forall_forall.
Qed.

Lemma Array_slice0_prefix {A} (l : list A) (limit : Z) :
  exists rest, l = Js.Array_slice0 l limit ++ rest /\
    (0 <= limit -> Z.of_nat (length l) <= limit -> rest = []) /\
    (0 <= limit ->
     length (Js.Array_slice0 l limit) = Nat.min (Z.to_nat limit) (length l)).
Proof.
  unfold Js.Array_slice0.
  set (k := Z.to_nat _). exists (skipn k l).
  split; [by rewrite firstn_skipn|]. split.
  - intros H0 Hlen. apply skipn_all2. subst k.
    destruct (Z.ltb_spec limit 0); lia.
  - intros H0. rewrite length_firstn. subst k.
    destruct (Z.ltb_spec limit 0); lia.
Qed.

Lemma map_imap_id {A B} (g : B -> A) (f : nat -> A -> B) (l : list A) :
  (forall i x, g (f i x) = x) -> map g (imap f l) = l.
Proof.
  intros Hg. change (map g (imap f l)) with (g <$> imap f l).
  rewrite fmap_imap.
  rewrite (imap_ext _ (fun _ x => x)) by (intros; simpl; apply Hg).
  rewrite (imap_const id). apply list_fmap_id.
Qed.

(** What the three boards share: the listed elements are a prefix of the
    sorted candidates. *)
Lemma board_prefix {A} (cmp : A -> A -> Q) (R : relation A) `{!Transitive R}
    (candidates : list A) (limit : Z) :
  (forall x y, Js.gtb (cmp x y) 0 = false -> R x y) ->
  (forall x y, Js.gtb (cmp x y) 0 = true -> R y x) ->
  let listed := Js.Array_slice0 (Js.Array_sort cmp candidates) limit in
  StronglySorted R listed /\
  (forall x, x ∈ listed -> x ∈ candidates) /\
  exists rest,
    listed ++ rest ≡ₚ candidates /\
    (forall a b, a ∈ listed -> b ∈ rest -> R a b) /\
    (0 <= limit -> Z.of_nat (length candidates) <= limit -> rest = []) /\
    (0 <= limit ->
     length listed = Nat.min (Z.to_nat limit) (length candidates)).
Proof.
  intros Hle Hgt listed.
  pose proof (Array_sort_total cmp R candidates Hle Hgt) as Hsorted.
  pose proof (Array_sort_Permutation cmp candidates) as Hperm.
  destruct (Array_slice0_prefix (Js.Array_sort cmp candidates) limit)
    as (rest & Hsplit & Hall & Hlen).
  fold listed in Hsplit, Hlen.
  rewrite Hsplit in Hsorted, Hperm.
  apply StronglySorted_app in Hsorted as (Hcross & Hlisted & _).
  split; [done|]. split.
  - intros x Hx. rewrite <- Hperm. apply elem_of_app. by left.
  - exists rest. split; [done|]. split; [done|].
    rewrite length_Array_sort in Hall, Hlen. by split.
Qed.

Lemma globalOrder_score a b : globalOrder a b -> totalScore b <= totalScore a.
Proof. unfold globalOrder. lia. Qed.

Lemma categoryOrder_score a b :
  categoryOrder a b -> categoryScore b <= categoryScore a.
Proof. unfold categoryOrder. lia. Qed.

Lemma elem_of_filter_bool {A} (f : A -> bool) (l : list A) x :
  x ∈ List.filter f l <-> x ∈ l /\ f x = true.
Proof. rewrite !list_elem_of_In. apply filter_In. Qed.

Lemma global_users users limit :
  map g_user (generateGlobalLeaderboard users limit) =
  Js.Array_slice0 (Js.Array_sort compareGlobal (List.filter qualifies users))
                  limit.
Proof. unfold generateGlobalLeaderboard. by apply map_imap_id. Qed.

(** X25. The global leaderboard lists the best qualifying users: the
    listed users are active with a positive total score and sorted by total
    score, then number of prompts, then average rating; the users left out
    are the qualifying ones no better than any listed one, nobody is left
    out when the limit allows it, and with a limit that is not negative the
    length is the smaller of the limit and the number of qualifying
    users. *)
Theorem generateGlobalLeaderboard_best users limit :
  let listed := map g_user (generateGlobalLeaderboard users limit) in
  let qualifying := List.filter qualifies users in
  (forall u, u ∈ listed ->
     u ∈ users /\ isActive u = true /\ 0 < totalScore u) /\
  StronglySorted globalOrder listed /\
  StronglySorted (fun s s' => s' <= s) (map totalScore listed) /\
  exists rest,
    listed ++ rest ≡ₚ qualifying /\
    (forall a b, a ∈ listed -> b ∈ rest -> globalOrder a b) /\
    (0 <= limit -> Z.of_nat (length qualifying) <= limit -> rest = []) /\
    (0 <= limit ->
     length (generateGlobalLeaderboard users limit) =
     Nat.min (Z.to_nat limit) (length qualifying)).
Proof.
  intros listed qualifying. subst listed.
  rewrite <- (length_map g_user), global_users.
  destruct (board_prefix compareGlobal globalOrder qualifying limit
              compareGlobal_le compareGlobal_gt)
    as (Hsorted & Hsub & rest & Hrest).
  split; [|split; [|split]].
  - intros u Hu. apply Hsub, elem_of_filter_bool in Hu as [Hin Hq].
    apply andb_true_iff in Hq as [Hact Hpos]. apply Z.gtb_lt in Hpos.
    done.
  - done.
  - by apply (StronglySorted_fmap totalScore globalOrder), Hsorted;
      apply globalOrder_score.
  - by exists rest.
Qed.

Lemma category_users users categoryId' limit :
  map c_entry (generateCategoryLeaderboard users categoryId' limit) =
  Js.Array_slice0
    (Js.Array_sort compareCategory (categoryCandidates users categoryId'))
    limit.
Proof. unfold generateCategoryLeaderboard. by apply map_imap_id. Qed.

(** X26. The category leaderboard lists active users of the input with at
    least one active prompt of the category, each with its category
    statistics, best first by category score, then usage, then average
    rating; with a limit that is not negative its length is the smaller of
    the limit and the number of candidates. *)
Theorem generateCategoryLeaderboard_sorted users categoryId' limit :
  let board := generateCategoryLeaderboard users categoryId' limit in
  let listed := map c_entry board in
  (forall e, e ∈ listed ->
     c_user e ∈ users /\ isActive (c_user e) = true /\
     e = categoryStats categoryId' (c_user e) /\ 0 < categoryPrompts e) /\
  StronglySorted categoryOrder listed /\
  StronglySorted (fun s s' => s' <= s) (map categoryScore listed) /\
  (0 <= limit ->
   length board =
   Nat.min (Z.to_nat limit) (length (categoryCandidates users categoryId'))).
Proof.
  intros board listed. subst listed board.
  rewrite <- (length_map c_entry), category_users.
  destruct (board_prefix compareCategory categoryOrder
              (categoryCandidates users categoryId') limit
              compareCategory_le compareCategory_gt)
    as (Hsorted & Hsub & rest & _ & _ & _ & Hlen).
  split; [|split; [|split]].
  - intros e He. apply Hsub, elem_of_filter_bool in He as [Hin Hpos].
    apply Z.gtb_lt in Hpos.
    apply list_elem_of_fmap in Hin as [user [-> Huser]].
    apply elem_of_filter_bool in Huser as [Huser Hact]. done.
  - done.
  - by apply (StronglySorted_fmap categoryScore categoryOrder), Hsorted;
      apply categoryOrder_score.
  - done.
Qed.

Lemma compareTrending_le now days a b :
  Js.gtb (compareTrending now days a b) 0 = false -> trendingOrder now days a b.
Proof.
  unfold compareTrending, trendingOrder. rewrite gtb_inject_Z.
  intros H%Z.ltb_ge. lia.
Qed.

Lemma compareTrending_gt now days a b :
  Js.gtb (compareTrending now days a b) 0 = true -> trendingOrder now days b a.
Proof.
  unfold compareTrending, trendingOrder. rewrite gtb_inject_Z.
  intros H%Z.ltb_lt. lia.
Qed.

Lemma trending_prompts now prompts days limit :
  map t_prompt (generateTrendingLeaderboard now prompts days limit) =
  Js.Array_slice0
    (Js.Array_sort (compareTrending now days)
                   (List.filter (isRecent now days) prompts))
    limit.
Proof. unfold generateTrendingLeaderboard. by apply map_imap_id. Qed.

Lemma trending_scores now prompts days limit :
  map trendingScore (generateTrendingLeaderboard now prompts days limit) =
  map (fun p => calculateTrendingScore now p days)
      (map t_prompt (generateTrendingLeaderboard now prompts days limit)).
Proof.
  unfold generateTrendingLeaderboard.
  change (map trendingScore ?l) with (trendingScore <$> l).
  change (map t_prompt ?l) with (t_prompt <$> l).
  change (map ?f ?l) with (f <$> l).
  rewrite !fmap_imap. by apply imap_ext.
Qed.

(** X27. For a window of at least one day (with [days = 0] the scores of
    the code are not numbers) the trending leaderboard lists active public
    prompts of the input, each with its trending score, the highest score
    first. *)
Theorem generateTrendingLeaderboard_sorted now prompts days limit :
  0 < days ->
  let board := generateTrendingLeaderboard now prompts days limit in
  (forall p, p ∈ map t_prompt board ->
     p ∈ prompts /\ status p = "active"%string /\ isPublic p = true) /\
  Forall (fun e => trendingScore e =
                   calculateTrendingScore now (t_prompt e) days) board /\
  StronglySorted (fun s s' => s' <= s) (map trendingScore board).
Proof.
  intros _ board. subst board.
  rewrite trending_scores, trending_prompts.
  destruct (board_prefix (compareTrending now days) (trendingOrder now days)
              (List.filter (isRecent now days) prompts) limit
              (compareTrending_le now days) (compareTrending_gt now days))
    as (Hsorted & Hsub & _).
  split; [|split].
  - intros p Hp. apply Hsub, elem_of_filter_bool in Hp as [Hin Hq].
    unfold isRecent in Hq.
    apply andb_true_iff in Hq as [[Hact Hpub]%andb_true_iff _].
    apply String.eqb_eq in Hact. done.
  - unfold generateTrendingLeaderboard. apply Forall_forall.
    intros e (i & p & -> & _)%elem_of_lookup_imap_1. done.
  - by apply (StronglySorted_fmap _ (trendingOrder now days)), Hsorted.
Qed.

End BoardFacts.

(** ** Category statistics *)

Section CategoryMore.
Import LeaderboardEngine.

(** X28. The category statistics of a user ignore the prompts of other
    categories and the prompts that are not active; a user without
    [prompts] has no prompt in any category. *)
Theorem categoryStats_other_prompts categoryId' user before p after :
  inCategory categoryId' p = false ->
  let listed := categoryStats categoryId'
                  (withPrompts user (Some (before ++ p :: after))) in
  let others := categoryStats categoryId'
                  (withPrompts user (Some (before ++ after))) in
  categoryPrompts listed = categoryPrompts others /\
  categoryScore listed = categoryScore others /\
  categoryUsage listed = categoryUsage others /\
  categoryAverageRating listed = categoryAverageRating others /\
  categoryPrompts (categoryStats categoryId' (withPrompts user None)) = 0.
Proof.
  intros Hp listed others. subst listed others.
  unfold categoryStats. simpl.
  rewrite !List.filter_app. simpl.
  fold (inCategory categoryId' p). rewrite Hp. done.
Qed.

Lemma sumQ_acc {A} (f : A -> Q) (l : list A) : forall acc,
  (fold_left (fun sum x => sum + f x) l acc == acc + Js.sumQ f l)%Q.
Proof.
  unfold Js.sumQ. induction l as [|x l IH]; intros acc; simpl; [ring|].
  rewrite (IH (acc + f x)%Q), (IH (0 + f x)%Q). ring.
Qed.

Lemma sumQ_cons {A} (f : A -> Q) x l :
  (Js.sumQ f (x :: l) == f x + Js.sumQ f l)%Q.
Proof. unfold Js.sumQ at 1. simpl. rewrite sumQ_acc. ring. Qed.

Lemma weightedSum_bounds (l : list Prompt) :
  Forall (fun p => 0 <= ratingCount p /\ (0 <= averageRating p <= 5)%Q) l ->
  0 <= Js.sumZ ratingCount l /\
  (0 <= Js.sumQ (fun p => averageRating p * inject_Z (ratingCount p)) l
     <= 5 * inject_Z (Js.sumZ ratingCount l))%Q.
Proof.
  induction 1 as [|p l [Hn [Hlo Hhi]] _ (IHn & IHlo & IHhi)].
  - unfold Js.sumZ, Js.sumQ. simpl. change (inject_Z 0) with 0%Q.
    split; [lia|]. split; lra.
  - rewrite sumZ_cons, sumQ_cons, inject_Z_plus.
    pose proof Hn as HnZ.
    rewrite Zle_Qle in Hn. change (inject_Z 0) with 0%Q in Hn.
    assert (0 <= averageRating p * inject_Z (ratingCount p))%Q
      by (by apply Qmult_le_0_compat).
    assert (0 <= (5 - averageRating p) * inject_Z (ratingCount p))%Q
      by (apply Qmult_le_0_compat; lra).
    split; [lia|].
    split; lra.
Qed.

(** X29. With rating counts that are not negative and averages between 0
    and 5 the weighted category average lies between 0 and 5, and is 0 when
    there is no rating at all. *)
Theorem calculateCategoryAverageRating_bounds prompts :
  Forall (fun p => 0 <= ratingCount p /\ (0 <= averageRating p <= 5)%Q)
         prompts ->
  (0 <= calculateCategoryAverageRating prompts <= 5)%Q /\
  (Js.sumZ ratingCount prompts = 0 ->
   calculateCategoryAverageRating prompts = 0%Q).
Proof.
  intros Hall. destruct (weightedSum_bounds prompts Hall) as (Hn & Hlo & Hhi).
  unfold calculateCategoryAverageRating.
  destruct (length prompts =? 0)%nat; [split; [split; lra|done]|].
  destruct (Z.eqb_spec (Js.sumZ ratingCount prompts) 0) as [H0|Hne];
    [split; [split; lra|done]|].
  split; [|done].
  set (n := Js.sumZ ratingCount prompts) in *.
  set (w := Js.sumQ _ prompts) in *.
  assert (Hnq : (0 < inject_Z n)%Q).
  { change 0%Q with (inject_Z 0). rewrite <- Zlt_Qlt. lia. }
  assert (Havg : (0 <= w / inject_Z n <= 5)%Q).
  { split.
    - apply Qle_shift_div_l; [done|]. lra.
    - apply Qle_shift_div_r; [done|]. lra. }
  assert (Hr : 0 <= Js.Math_round (w / inject_Z n * 100) <= 500).
  { split; [apply Math_round_ge|apply Math_round_le].
    - change (inject_Z 0) with 0%Q. lra.
    - change (inject_Z 500) with 500%Q. lra. }
  rewrite !Zle_Qle in Hr.
  change (inject_Z 0) with 0%Q in Hr. change (inject_Z 500) with 500%Q in Hr.
  split.
  - apply Qle_shift_div_l; [reflexivity|]. lra.
  - apply Qle_shift_div_r; [reflexivity|]. lra.
Qed.

End CategoryMore.

(** ** Trending score *)

Section TrendingMore.
Import LeaderboardEngine.

Lemma calculateTrendingScore_base now prompt days :
  calculateTrendingScore now prompt days =
  Js.Math_round (trendingBase prompt * ageMultiplier now prompt days).
Proof.
  unfold calculateTrendingScore, trendingBase. apply Math_round_comp. ring.
Qed.

Lemma ageMultiplier_floor now prompt days :
  (0.1 <= ageMultiplier now prompt days)%Q.
Proof. unfold ageMultiplier, Js.Math_max. apply Q.le_max_l. Qed.

Lemma age_over_days (age days : Z) :
  0 < days ->
  (inject_Z age / inject_Z Js.msPerDay / inject_Z days ==
   inject_Z age / inject_Z (days * Js.msPerDay))%Q.
Proof.
  intros Hdays. rewrite inject_Z_mult. field.
  split; intros H; change 0%Q with (inject_Z 0) in H;
    apply (proj1 (inject_Z_injective _ 0)) in H; [discriminate H|lia].
Qed.

Lemma ageMultiplier_cases now prompt days :
  0 < days ->
  (createdAt prompt <= now -> (ageMultiplier now prompt days <= 1)%Q) /\
  (createdAt prompt = now -> (ageMultiplier now prompt days == 1)%Q) /\
  (9 * (days * Js.msPerDay) <= 10 * (now - createdAt prompt) ->
   (ageMultiplier now prompt days == 0.1)%Q).
Proof.
  intros Hdays. unfold ageMultiplier, Js.Math_max.
  rewrite (age_over_days _ _ Hdays).
  set (age := now - createdAt prompt). set (d := days * Js.msPerDay).
  assert (Hd : (0 < inject_Z d)%Q).
  { change 0%Q with (inject_Z 0). rewrite <- Zlt_Qlt. unfold d, Js.msPerDay. lia. }
  split; [|split].
  - intros Hage.
    assert (0 <= inject_Z age / inject_Z d)%Q.
    { apply Qle_shift_div_l; [done|]. rewrite Qmult_0_l.
      change 0%Q with (inject_Z 0). rewrite <- Zle_Qle. lia. }
    apply Q.max_lub; lra.
  - intros Hnow. replace age with 0 by lia.
    unfold Qdiv. rewrite Qmult_0_l. apply Q.max_r. lra.
  - intros Hold. apply Q.max_l.
    assert (0.9 <= inject_Z age / inject_Z d)%Q; [|lra].
    apply Qle_shift_div_l; [done|].
    rewrite Zle_Qle, !inject_Z_mult in Hold.
    change (inject_Z 9) with 9%Q in Hold. change (inject_Z 10) with 10%Q in Hold.
    lra.
Qed.

(** X30. For a prompt with non-negative fields created in the past and a
    window of at least one day the trending score is not negative and,
    within 1, between a tenth of the base sum and the base sum: ageing
    never takes more than nine tenths of it away. *)
Theorem calculateTrendingScore_bounds now prompt days :
  0 <= score prompt -> 0 <= usageCount prompt ->
  (0 <= averageRating prompt)%Q -> 0 < days -> createdAt prompt <= now ->
  0 <= calculateTrendingScore now prompt days /\
  (trendingBase prompt * 0.1 - 1
     < inject_Z (calculateTrendingScore now prompt days)
     < trendingBase prompt + 1)%Q.
Proof.
  intros Hs Hu Hr Hdays Hage.
  rewrite calculateTrendingScore_base.
  destruct (ageMultiplier_cases now prompt days Hdays) as (Hle & _ & _).
  specialize (Hle Hage).
  pose proof (ageMultiplier_floor now prompt days) as Hfloor.
  assert (Hbase : (0 <= trendingBase prompt)%Q).
  { unfold trendingBase. rewrite Zle_Qle in Hs, Hu.
    change (inject_Z 0) with 0%Q in *. lra. }
  set (K := trendingBase prompt) in *.
  set (m := ageMultiplier now prompt days) in *.
  assert (Hlo : (0 <= K * (m - 0.1))%Q) by (apply Qmult_le_0_compat; lra).
  assert (Hhi : (0 <= K * (1 - m))%Q) by (apply Qmult_le_0_compat; lra).
  pose proof (Math_round_near (K * m)) as Hnear.
  split.
  - apply Math_round_ge. change (inject_Z 0) with 0%Q.
    apply Qmult_le_0_compat; lra.
  - split; lra.
Qed.

End TrendingMore.

(** ** The properties on the sample inputs *)

Section SampleFacts.
Import PromptScoringEngine.

Lemma log10_lower_nonneg : log10_nonneg Js.log10_lower.
Proof.
  intros x Hx. unfold Js.log10_lower.
  apply Qmult_le_0_compat; [|lra].
  change 0%Q with (inject_Z 0). rewrite <- Zle_Qle. apply Z.log2_nonneg.
Qed.

Lemma log10_lower_monotone : log10_monotone Js.log10_lower.
Proof.
  intros x y Hxy. unfold Js.log10_lower.
  apply Qmult_le_compat_r; [|lra].
  rewrite <- Zle_Qle. apply Z.log2_le_mono. by apply Qfloor_resp_le.
Qed.

Lemma improves_sample : improves Sample2.modest Sample.prompt.
Proof. unfold improves. simpl. repeat split; try lia; lra. Qed.

End SampleFacts.

Lemma calculateRatingScore_bounds_witness :
  (0 <= PromptScoringEngine.averageRating Sample.prompt <= 5)%Q /\
  -25 <= PromptScoringEngine.calculateRatingScore Sample.prompt <= 100.
Proof.
  assert (Havg : (0 <= PromptScoringEngine.averageRating Sample.prompt <= 5)%Q)
    by (simpl; split; lra).
  split; [exact Havg|].
  exact (proj1 (calculateRatingScore_bounds Sample.prompt) Havg).
Defined.

Lemma calculateRatingScore_monotone_witness :
  PromptScoringEngine.ratingCount Sample2.modest =
  PromptScoringEngine.ratingCount Sample.prompt /\
  (PromptScoringEngine.averageRating Sample2.modest <=
   PromptScoringEngine.averageRating Sample.prompt)%Q /\
  PromptScoringEngine.calculateRatingScore Sample2.modest <=
  PromptScoringEngine.calculateRatingScore Sample.prompt.
Proof.
  assert (Hn : PromptScoringEngine.ratingCount Sample2.modest =
               PromptScoringEngine.ratingCount Sample.prompt)
    by reflexivity.
  assert (Ha : (PromptScoringEngine.averageRating Sample2.modest <=
                PromptScoringEngine.averageRating Sample.prompt)%Q)
    by (simpl; lra).
  split; [exact Hn|]. split; [exact Ha|].
  exact (proj1 (calculateRatingScore_monotone Sample2.modest Sample.prompt)
           Hn Ha).
Defined.

Lemma calculateRecencyScore_bounds_witness :
  PromptScoringEngine.lastUsedDaysAgo Sample2.modest =
  PromptScoringEngine.lastUsedDaysAgo Sample2.older /\
  (PromptScoringEngine.daysSinceCreated Sample2.modest <=
   PromptScoringEngine.daysSinceCreated Sample2.older)%Q /\
  PromptScoringEngine.calculateRecencyScore Sample2.older <=
  PromptScoringEngine.calculateRecencyScore Sample2.modest.
Proof.
  assert (Hl : PromptScoringEngine.lastUsedDaysAgo Sample2.modest =
               PromptScoringEngine.lastUsedDaysAgo Sample2.older)
    by reflexivity.
  assert (Hd : (PromptScoringEngine.daysSinceCreated Sample2.modest <=
                PromptScoringEngine.daysSinceCreated Sample2.older)%Q)
    by (simpl; lra).
  split; [exact Hl|]. split; [exact Hd|].
  exact (proj2 (calculateRecencyScore_bounds Sample2.modest Sample2.older)
           Hl Hd).
Defined.

Lemma calculateRecencyScore_recent_use_witness :
  PromptScoringEngine.lastUsedDaysAgo Sample2.recentlyUsed = Some 2%Q /\
  (2 < 7)%Q /\
  3 <= PromptScoringEngine.calculateRecencyScore Sample2.recentlyUsed.
Proof.
  assert (Hl : PromptScoringEngine.lastUsedDaysAgo Sample2.recentlyUsed =
               Some 2%Q) by reflexivity.
  assert (Hlt : (2 < 7)%Q) by lra.
  split; [exact Hl|]. split; [exact Hlt|].
  exact (proj1 (calculateRecencyScore_recent_use Sample2.recentlyUsed)
           2%Q Hl Hlt).
Defined.

Lemma calculateEngagementScore_bounds_witness :
  10 <= PromptScoringEngine.favoriteCount Sample.prompt /\
  0 <= PromptScoringEngine.shareCount Sample.prompt /\
  0 <= PromptScoringEngine.commentCount Sample.prompt /\
  0 <= PromptScoringEngine.viewCount Sample.prompt /\
  PromptScoringEngine.calculateEngagementScore Sample.prompt = 30.
Proof.
  assert (Hf : 10 <= PromptScoringEngine.favoriteCount Sample.prompt)
    by (simpl; lia).
  assert (Hs : 0 <= PromptScoringEngine.shareCount Sample.prompt)
    by (simpl; lia).
  assert (Hc : 0 <= PromptScoringEngine.commentCount Sample.prompt)
    by (simpl; lia).
  assert (Hv : 0 <= PromptScoringEngine.viewCount Sample.prompt)
    by (simpl; lia).
  split; [exact Hf|]. split; [exact Hs|]. split; [exact Hc|].
  split; [exact Hv|].
  exact (proj2 (proj2 (calculateEngagementScore_bounds
                         Sample.prompt Sample.prompt)) Hf Hs Hc Hv).
Defined.

Lemma calculateUsageScore_bounds_witness :
  log10_nonneg Js.log10_lower /\ log10_monotone Js.log10_lower /\
  PromptScoringEngine.daysSinceCreated Sample2.modest =
  PromptScoringEngine.daysSinceCreated Sample.prompt /\
  0 <= PromptScoringEngine.usageCount Sample2.modest
    <= PromptScoringEngine.usageCount Sample.prompt /\
  PromptScoringEngine.calculateUsageScore Js.log10_lower Sample2.modest <=
  PromptScoringEngine.calculateUsageScore Js.log10_lower Sample.prompt.
Proof.
  assert (Hd : PromptScoringEngine.daysSinceCreated Sample2.modest =
               PromptScoringEngine.daysSinceCreated Sample.prompt)
    by reflexivity.
  assert (Hu : 0 <= PromptScoringEngine.usageCount Sample2.modest
                 <= PromptScoringEngine.usageCount Sample.prompt)
    by (simpl; lia).
  split; [exact log10_lower_nonneg|]. split; [exact log10_lower_monotone|].
  split; [exact Hd|]. split; [exact Hu|].
  exact (proj2 (calculateUsageScore_bounds Js.log10_lower
                  Sample2.modest Sample.prompt
                  log10_lower_nonneg log10_lower_monotone) Hd Hu).
Defined.

Lemma calculateScore_monotone_witness :
  log10_nonneg Js.log10_lower /\ log10_monotone Js.log10_lower /\
  improves Sample2.modest Sample.prompt /\
  PromptScoringEngine.calculateScore Js.log10_lower Sample2.modest <=
  PromptScoringEngine.calculateScore Js.log10_lower Sample.prompt.
Proof.
  split; [exact log10_lower_nonneg|]. split; [exact log10_lower_monotone|].
  split; [exact improves_sample|].
  exact (calculateScore_monotone Js.log10_lower Sample2.modest Sample.prompt
           log10_lower_nonneg log10_lower_monotone improves_sample).
Defined.

Lemma applyCategoryAdjustments_defined_witness :
  Js.inheritedKey "unknown-category" = false /\
  ("unknown-category"%string ∉
     ["code-development"; "education-learning";
      "personal-lifestyle"]%string) /\
  PromptScoringEngine.applyCategoryAdjustments (inject_Z 61) Sample.prompt
    "unknown-category" = Some 61.
Proof.
  assert (Hkey : Js.inheritedKey "unknown-category" = false) by reflexivity.
  assert (Hc : "unknown-category"%string ∉
                 ["code-development"; "education-learning";
                  "personal-lifestyle"]%string)
    by (apply (bool_decide_unpack _); vm_compute; exact I).
  split; [exact Hkey|]. split; [exact Hc|].
  exact (proj2 (applyCategoryAdjustments_defined 0%Q Sample.prompt
                  "unknown-category") 61 Hkey Hc).
Defined.

Lemma applyCategoryAdjustments_monotone_witness :
  (inject_Z 61 <= inject_Z 100)%Q /\
  PromptScoringEngine.applyCategoryAdjustments (inject_Z 61) Sample.prompt
    "code-development" = Some 67 /\
  PromptScoringEngine.applyCategoryAdjustments (inject_Z 100) Sample.prompt
    "code-development" = Some 110 /\
  67 <= 110.
Proof.
  assert (Hs : (inject_Z 61 <= inject_Z 100)%Q) by (vm_compute; discriminate).
  assert (Ha : PromptScoringEngine.applyCategoryAdjustments
                 (inject_Z 61) Sample.prompt "code-development" = Some 67)
    by (vm_compute; reflexivity).
  assert (Ha' : PromptScoringEngine.applyCategoryAdjustments
                  (inject_Z 100) Sample.prompt "code-development" = Some 110)
    by (vm_compute; reflexivity).
  split; [exact Hs|]. split; [exact Ha|]. split; [exact Ha'|].
  exact (applyCategoryAdjustments_monotone _ _ Sample.prompt Sample.prompt
           "code-development" 67 110 Hs Ha Ha').
Defined.

Lemma applyCategoryAdjustments_bounds_witness :
  0 <= 61 <= 200 /\
  PromptScoringEngine.applyCategoryAdjustments (inject_Z 61) Sample.prompt
    "personal-lifestyle" = Some 58 /\
  0 <= 58 <= 220 /\ 58 <= 61.
Proof.
  assert (Hn : 0 <= 61 <= 200) by lia.
  assert (Ha : PromptScoringEngine.applyCategoryAdjustments
                 (inject_Z 61) Sample.prompt "personal-lifestyle" = Some 58)
    by (vm_compute; reflexivity).
  assert (H1 : "personal-lifestyle"%string <> "code-development"%string)
    by discriminate.
  assert (H2 : "personal-lifestyle"%string <> "education-learning"%string)
    by discriminate.
  destruct (applyCategoryAdjustments_bounds 61 Sample.prompt
              "personal-lifestyle" 58 Hn Ha) as (Hrange & _ & Hle).
  split; [exact Hn|]. split; [exact Ha|]. split; [exact Hrange|].
  exact (Hle H1 H2).
Defined.

Section BadgeSamples.
Import BadgeEligibilityEngine.

Lemma statsLe_sample : statsLe Sample.newcomer Sample2.regular.
Proof. unfold statsLe. simpl. repeat split; try lia; lra. Qed.

Lemma newcomer_grants now :
  map badgeId (checkEligibility now Sample.newcomer []) =
  ["first-steps"]%string.
Proof. by vm_compute. Qed.

Lemma regular_grants now :
  map badgeId (checkEligibility now Sample2.regular []) =
  ["first-steps"; "getting-started"; "popular-choice"; "crowd-favorite";
   "well-received"; "highly-rated"; "consistent"]%string.
Proof. by vm_compute. Qed.

Lemma belowEveryThreshold_blank : belowEveryThreshold Sample2.blank.
Proof.
  unfold belowEveryThreshold. simpl.
  split; [lia|]. split; [lia|]. split; [intros [_ Hn]; lia|].
  repeat split; lia.
Qed.

End BadgeSamples.

Lemma checkEligibility_stats_monotone_witness :
  statsLe Sample.newcomer Sample2.regular /\
  ("first-steps"%string ∈
     map BadgeEligibilityEngine.badgeId
       (BadgeEligibilityEngine.checkEligibility 0 Sample.newcomer [])) /\
  "first-steps"%string ∈
     map BadgeEligibilityEngine.badgeId
       (BadgeEligibilityEngine.checkEligibility 1 Sample2.regular []).
Proof.
  assert (Hin : "first-steps"%string ∈
     map BadgeEligibilityEngine.badgeId
       (BadgeEligibilityEngine.checkEligibility 0 Sample.newcomer [])).
  { rewrite newcomer_grants. apply list_elem_of_here. }
  split; [exact statsLe_sample|]. split; [exact Hin|].
  exact (checkEligibility_stats_monotone 0 1 Sample.newcomer Sample2.regular
           [] "first-steps" statsLe_sample Hin).
Defined.

Lemma checkEligibility_more_held_witness :
  heldIds [] ⊆ heldIds [Sample2.firstSteps] /\
  BadgeEligibilityEngine.checkEligibility 0 Sample2.regular
    [Sample2.firstSteps] =
  filter (fun g => BadgeEligibilityEngine.badgeId g ∉
                   heldIds [Sample2.firstSteps])
    (BadgeEligibilityEngine.checkEligibility 0 Sample2.regular []).
Proof.
  assert (Hsub : heldIds [] ⊆ heldIds [Sample2.firstSteps]).
  { simpl. apply list_subseteq_nil. }
  split; [exact Hsub|].
  exact (checkEligibility_more_held 0 Sample2.regular []
           [Sample2.firstSteps] Hsub).
Defined.

Lemma checkEligibility_tiers_witness :
  (("getting-started", "first-steps")%string ∈ tierBelow) /\
  ("getting-started"%string ∈
     map BadgeEligibilityEngine.badgeId
       (BadgeEligibilityEngine.checkEligibility 0 Sample2.regular [])) /\
  ("first-steps"%string ∈
     map BadgeEligibilityEngine.badgeId
       (BadgeEligibilityEngine.checkEligibility 0 Sample2.regular []) \/
   "first-steps"%string ∈ heldIds []).
Proof.
  assert (Htier : ("getting-started", "first-steps")%string ∈ tierBelow).
  { unfold tierBelow. apply list_elem_of_here. }
  assert (Hin : "getting-started"%string ∈
     map BadgeEligibilityEngine.badgeId
       (BadgeEligibilityEngine.checkEligibility 0 Sample2.regular [])).
  { rewrite regular_grants. apply list_elem_of_further, list_elem_of_here. }
  split; [exact Htier|]. split; [exact Hin|].
  exact (checkEligibility_tiers 0 Sample2.regular [] _ _ Htier Hin).
Defined.

Lemma checkEligibility_nothing_witness :
  belowEveryThreshold Sample2.blank /\
  BadgeEligibilityEngine.checkEligibility 0 Sample2.blank [] = [].
Proof.
  split; [exact belowEveryThreshold_blank|].
  exact (proj2 (checkEligibility_nothing 0 Sample2.blank)
           belowEveryThreshold_blank).
Defined.

Section StreakSamples.
Import BadgeEligibilityEngine.

Lemma leapDays_valid : Forall isCalendarDay Sample2.leapDays.
Proof. repeat constructor; by eexists. Qed.

Lemma farDays_valid : Forall isCalendarDay Sample2.farDays.
Proof. repeat constructor; by eexists. Qed.

Lemma leapDays_run :
  map dayNumber Sample2.leapDays ≡ₚ seqZ (dayNumber "2024-02-28") 3.
Proof.
  assert (Hl : map dayNumber Sample2.leapDays =
               [dayNumber "2024-02-28" + 2; dayNumber "2024-02-28";
                dayNumber "2024-02-28" + 1]) by (by vm_compute).
  assert (Hr : seqZ (dayNumber "2024-02-28") 3 =
               [dayNumber "2024-02-28"; dayNumber "2024-02-28" + 1;
                dayNumber "2024-02-28" + 2]) by (by vm_compute).
  rewrite Hl, Hr.
  etransitivity; [apply perm_swap|]. apply perm_skip, perm_swap.
Qed.

Lemma farDays_isolated d d' :
  d ∈ Sample2.farDays -> d' ∈ Sample2.farDays ->
  dayNumber d' - dayNumber d <> 1.
Proof.
  unfold Sample2.farDays. intros Hd Hd'.
  repeat (apply elem_of_cons in Hd as [->|Hd]);
    try (by apply elem_of_nil in Hd);
    repeat (apply elem_of_cons in Hd' as [->|Hd']);
    try (by apply elem_of_nil in Hd');
    by vm_compute.
Qed.

End StreakSamples.

Lemma calculateLongestStreak_bounds_witness :
  Sample2.leapDays <> [] /\
  1 <= BadgeEligibilityEngine.calculateLongestStreak Sample2.leapDays
    <= Z.of_nat (length Sample2.leapDays).
Proof.
  assert (Hne : Sample2.leapDays <> []) by discriminate.
  split; [exact Hne|].
  exact (proj2 (calculateLongestStreak_bounds Sample2.leapDays) Hne).
Defined.

Lemma calculateLongestStreak_order_independent_witness :
  Forall isCalendarDay Sample2.leapDays /\
  Sample2.leapDays ≡ₚ rev Sample2.leapDays /\
  BadgeEligibilityEngine.calculateLongestStreak (rev Sample2.leapDays) =
  BadgeEligibilityEngine.calculateLongestStreak Sample2.leapDays.
Proof.
  assert (Hperm : Sample2.leapDays ≡ₚ rev Sample2.leapDays)
    by apply Permutation_rev.
  split; [exact leapDays_valid|]. split; [exact Hperm|].
  exact (proj1 (calculateLongestStreak_order_independent Sample2.leapDays
                  (rev Sample2.leapDays) leapDays_valid Hperm)).
Defined.

Lemma calculateLongestStreak_values_witness :
  Forall isCalendarDay Sample2.leapDays /\ 0 < 3 /\
  map dayNumber Sample2.leapDays ≡ₚ seqZ (dayNumber "2024-02-28") 3 /\
  BadgeEligibilityEngine.calculateLongestStreak Sample2.leapDays = 3 /\
  Forall isCalendarDay Sample2.farDays /\ Sample2.farDays <> [] /\
  BadgeEligibilityEngine.calculateLongestStreak Sample2.farDays = 1.
Proof.
  assert (Hk : 0 < 3) by lia.
  assert (Hne : Sample2.farDays <> []) by discriminate.
  split; [exact leapDays_valid|]. split; [exact Hk|].
  split; [exact leapDays_run|].
  split; [exact (proj1 (calculateLongestStreak_values Sample2.leapDays
                          leapDays_valid) _ 3 Hk leapDays_run)|].
  split; [exact farDays_valid|]. split; [exact Hne|].
  exact (proj2 (calculateLongestStreak_values Sample2.farDays farDays_valid)
           Hne farDays_isolated).
Defined.

Section StatsSamples.
Import BadgeEligibilityEngine.

Lemma userData_foreign p :
  p ∈ prompts Sample2.userData -> id p <> promptId Sample2.foreignScore.
Proof.
  simpl. intros Hp. apply elem_of_cons in Hp as [->|Hp]; [discriminate|].
  by apply elem_of_nil in Hp.
Qed.

Lemma userData_ratings :
  Forall (fun s => 1 <= ps_score s <= 5) (promptScores Sample2.userData).
Proof. repeat constructor; simpl; lia. Qed.

Lemma userData_day :
  Js.split_T_0 (ue_createdAt Sample2.sameDayUse) ∈
  activityDates Sample2.userData.
Proof.
  assert (H : activityDates Sample2.userData =
              ["2024-01-01"; "2024-01-02"]%string) by (by vm_compute).
  assert (Hd : Js.split_T_0 (ue_createdAt Sample2.sameDayUse) =
               "2024-01-02"%string) by (by vm_compute).
  rewrite H, Hd. apply list_elem_of_further, list_elem_of_here.
Qed.

Lemma userData_scored :
  Forall (fun p => exists signal,
            (PromptScoringEngine.averageRating signal <= 5)%Q /\
            score p = PromptScoringEngine.calculateScore Js.log10_lower signal)
         (prompts Sample2.userData).
Proof.
  repeat constructor. exists Sample.prompt. split; [simpl; lra|reflexivity].
Qed.

End StatsSamples.

Lemma calculateUserStats_foreign_rating_witness :
  BadgeEligibilityEngine.promptScores Sample2.userData =
  [Sample2.ownScore] ++ [] /\
  BadgeEligibilityEngine.calculateUserStats
    (withPromptScores Sample2.userData
       ([Sample2.ownScore] ++ Sample2.foreignScore :: [])) =
  BadgeEligibilityEngine.calculateUserStats Sample2.userData.
Proof.
  assert (Hs : BadgeEligibilityEngine.promptScores Sample2.userData =
               [Sample2.ownScore] ++ []) by reflexivity.
  split; [exact Hs|].
  exact (calculateUserStats_foreign_rating Sample2.userData
           [Sample2.ownScore] [] Sample2.foreignScore Hs userData_foreign).
Defined.

Lemma calculateUserStats_averageRating_witness :
  Forall (fun s => 1 <= BadgeEligibilityEngine.ps_score s <= 5)
         (BadgeEligibilityEngine.promptScores Sample2.userData) /\
  0 < BadgeEligibilityEngine.totalRatings
        (BadgeEligibilityEngine.calculateUserStats Sample2.userData) /\
  (1 <= BadgeEligibilityEngine.averageRating
          (BadgeEligibilityEngine.calculateUserStats Sample2.userData)
     <= 5)%Q.
Proof.
  assert (Hn : 0 < BadgeEligibilityEngine.totalRatings
                     (BadgeEligibilityEngine.calculateUserStats
                        Sample2.userData)) by (by vm_compute).
  split; [exact userData_ratings|]. split; [exact Hn|].
  exact (proj2 (calculateUserStats_averageRating Sample2.userData
                  userData_ratings) Hn).
Defined.

Lemma calculateUserStats_same_day_event_witness :
  Js.split_T_0 (BadgeEligibilityEngine.ue_createdAt Sample2.sameDayUse) ∈
    activityDates Sample2.userData /\
  BadgeEligibilityEngine.calculateUserStats
    (withUsageAnalytics Sample2.userData
       (BadgeEligibilityEngine.usageAnalytics Sample2.userData ++
        [Sample2.sameDayUse])) =
  BadgeEligibilityEngine.calculateUserStats Sample2.userData.
Proof.
  split; [exact userData_day|].
  exact (calculateUserStats_same_day_event Sample2.userData
           Sample2.sameDayUse userData_day).
Defined.

Lemma badges_from_user_data_witness :
  BadgeEligibilityEngine.prompts Sample2.userData <> [] /\
  ("first-steps"%string ∈
     map BadgeEligibilityEngine.badgeId
       (BadgeEligibilityEngine.checkEligibility 0
          (BadgeEligibilityEngine.calculateUserStats Sample2.userData) [])) /\
  "community-favorite"%string ∉
     map BadgeEligibilityEngine.badgeId
       (BadgeEligibilityEngine.checkEligibility 0
          (BadgeEligibilityEngine.calculateUserStats Sample2.userData) []).
Proof.
  assert (Hne : BadgeEligibilityEngine.prompts Sample2.userData <> [])
    by discriminate.
  destruct (badges_from_user_data Js.log10_lower 0 Sample2.userData [])
    as [Hfirst Hnever].
  split; [exact Hne|]. split; [exact (proj2 Hfirst Hne)|].
  exact (Hnever userData_scored).
Defined.

Lemma generateGlobalLeaderboard_best_witness :
  0 <= 2 /\
  length (LeaderboardEngine.generateGlobalLeaderboard Sample2.users 2) =
  Nat.min (Z.to_nat 2) (length (List.filter qualifies Sample2.users)).
Proof.
  assert (Hlimit : 0 <= 2) by lia.
  split; [exact Hlimit|].
  destruct (generateGlobalLeaderboard_best Sample2.users 2)
    as (_ & _ & _ & rest & _ & _ & _ & Hlen).
  exact (Hlen Hlimit).
Defined.

Lemma generateCategoryLeaderboard_sorted_witness :
  0 <= 2 /\
  length (LeaderboardEngine.generateCategoryLeaderboard Sample2.users
            "code-development" 2) =
  Nat.min (Z.to_nat 2)
          (length (categoryCandidates Sample2.users "code-development")).
Proof.
  assert (Hlimit : 0 <= 2) by lia.
  split; [exact Hlimit|].
  exact (proj2 (proj2 (proj2 (generateCategoryLeaderboard_sorted
                                Sample2.users "code-development" 2)))
           Hlimit).
Defined.

Lemma generateTrendingLeaderboard_sorted_witness :
  0 < 7 /\
  StronglySorted (fun s s' => s' <= s)
    (map LeaderboardEngine.trendingScore
       (LeaderboardEngine.generateTrendingLeaderboard (5 * Js.msPerDay)
          [Sample.agedPrompt; Sample2.designPrompt] 7 10)).
Proof.
  assert (Hdays : 0 < 7) by lia.
  split; [exact Hdays|].
  exact (proj2 (proj2 (generateTrendingLeaderboard_sorted
                         (5 * Js.msPerDay)
                         [Sample.agedPrompt; Sample2.designPrompt]
                         7 10 Hdays))).
Defined.

Lemma categoryStats_other_prompts_witness :
  inCategory "code-development" Sample2.designPrompt = false /\
  LeaderboardEngine.categoryScore
    (LeaderboardEngine.categoryStats "code-development"
       (withPrompts (Sample.user 10)
          (Some ([Sample.agedPrompt] ++ Sample2.designPrompt :: [])))) =
  LeaderboardEngine.categoryScore
    (LeaderboardEngine.categoryStats "code-development"
       (withPrompts (Sample.user 10) (Some ([Sample.agedPrompt] ++ [])))).
Proof.
  assert (Hp : inCategory "code-development" Sample2.designPrompt = false)
    by reflexivity.
  split; [exact Hp|].
  exact (proj1 (proj2 (categoryStats_other_prompts "code-development"
                         (Sample.user 10) [Sample.agedPrompt]
                         Sample2.designPrompt [] Hp))).
Defined.

Lemma calculateCategoryAverageRating_bounds_witness :
  Forall (fun p => 0 <= LeaderboardEngine.ratingCount p /\
                   (0 <= LeaderboardEngine.averageRating p <= 5)%Q)
         [Sample2.designPrompt; Sample.agedPrompt] /\
  (0 <= LeaderboardEngine.calculateCategoryAverageRating
          [Sample2.designPrompt; Sample.agedPrompt] <= 5)%Q.
Proof.
  assert (Hall : Forall (fun p => 0 <= LeaderboardEngine.ratingCount p /\
                   (0 <= LeaderboardEngine.averageRating p <= 5)%Q)
         [Sample2.designPrompt; Sample.agedPrompt]).
  { repeat constructor; simpl; try lia; lra. }
  split; [exact Hall|].
  exact (proj1 (calculateCategoryAverageRating_bounds
                  [Sample2.designPrompt; Sample.agedPrompt] Hall)).
Defined.

Lemma calculateTrendingScore_bounds_witness :
  0 <= LeaderboardEngine.score Sample.agedPrompt /\
  0 <= LeaderboardEngine.usageCount Sample.agedPrompt /\
  (0 <= LeaderboardEngine.averageRating Sample.agedPrompt)%Q /\
  0 < 10 /\ LeaderboardEngine.createdAt Sample.agedPrompt <= 86400000 /\
  (trendingBase Sample.agedPrompt * 0.1 - 1
     < inject_Z (LeaderboardEngine.calculateTrendingScore
                   86400000 Sample.agedPrompt 10)
     < trendingBase Sample.agedPrompt + 1)%Q.
Proof.
  assert (Hs : 0 <= LeaderboardEngine.score Sample.agedPrompt)
    by (simpl; lia).
  assert (Hu : 0 <= LeaderboardEngine.usageCount Sample.agedPrompt)
    by (simpl; lia).
  assert (Hr : (0 <= LeaderboardEngine.averageRating Sample.agedPrompt)%Q)
    by (simpl; lra).
  assert (Hdays : 0 < 10) by lia.
  assert (Hage : LeaderboardEngine.createdAt Sample.agedPrompt <= 86400000)
    by (simpl; lia).
  split; [exact Hs|]. split; [exact Hu|]. split; [exact Hr|].
  split; [exact Hdays|]. split; [exact Hage|].
  exact (proj2 (calculateTrendingScore_bounds 86400000 Sample.agedPrompt 10
                  Hs Hu Hr Hdays Hage)).
Defined.
